(** * Elev8 flight controller: the main thread of [Firmware-C/elev8-main.cpp]

    A shallow embedding of the main thread of the Elev8 quadcopter firmware:
    the gyro zeroing protocol, the per-tick flight loop (arming gestures,
    cascade control, X mixer, output clamp), the status LED selection, the
    ground-station command handler and the telemetry pulse timers, followed
    by the properties established about them.

    Conventions of the embedding.
    - C [int]/[long] values are integers in [Z]; every arithmetic result is
      brought back into 32 bits with [int32], every store into a [short]
      with [int16].  [/] is C's truncating division ([Z.quot]), [>>] the
      arithmetic shift ([Z.shiftr]).
    - The global variables of the translation unit are the fields of
      [State]; a function of the firmware is a function [State -> State]
      (with its result, when it has one).
    - The drivers the main thread talks to (integer PID, quaternion IMU,
      sensor driver, preference storage) are interfaces: their state is an
      abstract type and their entry points are the members of a class.
    - Fire-and-forget calls (beeps, servo pulses, telemetry packets) are
      appended to the [trace] of the state.
    - Wall-clock bookkeeping ([CNT], [loopTimer], [LoopCycles], [waitcnt])
      has no counterpart: a tick of the model is one iteration of the loop. *)

From stdpp Require Import base list numbers.
From Stdlib Require Import ZArith Lia Bool.
From coqutil Require Import Datatypes.RecordSetters.
Import TriangleBracketNotations.

Open Scope Z_scope.

(** ** Machine integers *)

Definition wrap (bits x : Z) : Z :=
  (x + 2 ^ (bits - 1)) mod 2 ^ bits - 2 ^ (bits - 1).

Definition int32 (x : Z) : Z := wrap 32 x.
Definition int16 (x : Z) : Z := wrap 16 x.
(* a byte stored through a [char *] *)
Definition uint8 (x : Z) : Z := x mod 256.

(** ** Small helpers of the source *)

Definition clamp (v min max : Z) : Z :=
  let v := if v <? min then min else v in
  let v := if v >? max then max else v in
  v.

(* For the most negative 32-bit value the source's [-v] overflows, which C
   leaves undefined; the wrap-around written here is what two's-complement
   negation gives.  The statements below that go through [abs] keep its
   argument away from that value. *)
Definition abs (v : Z) : Z :=
  let v := if v <? 0 then int32 (- v) else v in
  v.

Definition max (a b : Z) : Z := if a >? b then a else b.
Definition min (a b : Z) : Z := if a <? b then a else b.

(** [for (int i = 0; i < n; i++) body] *)
Definition for_loop {S : Type} (n : nat) (body : nat -> S -> S) (s : S) : S :=
  fold_left (fun acc i => body i acc) (seq 0 n) s.

(** [a[i]] for an in-range index of an [int] array *)
Definition at_ (l : list Z) (i : nat) : Z := default 0 (l !! i).

(** ** Values of the headers

    [constants.h], [elev8-main.h] and [pins.h] are not part of the compiled
    unit at hand; the values they define are the members of this class. *)

Class Header := {
  MODE_None : Z;
  MODE_SensorTest : Z;
  MODE_MotorTest : Z;
  LED_Red : Z;  LED_Green : Z;  LED_Blue : Z;  LED_White : Z;
  LED_Yellow : Z;  LED_Violet : Z;  LED_Cyan : Z;
  LED_Half : Z;
  LED_COUNT : nat;
  Const_OneG : Z;
  Const_UpdateRate : Z;
  PIN_MOTOR_FL : Z;  PIN_MOTOR_FR : Z;  PIN_MOTOR_BR : Z;  PIN_MOTOR_BL : Z;
  PIN_BUZZER_1 : Z;
  (* conditional compilation *)
  PINS_V3 : bool;      (* __PINS_V3_H__ *)
  PINS_V2 : bool;      (* __V2_PINS_H__ *)
  FORCE_SBUS : bool;
}.

(** Motor slots.  The source copies [Motor[0..3]] to the pins FL, FR, BR, BL
    in that order, which fixes the four indices. *)
Definition OUT_FL : nat := 0.
Definition OUT_FR : nat := 1.
Definition OUT_BR : nat := 2.
Definition OUT_BL : nat := 3.

Definition AltiThrottleDeadband : Z := 100.
(* [static char AccelAssistZFactor = 32], never written *)
Definition AccelAssistZFactor : Z := 32.

Definition LEDBrightShift : Z := 0.
Definition LEDSingleMask : Z := 255 - (Z.shiftl 1 LEDBrightShift - 1).
Definition LEDBrightMask : Z :=
  Z.lor (Z.lor LEDSingleMask (Z.shiftl LEDSingleMask 8)) (Z.shiftl LEDSingleMask 16).

(** ** Data *)

Inductive FLIGHTMODE :=
| FlightMode_Assisted
| FlightMode_Automatic
| FlightMode_Manual
| FlightMode_CalibrateCompass.

#[global] Instance FLIGHTMODE_eq_dec : EqDecision FLIGHTMODE.
Proof. solve_decision. Defined.

(** The numbering is the order of [LEDColorTable], which the code indexes
    with [FlightMode & 3]. *)
Definition FLIGHTMODE_to_Z (m : FLIGHTMODE) : Z :=
  match m with
  | FlightMode_Assisted => 0
  | FlightMode_Automatic => 1
  | FlightMode_Manual => 2
  | FlightMode_CalibrateCompass => 3
  end.

(** Sensor snapshot, in the order the sensor cog publishes it. *)
Record SENS := mkSENS {
  Temperature : Z;
  GyroX : Z;  GyroY : Z;  GyroZ : Z;
  AccelX : Z; AccelY : Z; AccelZ : Z;
  MagX : Z;   MagY : Z;   MagZ : Z;
  Alt : Z;    AltTemp : Z;
}.

(** Radio frame: eight [short] channels, addressed by index through
    [Channel] and by name. *)
Record RADIO := mkRADIO { Channels : list Z }.

Definition Channel (r : RADIO) (i : nat) : Z := at_ (Channels r) i.
Definition Thro (r : RADIO) : Z := Channel r 0.
Definition Aile (r : RADIO) : Z := Channel r 1.
Definition Elev (r : RADIO) : Z := Channel r 2.
Definition Rudd (r : RADIO) : Z := Channel r 3.
Definition Gear (r : RADIO) : Z := Channel r 4.
Definition Aux1 (r : RADIO) : Z := Channel r 5.
Definition Aux2 (r : RADIO) : Z := Channel r 6.
Definition Aux3 (r : RADIO) : Z := Channel r 7.

(** User preferences: the fields the main thread reads or writes. *)
#[projections(primitive)]
Record PREFS := mkPREFS {
  DriftScale : list Z;
  AccelOffset : list Z;
  MagScaleOfs : list Z;
  RollCorrect : list Z;
  PitchCorrect : list Z;
  AutoLevelRollPitch : Z;
  AutoLevelYawRate : Z;
  ManualRollPitchRate : Z;
  ManualYawRate : Z;
  UseSBUS : Z;
  UseBattMon : Z;
  DisableMotors : Z;
  LowVoltageAlarm : Z;
  LowVoltageAlarmThreshold : Z;
  VoltageOffset : Z;
  AccelCorrectionFilter : Z;
  ThrustCorrectionScale : Z;
  MinThrottle : Z;
  MaxThrottle : Z;
  CenterThrottle : Z;
  MinThrottleArmed : Z;
  ArmDelay : Z;
  DisarmDelay : Z;
  ChannelIndex : list Z;
  ChannelScale : list Z;
  ChannelCenter : list Z;
  Checksum : Z;
}.

(** What the main thread asks of the outside world without waiting for an
    answer. *)
Inductive Event :=
| E_Servo32_Set (pin value : Z)
| E_Beep
| E_Beep2
| E_Beep3
| E_BeepTune
| E_BeepHz (hz ms : Z)
| E_BeepOn (ctr pin hz : Z)
| E_BeepOff (ctr : Z)
| E_Packet (port id : Z) (payload : list Z)
(* the three-argument [Comm.StartPacket] and [Comm.AddPacketData] and the
   one-argument [Comm.EndPacket] of the settings query, recorded with the
   arguments the source passes: [commlink.h] is not among the sources, so
   what the first argument selects is not interpreted *)
| E_Comm_StartPacket (arg id size : Z)
| E_Comm_AddPacketData (arg : Z) (data : list Z)
| E_Comm_EndPacket (arg : Z)
| E_S4_Put (port byte : Z)
| E_Battery_DischargePin
| E_Battery_ChargePin.

(** ** Driver interfaces *)

(** [intpid.h] *)
Class IntPID_ops := {
  IntPID : Type;
  PID_Init : Z -> Z -> Z -> Z -> IntPID;
  SetPrecision : Z -> IntPID -> IntPID;
  SetMaxOutput : Z -> IntPID -> IntPID;
  SetPIMax : Z -> IntPID -> IntPID;
  SetMaxIntegral : Z -> IntPID -> IntPID;
  SetDervativeFilter : Z -> IntPID -> IntPID;
  SetPGain : Z -> IntPID -> IntPID;
  SetIGain : Z -> IntPID -> IntPID;
  ResetIntegralError : IntPID -> IntPID;
  (* [Calculate( SetPoint, Measured, DoIntegrate )] *)
  Calculate : Z -> Z -> Z -> IntPID -> Z * IntPID;
}.

(** [quatimu.h] *)
Class QuatIMU_ops := {
  QuatIMU : Type;
  QuatIMU_Start : QuatIMU;
  QuatIMU_SetInitialAltitudeGuess : Z -> QuatIMU -> QuatIMU;
  QuatIMU_Update : SENS -> QuatIMU -> QuatIMU;
  QuatIMU_UpdateControls : RADIO -> bool -> QuatIMU -> QuatIMU;
  QuatIMU_GetPitchDifference : QuatIMU -> Z;
  QuatIMU_GetRollDifference : QuatIMU -> Z;
  QuatIMU_GetYawDifference : QuatIMU -> Z;
  QuatIMU_GetAltitudeEstimate : QuatIMU -> Z;
  QuatIMU_GetVerticalVelocityEstimate : QuatIMU -> Z;
  QuatIMU_GetThrustFactor : QuatIMU -> Z;
  QuatIMU_ResetDesiredOrientation : QuatIMU -> QuatIMU;
  QuatIMU_ResetDesiredYaw : QuatIMU -> QuatIMU;
  QuatIMU_SetGyroZero : Z -> Z -> Z -> QuatIMU -> QuatIMU;
  QuatIMU_SetRollCorrection : list Z -> QuatIMU -> QuatIMU;
  QuatIMU_SetPitchCorrection : list Z -> QuatIMU -> QuatIMU;
  QuatIMU_SetAutoLevelRates : Z -> Z -> QuatIMU -> QuatIMU;
  QuatIMU_SetManualRates : Z -> Z -> QuatIMU -> QuatIMU;
  QuatIMU_GetQuaternion : QuatIMU -> list Z;
  QuatIMU_GetDesiredQ : QuatIMU -> list Z;
  QuatIMU_GetDebugFloat : QuatIMU -> list Z;
}.

(** [sensors.h]: the calibration the sensor cog applies to its readings *)
Class Sensors_ops := {
  SensorCal : Type;
  Sensors_Start : SensorCal;
  Sensors_TempZeroDriftValues : SensorCal -> SensorCal;
  Sensors_ResetDriftValues : SensorCal -> SensorCal;
  Sensors_TempZeroAccelOffsetValues : SensorCal -> SensorCal;
  Sensors_ResetAccelOffsetValues : SensorCal -> SensorCal;
  Sensors_SetDriftValues : list Z -> SensorCal -> SensorCal;
  Sensors_SetAccelOffsetValues : list Z -> SensorCal -> SensorCal;
  Sensors_SetMagnetometerScaleOffsets : list Z -> SensorCal -> SensorCal;
}.

(** [prefs.h]: layout, checksum and persistent copy of the preferences *)
Class Prefs_ops := {
  EEPROM : Type;
  sizeof_Prefs : nat;
  (* the record a block of [sizeof_Prefs] bytes denotes, and its bytes *)
  PREFS_of_bytes : list Z -> PREFS;
  bytes_of_PREFS : PREFS -> list Z;
  Prefs_CalculateChecksum : PREFS -> Z;
  Prefs_Save : PREFS -> EEPROM -> EEPROM;
  (* [Prefs_Load] fills [Prefs] and reports whether the stored copy was valid *)
  Prefs_Load : EEPROM -> PREFS -> bool * PREFS;
  Prefs_SetDefaults : PREFS -> PREFS;
}.

Section MainThread.

Context {hdr : Header} {pid : IntPID_ops} {imu_ops : QuatIMU_ops}
        {sens_ops : Sensors_ops} {prefs_ops : Prefs_ops}.

(** ** The state of the main thread *)

#[projections(primitive)]
Record State := mkState {
  (* telemetry heartbeat countdowns *)
  UsbPulse : Z;
  XBeePulse : Z;
  (* receiver and sensor inputs *)
  Radio : RADIO;
  sens : SENS;
  GyroZX : Z;  GyroZY : Z;  GyroZZ : Z;
  AccelZSmooth : Z;
  (* debug link *)
  counter : Z;
  Mode : Z;
  NudgeMotor : Z;
  (* altitude and attitude *)
  AltiEst : Z;  AscentEst : Z;
  DesiredAltitude : Z;  DesiredAscentRate : Z;
  RollDifference : Z;  PitchDifference : Z;  YawDifference : Z;
  GyroRoll : Z;  GyroPitch : Z;  GyroYaw : Z;
  GyroRPFilter : Z;  GyroYawFilter : Z;
  (* outputs *)
  Motor : list Z;
  LEDValue : list Z;
  (* arming and flight mode *)
  FlightEnableStep : Z;
  CompassConfigStep : Z;
  FlightEnabled : Z;
  FlightMode : FLIGHTMODE;
  IsHolding : Z;
  BatteryMonitorDelay : Z;
  MotorPin : list Z;
  LEDModeColor : Z;
  BatteryVolts : Z;
  (* controllers *)
  RollPID : IntPID;  PitchPID : IntPID;  YawPID : IntPID;
  AltPID : IntPID;   AscentPID : IntPID;
  (* preferences *)
  Prefs : PREFS;
  (* drivers *)
  imu : QuatIMU;
  sensor_cal : SensorCal;
  eeprom : EEPROM;
  (* serial receive queues of port 0 (USB) and port 1 (XBee) *)
  rx0 : list Z;
  rx1 : list Z;
  (* calls made so far *)
  trace : list Event;
}.

(** What reaches the main thread from outside during one tick. *)
Record TickIn := mkTickIn {
  (* the snapshot [memcpy]'d from the sensor cog *)
  in_sens : SENS;
  (* [SBUS::GetRC] and [RC::GetRC] *)
  in_SBUS_GetRC : Z -> Z;
  in_RC_GetRC : Z -> Z;
  (* [Sensors_In(reg)] at the n-th live read of the tick *)
  in_Sensors_In : nat -> Z -> Z;
  (* [Battery::ComputeVoltage( Battery::ReadResult() )] *)
  in_battery : Z;
  (* bytes received on each port since the previous tick *)
  in_usb : list Z;
  in_xbee : list Z;
  (* the bytes the two blocking [S4_Get(0)] of the ESC calibration wait for
     when the queue is empty *)
  in_late0 : Z * Z;
  (* content of the uninitialised local [phase] of DoDebugModeOutput *)
  in_phase : Z;
}.

Definition emit (e : Event) (s : State) : State :=
  s <| trace := trace s ++ [e] |>.

Definition Servo32_Set (pin value : Z) : State -> State := emit (E_Servo32_Set pin value).
Definition Beep : State -> State := emit E_Beep.
Definition Beep2 : State -> State := emit E_Beep2.
Definition Beep3 : State -> State := emit E_Beep3.
Definition BeepTune : State -> State := emit E_BeepTune.
Definition BeepHz (hz ms : Z) : State -> State := emit (E_BeepHz hz ms).
Definition BeepOn (ctr pin hz : Z) : State -> State := emit (E_BeepOn ctr pin hz).
Definition BeepOff (ctr : Z) : State -> State := emit (E_BeepOff ctr).

(** The character ['A'] that names the counter of the alarm tone. *)
Definition chr_A : Z := 65.

Definition All_LED (Color : Z) (s : State) : State :=
  s <| LEDValue := replicate LED_COUNT Color |>.

(** ** Serial port primitives *)

Definition rx (port : Z) (s : State) : list Z :=
  if port =? 0 then rx0 s else rx1 s.

Definition set_rx (port : Z) (q : list Z) (s : State) : State :=
  if port =? 0 then s <| rx0 := q |> else s <| rx1 := q |>.

(** [S4_Check]: the next byte of the port, or -1 when none is waiting. *)
Definition S4_Check (port : Z) (s : State) : Z * State :=
  match rx port s with
  | [] => (-1, s)
  | b :: q => (b, set_rx port q s)
  end.

(** [S4_Get_Timed]: the next byte, or -1 when the wait times out. *)
Definition S4_Get_Timed (port : Z) (s : State) : Z * State :=
  match rx port s with
  | [] => (-1, s)
  | b :: q => (b, set_rx port q s)
  end.

(** [S4_Get]: waits for a byte; [late] is the one that arrives when the
    queue is empty. *)
Definition S4_Get (port : Z) (late : Z) (s : State) : Z * State :=
  match rx port s with
  | [] => (late, s)
  | b :: q => (b, set_rx port q s)
  end.

(** ** Gyro zeroing *)

(** Working set of one sampling window of FindGyroZero, with the number of
    live sensor reads made so far. *)
Record GyroWindow := mkGyroWindow {
  reads : nat;
  vmin : list Z;
  vmax : list Z;
  avg : list Z;
}.

Section GyroZero.

Variable Sensors_In : nat -> Z -> Z.

(** First loop of the window: one reading per axis starts min and max. *)
Definition gz_start (w : GyroWindow) : GyroWindow :=
  for_loop 3 (fun a w =>
    let v := Sensors_In (reads w) (1 + Z.of_nat a) in
    mkGyroWindow (S (reads w)) (<[a := v]> (vmin w)) (<[a := v]> (vmax w))
                 (<[a := 0]> (avg w))) w.

(** Body of the 64-sample loop. *)
Definition gz_sample (w : GyroWindow) : GyroWindow :=
  for_loop 3 (fun a w =>
    let v := Sensors_In (reads w) (1 + Z.of_nat a) in
    mkGyroWindow (S (reads w))
                 (<[a := min (at_ (vmin w) a) v]> (vmin w))
                 (<[a := max (at_ (vmax w) a) v]> (vmax w))
                 (<[a := int32 (at_ (avg w) a + v)]> (avg w))) w.

(** Last loop of the window: averages and the largest variation. *)
Definition gz_variation (w : GyroWindow) : GyroWindow * Z :=
  for_loop 3 (fun a '(w, maxVar) =>
    let avg_a := Z.quot (at_ (avg w) a) 64 in
    let w := mkGyroWindow (reads w) (vmin w) (vmax w) (<[a := avg_a]> (avg w)) in
    let var := int32 (Z.quot (int32 (at_ (vmax w) a + at_ (vmin w) a)) 2 - at_ (avg w) a) in
    (w, max maxVar (abs var))) (w, 0).

(** One pass of the do-while body up to the update of [best]. *)
Definition gz_window (w : GyroWindow) : GyroWindow * Z :=
  gz_variation (for_loop 64 (fun _ => gz_sample) (gz_start w)).

Record GyroSearch := mkGyroSearch {
  win : GyroWindow;
  best : list Z;
  bestvar : Z;
  TryCounter : Z;
  beeps : list Event;
}.

Definition MinTries : Z := 2.
Definition MaxTries : Z := 64.

Definition gz_body (g : GyroSearch) : GyroSearch :=
  let '(w, maxVar) := gz_window (win g) in
  let '(best', bestvar') :=
    if (bestvar g =? -1) || (maxVar <? bestvar g)
    then ([at_ (avg w) 0; at_ (avg w) 1; at_ (avg w) 2], maxVar)
    else (best g, bestvar g) in
  let beeps' :=
    if Z.land (TryCounter g) 3 =? 3 then beeps g ++ [E_BeepHz 4000 80] else beeps g in
  mkGyroSearch w best' bestvar' (int32 (TryCounter g + 1)) beeps'.

Definition gz_continue (g : GyroSearch) : bool :=
  (TryCounter g <? MaxTries) && ((bestvar g >? 2) || (TryCounter g <? MinTries)).

(** The do-while loop.  The body runs once, then again while the condition
    holds; [fuel] is the number of further passes allowed, and
    [MaxTries - 1] of them are never used up with the condition still
    true, as is shown below. *)
Fixpoint gz_loop (fuel : nat) (g : GyroSearch) : GyroSearch :=
  let g' := gz_body g in
  match fuel with
  | O => g'
  | S fuel' => if gz_continue g' then gz_loop fuel' g' else g'
  end.

Definition gz_initial : GyroSearch :=
  mkGyroSearch (mkGyroWindow 0 [0; 0; 0] [0; 0; 0] [0; 0; 0]) [0; 0; 0] (-1) 0 [].

Definition gz_search : GyroSearch := gz_loop (Z.to_nat (MaxTries - 1)) gz_initial.

Definition FindGyroZero (s : State) : State :=
  let g := gz_search in
  let s := s <| trace := trace s ++ beeps g |> in
  let s := s <| GyroZX := at_ (best g) 0 |> in
  let s := s <| GyroZY := at_ (best g) 1 |> in
  let s := s <| GyroZZ := at_ (best g) 2 |> in
  s <| imu := QuatIMU_SetGyroZero (GyroZX s) (GyroZY s) (GyroZZ s) (imu s) |>.

End GyroZero.
(** ** Status LED *)

Definition LEDColorTable : list Z := [LED_Cyan; LED_White; LED_Yellow; LED_Violet].
Definition LEDArmDisarm : list Z := [LED_Green; LED_Red].

(** The local [LowBatt] of UpdateFlightLEDColor. *)
Definition LowBatt (s : State) : Z :=
  if PINS_V3 && negb (UseBattMon (Prefs s) =? 0)
     && (BatteryVolts s <? LowVoltageAlarmThreshold (Prefs s))
     && (BatteryVolts s >? 200)
  then 1 else 0.

Definition mode_color (m : FLIGHTMODE) : Z :=
  Z.shiftr (Z.land (at_ LEDColorTable (Z.to_nat (Z.land (FLIGHTMODE_to_Z m) 3))) LEDBrightMask)
           LEDBrightShift.

Definition arm_color (enabled : Z) : Z :=
  Z.shiftr (Z.land (at_ LEDArmDisarm (Z.to_nat (Z.land enabled 1))) LEDBrightMask)
           LEDBrightShift.

Definition UpdateFlightLEDColor (s : State) : State :=
  if negb (LowBatt s =? 0) then
    let index := Z.land (Z.shiftr (counter s) 3) 7 in
    if index <? 4 then
      s <| LEDModeColor := mode_color (FlightMode s) |>
    else
      s <| LEDModeColor :=
             Z.shiftr (Z.land (Z.lor LED_Red (Z.land LED_Yellow LED_Half)) LEDBrightMask)
                      LEDBrightShift |>
  else
    let index := Z.land (Z.shiftr (counter s) 3) 15 in
    if (index <? 3) || negb (IsHolding s =? 0) then
      s <| LEDModeColor := mode_color (FlightMode s) |>
    else
      s <| LEDModeColor := arm_color (FlightEnabled s) |>.

(** ** Arming and disarming *)

Definition ArmFlightMode (Sensors_In : nat -> Z -> Z) (s : State) : State :=
  let s := s <| FlightEnabled := 1 |> in
  let s := s <| FlightEnableStep := 0 |> in
  let s := s <| CompassConfigStep := 0 |> in
  let s := Beep2 s in
  let s := All_LED (Z.land LED_Red LED_Half) s in
  let s := FindGyroZero Sensors_In s in
  let s := All_LED (Z.land LED_Blue LED_Half) s in
  let s := BeepTune s in
  s <| DesiredAltitude := AltiEst s |>.

Definition DisarmFlightMode (s : State) : State :=
  let s := for_loop 4 (fun i s =>
             let s := s <| Motor := <[i := MinThrottle (Prefs s)]> (Motor s) |> in
             Servo32_Set (at_ (MotorPin s) i) (MinThrottle (Prefs s)) s) s in
  let s := s <| FlightEnabled := 0 |> in
  let s := s <| FlightEnableStep := 0 |> in
  let s := s <| CompassConfigStep := 0 |> in
  let s := Beep3 s in
  All_LED (Z.land LED_Green LED_Half) s.

(* Placeholders in the source. *)
Definition StartCompassCalibrate (s : State) : State := s.
Definition DoCompassCalibrate (s : State) : State := s.

(** ** The flight loop *)

(** How a block of UpdateFlightLoop ends: by falling through, or by the
    [return] of the disarm path. *)
Inductive Flow :=
| Continue (s : State)
| Return (s : State).

(** [if( FlightEnabled == 0 ) { ... }] *)
Definition disarmed_sticks (Sensors_In : nat -> Z -> Z) (s : State) : State :=
  if (Thro (Radio s) <? -750) && (Elev (Radio s) <? -750) then
    if (Rudd (Radio s) >? 750) && (Aile (Radio s) <? -750) then
      let s := s <| FlightEnableStep := int16 (FlightEnableStep s + 1) |> in
      let s := s <| CompassConfigStep := 0 |> in
      let s := s <| LEDModeColor := Z.land LED_Yellow LED_Half |> in
      if FlightEnableStep s >=? ArmDelay (Prefs s) then ArmFlightMode Sensors_In s else s
    else if (Rudd (Radio s) >? 750) && (Aile (Radio s) >? 750) then
      let s := s <| CompassConfigStep := int16 (CompassConfigStep s + 1) |> in
      let s := s <| FlightEnableStep := 0 |> in
      let s := s <| LEDModeColor := Z.land (Z.lor LED_Blue LED_Red) LED_Half |> in
      if CompassConfigStep s =? 250 then StartCompassCalibrate s else s
    else
      let s := s <| CompassConfigStep := 0 |> in
      s <| FlightEnableStep := 0 |>
  else
    let s := s <| CompassConfigStep := 0 |> in
    s <| FlightEnableStep := 0 |>.

(** The disarm test at the head of the armed branch. *)
Definition armed_sticks (s : State) : Flow :=
  if (Rudd (Radio s) <? -750) && (Aile (Radio s) >? 750)
     && (Thro (Radio s) <? -750) && (Elev (Radio s) <? -750) then
    let s := s <| FlightEnableStep := int16 (FlightEnableStep s + 1) |> in
    let s := s <| LEDModeColor := Z.land LED_Yellow LED_Half |> in
    if FlightEnableStep s >=? DisarmDelay (Prefs s) then Return (DisarmFlightMode s)
    else Continue s
  else
    Continue (s <| FlightEnableStep := 0 |>).

(** The X mixer: the four motor values before the clamp, in slot order. *)
Definition mix_X (PitchOut RollOut YawOut ThroMix ThroOut : Z) (motor : list Z) : list Z :=
  let motor := <[OUT_FL := int32 (ThroOut + Z.shiftr (int32 ((PitchOut + RollOut - YawOut) * ThroMix)) 7)]> motor in
  let motor := <[OUT_FR := int32 (ThroOut + Z.shiftr (int32 ((PitchOut - RollOut + YawOut) * ThroMix)) 7)]> motor in
  let motor := <[OUT_BL := int32 (ThroOut + Z.shiftr (int32 ((- PitchOut + RollOut + YawOut) * ThroMix)) 7)]> motor in
  let motor := <[OUT_BR := int32 (ThroOut + Z.shiftr (int32 ((- PitchOut - RollOut - YawOut) * ThroMix)) 7)]> motor in
  motor.

(** The low-throttle / high-throttle clamp of the four slots. *)
Definition clamp_motors (p : PREFS) (motor : list Z) : list Z :=
  let motor := <[0%nat := clamp (at_ motor 0) (MinThrottleArmed p) (MaxThrottle p)]> motor in
  let motor := <[1%nat := clamp (at_ motor 1) (MinThrottleArmed p) (MaxThrottle p)]> motor in
  let motor := <[2%nat := clamp (at_ motor 2) (MinThrottleArmed p) (MaxThrottle p)]> motor in
  let motor := <[3%nat := clamp (at_ motor 3) (MinThrottleArmed p) (MaxThrottle p)]> motor in
  motor.

(** Automatic mode, stick outside the deadband: leave hover and command
    an ascent rate; returns [AdjustedThrottle]. *)
Definition ascent_from_stick (s : State) : Z * State :=
  let s := s <| IsHolding := 0 |> in
  let AdjustedThrottle :=
    if Thro (Radio s) >? 0 then int32 (Thro (Radio s) - AltiThrottleDeadband)
    else int32 (Thro (Radio s) + AltiThrottleDeadband) in
  let s := s <| DesiredAscentRate :=
             Z.quot (int32 (AdjustedThrottle * 6000)) (1024 - AltiThrottleDeadband) |> in
  (AdjustedThrottle, s).

(** Automatic mode, stick inside the deadband: hold the altitude. *)
Definition altitude_hold (DoIntegrate : Z) (s : State) : State :=
  let s :=
    if IsHolding s =? 0 then
      let s := s <| IsHolding := 1 |> in
      let s := s <| DesiredAltitude := AltiEst s |> in
      s <| AltPID := ResetIntegralError (AltPID s) |>
    else s in
  let '(out, p) := Calculate (DesiredAltitude s) (AltiEst s) DoIntegrate (AltPID s) in
  let s := s <| AltPID := p |> in
  s <| DesiredAscentRate := out |>.

(** Ascent-rate PID, with its gains taken from the two auxiliary channels. *)
Definition ascent_thrust (DoIntegrate : Z) (s : State) : Z * State :=
  let T1 := int32 (1024 + Aux2 (Radio s)) in
  let T2 := int32 (1024 + Aux3 (Radio s)) in
  let s := s <| AscentPID := SetPGain T1 (AscentPID s) |> in
  let s := s <| AscentPID := SetIGain (int32 (T2 * 250)) (AscentPID s) |> in
  let '(AltiThrust, p) := Calculate (DesiredAscentRate s) (AscentEst s) DoIntegrate (AscentPID s) in
  (AltiThrust, s <| AscentPID := p |>).

(** Altitude / ascent cascade of Automatic mode; returns the new [ThroOut]. *)
Definition automatic_throttle (DoIntegrate : Z) (s : State) : Z * State :=
  let AdjustedThrottle := 0 in
  let '(AdjustedThrottle, s) :=
    if abs (Thro (Radio s)) >? AltiThrottleDeadband
    then ascent_from_stick s
    else (AdjustedThrottle, altitude_hold DoIntegrate s) in
  let '(AltiThrust, s) := ascent_thrust DoIntegrate s in
  (int32 (CenterThrottle (Prefs s) + AltiThrust + AdjustedThrottle), s).

(** Body rates from the gyro, low-pass filtered. *)
Definition gyro_rates (s : State) : State :=
  let gr := int32 (GyroY (sens s) - GyroZY s) in
  let gp := int32 (- (GyroX (sens s) - GyroZX s)) in
  let gy := int32 (- (GyroZ (sens s) - GyroZZ s)) in
  let s := s <| GyroRoll := int32 (GyroRoll s + Z.shiftr (int32 ((gr - GyroRoll s) * GyroRPFilter s)) 8) |> in
  let s := s <| GyroPitch := int32 (GyroPitch s + Z.shiftr (int32 ((gp - GyroPitch s) * GyroRPFilter s)) 8) |> in
  s <| GyroYaw := int32 (GyroYaw s + Z.shiftr (int32 ((gy - GyroYaw s) * GyroYawFilter s)) 8) |>.

(** [if( Radio.Thro < -800 )]: the value of [DoIntegrate]. *)
Definition integral_gate (s : State) : Z * State :=
  if Thro (Radio s) <? -800 then
    let s :=
      if bool_decide (FlightMode s = FlightMode_Manual)
      then s <| imu := QuatIMU_ResetDesiredOrientation (imu s) |>
      else s <| imu := QuatIMU_ResetDesiredYaw (imu s) |> in
    (0, s)
  else (1, s).

(** The three attitude PIDs: [(RollOut, PitchOut, YawOut)]. *)
Definition attitude_pids (DoIntegrate : Z) (s : State) : (Z * Z * Z) * State :=
  let '(RollOut, p) := Calculate (RollDifference s) (GyroRoll s) DoIntegrate (RollPID s) in
  let s := s <| RollPID := p |> in
  let '(PitchOut, p) := Calculate (PitchDifference s) (GyroPitch s) DoIntegrate (PitchPID s) in
  let s := s <| PitchPID := p |> in
  let '(YawOut, p) := Calculate (YawDifference s) (GyroYaw s) DoIntegrate (YawPID s) in
  let s := s <| YawPID := p |> in
  ((RollOut, PitchOut, YawOut), s).

(** [if( FlightMode != FlightMode_Manual ) { ... }]: the throttle of the
    assisted modes, from the stick value [ThroOut]. *)
Definition assisted_throttle (DoIntegrate ThroMix ThroOut : Z) (s : State) : Z * State :=
  if negb (bool_decide (FlightMode s = FlightMode_Manual)) then
    let '(ThroOut, s) :=
      if bool_decide (FlightMode s = FlightMode_Automatic)
      then automatic_throttle DoIntegrate s
      else (ThroOut, s) in
    let ThroOut :=
      if AccelAssistZFactor >? 0 then
        if (abs (Aile (Radio s)) <? 300) && (abs (Elev (Radio s)) <? 300) && (ThroMix >? 32)
        then int32 (ThroOut - Z.quot (int32 ((AccelZSmooth s - Const_OneG) * AccelAssistZFactor)) 64)
        else ThroOut
      else ThroOut in
    let ThroOut :=
      if ThrustCorrectionScale (Prefs s) >? 0 then
        let ThrustMul :=
          int32 (256 + Z.quot (int32 ((QuatIMU_GetThrustFactor (imu s) - 256)
                                      * ThrustCorrectionScale (Prefs s))) 256) in
        let ThrustMul := clamp ThrustMul 256 384 in
        int32 (MinThrottle (Prefs s)
               + Z.shiftr (int32 ((ThroOut - MinThrottle (Prefs s)) * ThrustMul)) 8)
      else ThroOut in
    (ThroOut, s)
  else (ThroOut, s).

(** Mixer, clamp and the copy to the servo driver. *)
Definition drive_motors (PitchOut RollOut YawOut ThroMix ThroOut : Z) (s : State) : State :=
  let s := s <| Motor := mix_X PitchOut RollOut YawOut ThroMix ThroOut (Motor s) |> in
  let s := s <| Motor := clamp_motors (Prefs s) (Motor s) |> in
  if DisableMotors (Prefs s) =? 0 then
    let s := Servo32_Set PIN_MOTOR_FL (at_ (Motor s) 0) s in
    let s := Servo32_Set PIN_MOTOR_FR (at_ (Motor s) 1) s in
    let s := Servo32_Set PIN_MOTOR_BR (at_ (Motor s) 2) s in
    Servo32_Set PIN_MOTOR_BL (at_ (Motor s) 3) s
  else s.

(** The armed branch after the disarm test. *)
Definition flight_control (s : State) : State :=
  let s := gyro_rates s in
  let '(DoIntegrate, s) := integral_gate s in
  let '((RollOut, PitchOut, YawOut), s) := attitude_pids DoIntegrate s in
  let ThroMix := Z.shiftr (int32 (Thro (Radio s) + 1024)) 2 in
  let ThroMix := clamp ThroMix 0 64 in
  let ThroOut := int32 (Z.shiftl (Thro (Radio s)) 2 + 12000) in
  let '(ThroOut, s) := assisted_throttle DoIntegrate ThroMix ThroOut s in
  drive_motors PitchOut RollOut YawOut ThroMix ThroOut s.

(** The battery alarm that closes UpdateFlightLoop on V3 boards. *)
Definition battery_alarm (s : State) : State :=
  if PINS_V3 then
    if negb (UseBattMon (Prefs s) =? 0) && negb (LowVoltageAlarm (Prefs s) =? 0) then
      if (BatteryVolts s <? LowVoltageAlarmThreshold (Prefs s)) && (BatteryVolts s >? 200)
         && (Z.land (counter s) 63 =? 0)
      then BeepOn chr_A PIN_BUZZER_1 5000 s
      else if Z.land (counter s) 63 >? 32 then BeepOff chr_A s
      else s
    else s
  else s.

Definition UpdateFlightLoop (Sensors_In : nat -> Z -> Z) (s : State) : State :=
  let s := UpdateFlightLEDColor s in
  let flow :=
    if FlightEnabled s =? 0 then Continue (disarmed_sticks Sensors_In s)
    else
      match armed_sticks s with
      | Return s => Return s
      | Continue s => Continue (flight_control s)
      end in
  match flow with
  | Return s => s
  | Continue s => battery_alarm s
  end.

(** ** Preferences *)

(** ApplyPrefs, the calls that hand the settings to the drivers. *)
Definition push_settings (s : State) : State :=
  let s := s <| sensor_cal := Sensors_SetDriftValues (DriftScale (Prefs s)) (sensor_cal s) |> in
  let s := s <| sensor_cal := Sensors_SetAccelOffsetValues (AccelOffset (Prefs s)) (sensor_cal s) |> in
  let s := s <| sensor_cal := Sensors_SetMagnetometerScaleOffsets (MagScaleOfs (Prefs s)) (sensor_cal s) |> in
  let s := s <| imu := QuatIMU_SetRollCorrection (RollCorrect (Prefs s)) (imu s) |> in
  let s := s <| imu := QuatIMU_SetPitchCorrection (PitchCorrect (Prefs s)) (imu s) |> in
  let s := s <| imu := QuatIMU_SetAutoLevelRates (AutoLevelRollPitch (Prefs s))
                                                 (AutoLevelYawRate (Prefs s)) (imu s) |> in
  s <| imu := QuatIMU_SetManualRates (ManualRollPitchRate (Prefs s))
                                     (ManualYawRate (Prefs s)) (imu s) |>.

Definition ApplyPrefs (s : State) : State :=
  let s := push_settings s in
  let s := if FORCE_SBUS then s <| Prefs := (Prefs s) <| UseSBUS := 1 |> |> else s in
  let s := if PINS_V2 then s <| Prefs := (Prefs s) <| UseBattMon := 0 |> |> else s in
  s.

(** [Prefs_Load()]: refills [Prefs] from the stored copy. *)
Definition do_Prefs_Load (s : State) : bool * State :=
  let '(ok, p) := Prefs_Load (eeprom s) (Prefs s) in
  (ok, s <| Prefs := p |>).

Definition do_Prefs_Save (s : State) : State :=
  s <| eeprom := Prefs_Save (Prefs s) (eeprom s) |>.

Definition InitializePrefs (s : State) : State :=
  let '(_, s) := do_Prefs_Load s in
  ApplyPrefs s.

(** ** Ground-station commands *)

(** Commands 0x10..0x17: gyro and accelerometer calibration, channel reset. *)
Definition calibration_command (c : Z) (s : State) : State :=
  if Mode s =? MODE_SensorTest then
    if c =? 0x10 then
      s <| sensor_cal := Sensors_TempZeroDriftValues (sensor_cal s) |>
    else if c =? 0x11 then
      s <| sensor_cal := Sensors_ResetDriftValues (sensor_cal s) |>
    else if c =? 0x13 then
      let s := for_loop 8 (fun i s =>
                 let s := s <| Prefs := (Prefs s) <| ChannelScale := <[i := 1024]> (ChannelScale (Prefs s)) |> |> in
                 s <| Prefs := (Prefs s) <| ChannelCenter := <[i := 0]> (ChannelCenter (Prefs s)) |> |>) s in
      Beep2 s
    else if c =? 0x14 then
      s <| sensor_cal := Sensors_TempZeroAccelOffsetValues (sensor_cal s) |>
    else if c =? 0x15 then
      s <| sensor_cal := Sensors_ResetAccelOffsetValues (sensor_cal s) |>
    else s
  else s.

(** The receive loop of the upload: [sizeof(Prefs)] timed reads, each stored
    as one byte of [TempPrefs]. *)
Definition receive_prefs (port : Z) (s : State) : list Z * State :=
  for_loop sizeof_Prefs (fun _ '(bytes, s) =>
    let '(b, s) := S4_Get_Timed port s in
    (bytes ++ [uint8 b], s)) ([], s).

(** Command 0x19: store new settings. *)
Definition store_settings (port : Z) (s : State) : State :=
  let '(bytes, s) := receive_prefs port s in
  let TempPrefs := PREFS_of_bytes bytes in
  if Prefs_CalculateChecksum TempPrefs =? Checksum TempPrefs then
    let s := s <| Prefs := TempPrefs |> in
    let s := do_Prefs_Save s in
    let '(ok, s) := do_Prefs_Load s in
    if ok then
      let s := BeepOff chr_A s in
      let s := Beep2 s in
      ApplyPrefs s
    else Beep s
  else Beep s.

(** Commands 0x18..0x1F: query, store or wipe the settings. *)
Definition settings_command (port c : Z) (s : State) : State :=
  if c =? 0x18 then
    let s := s <| Prefs := (Prefs s) <| Checksum := Prefs_CalculateChecksum (Prefs s) |> |> in
    let s := emit (E_Comm_StartPacket 0 0x18 (Z.of_nat sizeof_Prefs)) s in
    let s := emit (E_Comm_AddPacketData 0 (bytes_of_PREFS (Prefs s))) s in
    emit (E_Comm_EndPacket port) s
  else if c =? 0x19 then
    store_settings port s
  else if c =? 0x1a then
    let '(b, s) := S4_Get_Timed port s in
    if b =? 0x1a then
      let s := s <| Prefs := Prefs_SetDefaults (Prefs s) |> in
      let s := do_Prefs_Save s in
      Beep3 s
    else s
  else s.

(** CheckDebugInput once a byte [c] has been taken from [port]. *)
Definition handle_command (port c : Z) (s : State) : State :=
  if c <=? MODE_MotorTest then
    let s := s <| Mode := c |> in
    let s := if port =? 0 then
               let s := s <| UsbPulse := 500 |> in
               s <| XBeePulse := 0 |>
             else s in
    let s := if port =? 1 then
               let s := s <| UsbPulse := 0 |> in
               s <| XBeePulse := 500 |>
             else s in
    s
  else if (port =? 0) && (Z.land c 0xF8 =? 0x08) then
    s <| NudgeMotor := Z.land c 7 |>
  else
    let s := if Z.land c 0xF8 =? 0x10 then calibration_command c s else s in
    let s := if Z.land c 0xF8 =? 0x18 then settings_command port c s else s in
    if c =? 0xFF then emit (E_S4_Put port 0xE8) s else s.

Definition CheckDebugInput (s : State) : State :=
  let '(c, s) := S4_Check 0 s in
  if c <? 0 then
    let '(c, s) := S4_Check 1 s in
    if c <? 0 then s else handle_command 1 c s
  else handle_command 0 c s.

(** ** Telemetry *)

(** The packet of MODE_SensorTest for a given phase of the cycle. *)
Definition sensor_test_packet (port phase : Z) (s : State) : State :=
  if phase =? 0 then
    emit (E_Packet port 1 (Channels (Radio s) ++ [BatteryVolts s])) s
  else if phase =? 1 then
    (* the cycle count that precedes the debug value is wall-clock data *)
    emit (E_Packet port 7 (QuatIMU_GetDebugFloat (imu s))) s
  else if phase =? 2 then
    emit (E_Packet port 2
            (map int16 [Temperature (sens s); GyroX (sens s); GyroY (sens s); GyroZ (sens s);
                        AccelX (sens s); AccelY (sens s); AccelZ (sens s);
                        MagX (sens s); MagY (sens s); MagZ (sens s)])) s
  else if phase =? 4 then
    emit (E_Packet port 3 (QuatIMU_GetQuaternion (imu s))) s
  else if phase =? 5 then
    emit (E_Packet port 5
            (map int16 [at_ (Motor s) 0; at_ (Motor s) 1; at_ (Motor s) 2; at_ (Motor s) 3])) s
  else if phase =? 6 then
    emit (E_Packet port 4
            [PitchDifference s; RollDifference s; YawDifference s;
             Alt (sens s); AltTemp (sens s); AltiEst s]) s
  else if phase =? 7 then
    emit (E_Packet port 6 (QuatIMU_GetDesiredQ (imu s))) s
  else s.

(** The motor test that ends DoDebugModeOutput. *)
Definition motor_test (late : Z * Z) (s : State) : State :=
  if NudgeMotor s >? -1 then
    let s :=
      if NudgeMotor s <? 4 then
        Servo32_Set (at_ (MotorPin s) (Z.to_nat (NudgeMotor s))) 9500 s
      else if NudgeMotor s =? 4 then
        let s := BeepHz 4500 50 s in
        BeepHz 3500 50 s
      else if NudgeMotor s =? 5 then
        let s := for_loop 256 (fun i =>
                   All_LED (Z.shiftl (255 - Z.of_nat i) 16 + Z.shiftl (Z.of_nat i) 8)) s in
        let s := for_loop 256 (fun i =>
                   All_LED (Z.of_nat i + Z.shiftl (255 - Z.of_nat i) 8)) s in
        for_loop 256 (fun i =>
                   All_LED ((255 - Z.of_nat i) + Z.shiftl (Z.of_nat i) 16)) s
      else if NudgeMotor s =? 6 then
        let s := BeepHz 4500 100 s in
        let s := BeepHz 4500 100 s in
        let s := BeepHz 4500 100 s in
        let s := BeepHz 4500 100 s in
        let '(b, s) := S4_Get 0 (fst late) s in
        if b =? 0xFF then
          let s := for_loop 4 (fun i s =>
                     Servo32_Set (at_ (MotorPin s) i) (MaxThrottle (Prefs s)) s) s in
          let '(_, s) := S4_Get 0 (snd late) s in
          for_loop 4 (fun i s =>
                     Servo32_Set (at_ (MotorPin s) i) (MinThrottle (Prefs s)) s) s
        else s
      else if NudgeMotor s =? 7 then
        for_loop 4 (fun i s =>
                     Servo32_Set (at_ (MotorPin s) i) (MinThrottle (Prefs s)) s) s
      else s in
    s <| NudgeMotor := -1 |>
  else s.

(** DoDebugModeOutput after the pulse countdown, with the [port] and
    [phase] it has settled on. *)
Definition debug_output (port phase : Z) (late : Z * Z) (s : State) : State :=
  if Mode s =? MODE_None then s
  else
    let s := if Mode s =? MODE_SensorTest then sensor_test_packet port phase s else s in
    motor_test late s.

Definition DoDebugModeOutput (late : Z * Z) (phase : Z) (s : State) : State :=
  if UsbPulse s >? 0 then
    let s := s <| UsbPulse := int16 (UsbPulse s - 1) |> in
    if UsbPulse s =? 0 then
      s <| Mode := MODE_None |>
    else
      debug_output 0 (Z.land (counter s) 7) late s
  else if XBeePulse s >? 0 then
    let s := s <| UsbPulse := int16 (UsbPulse s - 1) |> in
    if UsbPulse s =? 0 then
      s <| Mode := MODE_None |>
    else
      debug_output 1 (Z.lor (Z.land (Z.shiftr (counter s) 1) 7)
                            (Z.shiftl (Z.land (counter s) 1) 16)) late s
  else
    debug_output 0 phase late s.

(** ** Start-up and the main loop *)

(** The statics of the translation unit at power-on, around the persistent
    preference store [e].  Nothing has been received yet: the serial driver
    is started by Initialize.  What it receives while start-up runs is not
    looked at before the first CheckDebugInput, and reaches the model with
    the first tick (see [receive]). *)
Definition power_on (e : EEPROM) : State :=
  let p0 := PID_Init 0 0 0 0 in
  {| UsbPulse := 0; XBeePulse := 0;
     Radio := mkRADIO (replicate 8 0);
     sens := mkSENS 0 0 0 0 0 0 0 0 0 0 0 0;
     GyroZX := 0; GyroZY := 0; GyroZZ := 0; AccelZSmooth := 0;
     counter := 0; Mode := 0; NudgeMotor := 0;
     AltiEst := 0; AscentEst := 0; DesiredAltitude := 0; DesiredAscentRate := 0;
     RollDifference := 0; PitchDifference := 0; YawDifference := 0;
     GyroRoll := 0; GyroPitch := 0; GyroYaw := 0;
     GyroRPFilter := 0; GyroYawFilter := 0;
     Motor := replicate 4 0; LEDValue := replicate LED_COUNT 0;
     FlightEnableStep := 0; CompassConfigStep := 0; FlightEnabled := 0;
     FlightMode := FlightMode_Assisted; IsHolding := 0;
     BatteryMonitorDelay := 0; MotorPin := replicate 4 0;
     LEDModeColor := 0; BatteryVolts := 0;
     RollPID := p0; PitchPID := p0; YawPID := p0; AltPID := p0; AscentPID := p0;
     Prefs := mkPREFS [0;0;0] [0;0;0] (replicate 9 0) [0;0] [0;0]
                      0 0 0 0 0 0 0 0 0 0 0 0 0 0 0 0 0 0
                      (replicate 8 0) (replicate 8 0) (replicate 8 0) 0;
     imu := QuatIMU_Start; sensor_cal := Sensors_Start; eeprom := e;
     rx0 := []; rx1 := []; trace := [] |}.

(** Initialize, first part: the variables, the LEDs and the two drivers
    that must run before the settings are loaded. *)
Definition reset_variables (s : State) : State :=
  let s := s <| MotorPin := <[0%nat := PIN_MOTOR_FL]> (MotorPin s) |> in
  let s := s <| MotorPin := <[1%nat := PIN_MOTOR_FR]> (MotorPin s) |> in
  let s := s <| MotorPin := <[2%nat := PIN_MOTOR_BR]> (MotorPin s) |> in
  let s := s <| MotorPin := <[3%nat := PIN_MOTOR_BL]> (MotorPin s) |> in
  let s := s <| Mode := MODE_None |> in
  let s := s <| counter := 0 |> in
  let s := s <| NudgeMotor := -1 |> in
  let s := s <| FlightEnabled := 0 |> in
  let s := s <| FlightEnableStep := 0 |> in
  let s := s <| CompassConfigStep := 0 |> in
  let s := s <| FlightMode := FlightMode_Assisted |> in
  let s := s <| GyroRPFilter := 192 |> in
  let s := s <| GyroYawFilter := 192 |> in
  let s := All_LED (Z.land LED_Red LED_Half) s in
  let s := s <| sensor_cal := Sensors_Start |> in
  s <| imu := QuatIMU_Start |>.

(** Battery monitor delay and the servo driver, every motor pin at
    MinThrottle. *)
Definition start_servos (s : State) : State :=
  let s := s <| BatteryMonitorDelay :=
                  int16 (Z.land (int32 (Const_UpdateRate * 2)) (Z.lnot 15)) |> in
  for_loop 4 (fun i s =>
    Servo32_Set (at_ (MotorPin s) i) (MinThrottle (Prefs s)) s) s.

(** The five PID objects. *)
Definition init_controllers (s : State) : State :=
  let RollPitch_P := 8000 in
  let RollPitch_D := int32 (20000 * Const_UpdateRate) in
  let rp := SetDervativeFilter 128 (SetMaxIntegral 1900 (SetPIMax 100 (SetMaxOutput 3000
              (SetPrecision 12 (PID_Init RollPitch_P 0 RollPitch_D Const_UpdateRate))))) in
  let s := s <| RollPID := rp |> in
  let s := s <| PitchPID := rp |> in
  let s := s <| YawPID :=
             SetDervativeFilter 192 (SetMaxIntegral 2000 (SetPIMax 100 (SetMaxOutput 5000
               (SetPrecision 12 (PID_Init 15000 (int32 (200 * Const_UpdateRate))
                                          (int32 (10000 * Const_UpdateRate)) Const_UpdateRate))))) |> in
  let s := s <| AltPID :=
             SetMaxIntegral 4000 (SetPIMax 1000 (SetMaxOutput 5000
               (SetPrecision 14 (PID_Init 600 (int32 (500 * Const_UpdateRate)) 0 Const_UpdateRate)))) |> in
  s <| AscentPID :=
         SetMaxIntegral 2000 (SetPIMax 500 (SetMaxOutput 4000
           (SetPrecision 12 (PID_Init 1100 (int32 (0 * Const_UpdateRate))
                                      (int32 (0 * Const_UpdateRate)) Const_UpdateRate)))) |>.

Definition Initialize (Sensors_In : nat -> Z -> Z) (s : State) : State :=
  let s := reset_variables s in
  let s := InitializePrefs s in
  let s := start_servos s in
  let s := init_controllers s in
  FindGyroZero Sensors_In s.

(** [main] up to the loop: first sensor frame, altitude guess, and the
    motors at their low-throttle point. *)
Definition main_startup (first : SENS) (Sensors_In : nat -> Z -> Z) (s : State) : State :=
  let s := Initialize Sensors_In s in
  let s := s <| sens := first |> in
  let s := s <| imu := QuatIMU_SetInitialAltitudeGuess (Alt (sens s)) (imu s) |> in
  let s := s <| Mode := MODE_None |> in
  let s := s <| counter := 0 |> in
  let s := s <| NudgeMotor := -1 |> in
  for_loop 4 (fun i s =>
    let s := s <| Motor := <[i := MinThrottle (Prefs s)]> (Motor s) |> in
    Servo32_Set (at_ (MotorPin s) i) (MinThrottle (Prefs s)) s) s.

(** Scaling of the eight receiver channels. *)
Definition read_radio (GetRC : Z -> Z) (s : State) : State :=
  for_loop 8 (fun i s =>
    let v := Z.quot (int32 ((GetRC (at_ (ChannelIndex (Prefs s)) i)
                             - at_ (ChannelCenter (Prefs s)) i)
                            * at_ (ChannelScale (Prefs s)) i)) 1024 in
    s <| Radio := mkRADIO (<[i := int16 v]> (Channels (Radio s))) |>) s.

(** The gear switch: the flight mode of this tick and what a change of
    mode resets. *)
Definition select_flight_mode (s : State) : State :=
  let NewFlightMode :=
    if Gear (Radio s) >? 512 then FlightMode_Assisted
    else if Gear (Radio s) <? -512 then FlightMode_Manual
    else FlightMode_Automatic in
  if negb (bool_decide (NewFlightMode = FlightMode s)) then
    let s :=
      if bool_decide (NewFlightMode = FlightMode_Manual)
      then s <| imu := QuatIMU_ResetDesiredOrientation (imu s) |>
      else s <| imu := QuatIMU_ResetDesiredYaw (imu s) |> in
    let s :=
      if bool_decide (NewFlightMode = FlightMode_Automatic)
      then s <| DesiredAltitude := AltiEst s |>
      else s in
    let s := s <| IsHolding := 0 |> in
    s <| FlightMode := NewFlightMode |>
  else s.

(** Battery monitor: start-up delay, then the 16-tick measuring cycle. *)
Definition battery_monitor (battery : Z) (s : State) : State :=
  if negb (UseBattMon (Prefs s) =? 0) then
    if BatteryMonitorDelay s >? 0 then
      let s := s <| BatteryMonitorDelay := int16 (BatteryMonitorDelay s - 1) |> in
      s <| LEDModeColor := LED_Blue |>
    else
      let phase := Z.land (counter s) 15 in
      if phase =? 0 then emit E_Battery_DischargePin s
      else if phase =? 2 then emit E_Battery_ChargePin s
      else if phase =? 15 then
        s <| BatteryVolts := int16 (battery + VoltageOffset (Prefs s)) |>
      else s
  else s.

(** Head of the loop body: sensor snapshot, IMU update, smoothed
    accelerometer Z. *)
Definition intake (i : TickIn) (s : State) : State :=
  let s := s <| sens := in_sens i |> in
  let s := s <| imu := QuatIMU_Update (sens s) (imu s) |> in
  s <| AccelZSmooth :=
         int32 (AccelZSmooth s
                + Z.quot (int32 ((AccelZ (sens s) - AccelZSmooth s)
                                 * AccelCorrectionFilter (Prefs s))) 256) |>.

(** From the head of the loop body to [All_LED( LEDModeColor )]. *)
Definition flight_tick (i : TickIn) (s : State) : State :=
  let s := intake i s in
  let s := if negb (UseSBUS (Prefs s) =? 0)
           then read_radio (in_SBUS_GetRC i) s
           else read_radio (in_RC_GetRC i) s in
  let s := if bool_decide (FlightMode s = FlightMode_CalibrateCompass)
           then DoCompassCalibrate s
           else UpdateFlightLoop (in_Sensors_In i) (select_flight_mode s) in
  let s := battery_monitor (in_battery i) s in
  All_LED (LEDModeColor s) s.

(** The control quaternion and the estimates read back from the IMU. *)
Definition update_estimates (s : State) : State :=
  let s := s <| imu := QuatIMU_UpdateControls (Radio s)
                         (bool_decide (FlightMode s = FlightMode_Manual)) (imu s) |> in
  let s := s <| PitchDifference := QuatIMU_GetPitchDifference (imu s) |> in
  let s := s <| RollDifference := QuatIMU_GetRollDifference (imu s) |> in
  let s := s <| YawDifference := int32 (- QuatIMU_GetYawDifference (imu s)) |> in
  let s := s <| AltiEst := QuatIMU_GetAltitudeEstimate (imu s) |> in
  s <| AscentEst := QuatIMU_GetVerticalVelocityEstimate (imu s) |>.

(** The bytes that arrived since the last poll join the receive queues;
    for the first tick these include what arrived during start-up. *)
Definition receive (i : TickIn) (s : State) : State :=
  let s := s <| rx0 := rx0 s ++ in_usb i |> in
  s <| rx1 := rx1 s ++ in_xbee i |>.

(** One iteration of [while(1)]. *)
Definition main_loop_body (i : TickIn) (s : State) : State :=
  let s := flight_tick i s in
  let s := update_estimates s in
  let s := receive i s in
  let s := CheckDebugInput s in
  let s := DoDebugModeOutput (in_late0 i) (in_phase i) s in
  s <| counter := int32 (counter s + 1) |>.

(** The loop over the ticks the environment supplies. *)
Definition run (ticks : list TickIn) (s : State) : State :=
  fold_left (fun s i => main_loop_body i s) ticks s.

End MainThread.

(** ** A bench configuration

    Concrete members for the header values and the driver interfaces, so
    that the model can be run on explicit inputs.  None of the general
    results below depends on them. *)

Module Bench.

(** Header values of a V3 board build (GRB colour words). *)
Definition header : Header :=
  {| MODE_None := 0;
     MODE_SensorTest := 2;
     MODE_MotorTest := 3;
     LED_Red := 0x00FF00;  LED_Green := 0xFF0000;  LED_Blue := 0x0000FF;
     LED_White := 0xFFFFFF;
     LED_Yellow := 0xFFFF00;  LED_Violet := 0x00FFFF;  LED_Cyan := 0xFF00FF;
     LED_Half := 0x7F7F7F;
     LED_COUNT := 2;
     Const_OneG := 4096;
     Const_UpdateRate := 250;
     PIN_MOTOR_FL := 15;  PIN_MOTOR_FR := 16;  PIN_MOTOR_BR := 17;  PIN_MOTOR_BL := 18;
     PIN_BUZZER_1 := 6;
     PINS_V3 := true;
     PINS_V2 := false;
     FORCE_SBUS := false |}.

Record pid_state := mkPid {
  Kp : Z;  Ki : Z;  Kd : Z;
  Precision : Z;
  MaxOutput : Z;
  PIMax : Z;
  MaxIntegral : Z;
  DerivFilter : Z;
  IError : Z;
  LastMeasured : Z;
  DFiltered : Z;
}.

(** Modelled from the spec: the integer PID of [intpid.h] as the design
    describes it (error clamped to the PIMax ceiling, gated and clamped
    integral, filtered derivative of the measurement, fixed-point gains,
    clamped output). *)
Definition pid_calculate (SetPoint Measured DoIntegrate : Z) (p : pid_state) : Z * pid_state :=
  let err := clamp (SetPoint - Measured) (- PIMax p) (PIMax p) in
  let ierr := if DoIntegrate =? 0 then IError p
              else clamp (IError p + err) (- MaxIntegral p) (MaxIntegral p) in
  let d := DFiltered p
           + Z.quot ((Measured - LastMeasured p - DFiltered p) * DerivFilter p) 256 in
  let out := Z.shiftr (Kp p * err + Ki p * ierr - Kd p * d) (Precision p) in
  (clamp out (- MaxOutput p) (MaxOutput p),
   mkPid (Kp p) (Ki p) (Kd p) (Precision p) (MaxOutput p) (PIMax p) (MaxIntegral p)
         (DerivFilter p) ierr Measured d).

Definition pid : IntPID_ops :=
  {| IntPID := pid_state;
     PID_Init := fun P I D rate => mkPid P (Z.quot I rate) (Z.quot D rate) 16 0 0 0 256 0 0 0;
     SetPrecision := fun v p =>
       mkPid (Kp p) (Ki p) (Kd p) v (MaxOutput p) (PIMax p) (MaxIntegral p)
             (DerivFilter p) (IError p) (LastMeasured p) (DFiltered p);
     SetMaxOutput := fun v p =>
       mkPid (Kp p) (Ki p) (Kd p) (Precision p) v (PIMax p) (MaxIntegral p)
             (DerivFilter p) (IError p) (LastMeasured p) (DFiltered p);
     SetPIMax := fun v p =>
       mkPid (Kp p) (Ki p) (Kd p) (Precision p) (MaxOutput p) v (MaxIntegral p)
             (DerivFilter p) (IError p) (LastMeasured p) (DFiltered p);
     SetMaxIntegral := fun v p =>
       mkPid (Kp p) (Ki p) (Kd p) (Precision p) (MaxOutput p) (PIMax p) v
             (DerivFilter p) (IError p) (LastMeasured p) (DFiltered p);
     SetDervativeFilter := fun v p =>
       mkPid (Kp p) (Ki p) (Kd p) (Precision p) (MaxOutput p) (PIMax p) (MaxIntegral p)
             v (IError p) (LastMeasured p) (DFiltered p);
     SetPGain := fun v p =>
       mkPid v (Ki p) (Kd p) (Precision p) (MaxOutput p) (PIMax p) (MaxIntegral p)
             (DerivFilter p) (IError p) (LastMeasured p) (DFiltered p);
     SetIGain := fun v p =>
       mkPid (Kp p) v (Kd p) (Precision p) (MaxOutput p) (PIMax p) (MaxIntegral p)
             (DerivFilter p) (IError p) (LastMeasured p) (DFiltered p);
     ResetIntegralError := fun p =>
       mkPid (Kp p) (Ki p) (Kd p) (Precision p) (MaxOutput p) (PIMax p) (MaxIntegral p)
             (DerivFilter p) 0 (LastMeasured p) (DFiltered p);
     Calculate := pid_calculate |}.

(** A stand-in for the attitude estimator: it follows the barometer and
    counts the resets it is asked for. *)
Record imu_state := mkImu {
  imu_alt : Z;
  imu_prev_alt : Z;
  orientation_resets : nat;
  yaw_resets : nat;
  gyro_zero : list Z;
}.

Definition quatimu : QuatIMU_ops :=
  {| QuatIMU := imu_state;
     QuatIMU_Start := mkImu 0 0 0 0 [0; 0; 0];
     QuatIMU_SetInitialAltitudeGuess := fun a q =>
       mkImu a a (orientation_resets q) (yaw_resets q) (gyro_zero q);
     QuatIMU_Update := fun sn q =>
       mkImu (Alt sn) (imu_alt q) (orientation_resets q) (yaw_resets q) (gyro_zero q);
     QuatIMU_UpdateControls := fun _ _ q => q;
     QuatIMU_GetPitchDifference := fun _ => 0;
     QuatIMU_GetRollDifference := fun _ => 0;
     QuatIMU_GetYawDifference := fun _ => 0;
     QuatIMU_GetAltitudeEstimate := imu_alt;
     QuatIMU_GetVerticalVelocityEstimate := fun q => imu_alt q - imu_prev_alt q;
     QuatIMU_GetThrustFactor := fun _ => 256;
     QuatIMU_ResetDesiredOrientation := fun q =>
       mkImu (imu_alt q) (imu_prev_alt q) (S (orientation_resets q)) (yaw_resets q) (gyro_zero q);
     QuatIMU_ResetDesiredYaw := fun q =>
       mkImu (imu_alt q) (imu_prev_alt q) (orientation_resets q) (S (yaw_resets q)) (gyro_zero q);
     QuatIMU_SetGyroZero := fun x y z q =>
       mkImu (imu_alt q) (imu_prev_alt q) (orientation_resets q) (yaw_resets q) [x; y; z];
     QuatIMU_SetRollCorrection := fun _ q => q;
     QuatIMU_SetPitchCorrection := fun _ q => q;
     QuatIMU_SetAutoLevelRates := fun _ _ q => q;
     QuatIMU_SetManualRates := fun _ _ q => q;
     QuatIMU_GetQuaternion := fun _ => [0; 0; 0; 0];
     QuatIMU_GetDesiredQ := fun _ => [0; 0; 0; 0];
     QuatIMU_GetDebugFloat := fun _ => [0] |}.

(** A stand-in for the calibration held by the sensor cog: the drift and
    offset tables in use, and those last set from the preferences. *)
Record cal_state := mkCal {
  drift : list Z;
  drift_set : list Z;
  accel_ofs : list Z;
  accel_set : list Z;
  mag_ofs : list Z;
}.

Definition sensors : Sensors_ops :=
  {| SensorCal := cal_state;
     Sensors_Start := mkCal [0; 0; 0] [0; 0; 0] [0; 0; 0] [0; 0; 0] (replicate 9 0);
     Sensors_TempZeroDriftValues := fun c =>
       mkCal [0; 0; 0] (drift_set c) (accel_ofs c) (accel_set c) (mag_ofs c);
     Sensors_ResetDriftValues := fun c =>
       mkCal (drift_set c) (drift_set c) (accel_ofs c) (accel_set c) (mag_ofs c);
     Sensors_TempZeroAccelOffsetValues := fun c =>
       mkCal (drift c) (drift_set c) [0; 0; 0] (accel_set c) (mag_ofs c);
     Sensors_ResetAccelOffsetValues := fun c =>
       mkCal (drift c) (drift_set c) (accel_set c) (accel_set c) (mag_ofs c);
     Sensors_SetDriftValues := fun v c =>
       mkCal v v (accel_ofs c) (accel_set c) (mag_ofs c);
     Sensors_SetAccelOffsetValues := fun v c =>
       mkCal (drift c) (drift_set c) v v (mag_ofs c);
     Sensors_SetMagnetometerScaleOffsets := fun v c =>
       mkCal (drift c) (drift_set c) (accel_ofs c) (accel_set c) v |}.

(** Bench preferences: sensible throttle limits, identity channel map and
    short gesture delays. *)
Definition prefs (arm disarm armed_min : Z) : PREFS :=
  {| DriftScale := [1; 2; 3];
     AccelOffset := [4; 5; 6];
     MagScaleOfs := replicate 9 0;
     RollCorrect := [0; 0];
     PitchCorrect := [0; 0];
     AutoLevelRollPitch := 0;
     AutoLevelYawRate := 0;
     ManualRollPitchRate := 0;
     ManualYawRate := 0;
     UseSBUS := 0;
     UseBattMon := 1;
     DisableMotors := 0;
     LowVoltageAlarm := 1;
     LowVoltageAlarmThreshold := 700;
     VoltageOffset := 0;
     AccelCorrectionFilter := 16;
     ThrustCorrectionScale := 256;
     MinThrottle := 8000;
     MaxThrottle := 16000;
     CenterThrottle := 12000;
     MinThrottleArmed := armed_min;
     ArmDelay := arm;
     DisarmDelay := disarm;
     ChannelIndex := [0; 1; 2; 3; 4; 5; 6; 7];
     ChannelScale := replicate 8 1024;
     ChannelCenter := replicate 8 0;
     Checksum := 0 |}.

(** A four-byte bench layout: arm delay, disarm delay, armed minimum
    throttle in units of 100, and a checksum byte that must be the sum of
    the three modulo 256. *)
Definition prefs_of_bytes (b : list Z) : PREFS :=
  (prefs (at_ b 0) (at_ b 1) (100 * at_ b 2)) <| Checksum := at_ b 3 |>.

Definition bytes_of_prefs (p : PREFS) : list Z :=
  [ArmDelay p; DisarmDelay p; Z.quot (MinThrottleArmed p) 100; Checksum p].

Definition checksum (p : PREFS) : Z :=
  (ArmDelay p + DisarmDelay p + Z.quot (MinThrottleArmed p) 100) mod 256.

Definition prefs_store : Prefs_ops :=
  {| EEPROM := option PREFS;
     sizeof_Prefs := 4;
     PREFS_of_bytes := prefs_of_bytes;
     bytes_of_PREFS := bytes_of_prefs;
     Prefs_CalculateChecksum := checksum;
     Prefs_Save := fun p _ => Some (p <| Checksum := checksum p |>);
     Prefs_Load := fun e p =>
       match e with
       | Some q => if checksum q =? Checksum q then (true, q) else (false, prefs 250 250 8500)
       | None => (false, prefs 250 250 8500)
       end;
     Prefs_SetDefaults := fun _ => prefs 250 250 8500 |}.

#[local] Existing Instances header pid quatimu sensors prefs_store.

Definition State : Type := @State pid quatimu sensors prefs_store.

(** The persistent copy the bench starts from. *)
Definition stored (arm disarm armed_min : Z) : option PREFS :=
  Some ((prefs arm disarm armed_min)
          <| Checksum := checksum (prefs arm disarm armed_min) |>).

Definition still : SENS := mkSENS 250 0 0 0 0 0 4096 0 0 0 1000 250.

(** The raw receiver reading with the four sticks at the given positions
    and the other channels centred. *)
Definition sticks (thro aile elev rudd gear : Z) (ch : Z) : Z :=
  at_ [thro; aile; elev; rudd; gear; 0; 0; 0] (Z.to_nat ch).

Definition tick (thro aile elev rudd gear : Z) (usb xbee : list Z) : TickIn :=
  {| in_sens := still;
     in_SBUS_GetRC := fun _ => 0;
     in_RC_GetRC := sticks thro aile elev rudd gear;
     in_Sensors_In := fun _ _ => 0;
     in_battery := 1100;
     in_usb := usb;
     in_xbee := xbee;
     in_late0 := (0, 0);
     in_phase := 0 |}.

(** The controller after start-up on the bench. *)
Definition started (arm disarm armed_min : Z) : State :=
  main_startup still (fun _ _ => 0) (power_on (stored arm disarm armed_min)).

(** One iteration, and a run, of the main loop on the bench. *)
Definition step (i : TickIn) (s : State) : State := main_loop_body i s.
Definition steps (ticks : list TickIn) (s : State) : State := run ticks s.

(** Sticks in the arming corner, in the disarming corner, and centred. *)
Definition arm_sticks : TickIn := tick (-1000) (-1000) (-1000) 1000 0 [] [].
Definition disarm_sticks : TickIn := tick (-1000) 1000 (-1000) (-1000) 0 [] [].
Definition centred : TickIn := tick 0 0 0 0 0 [] [].

(** The controller armed by holding the arming corner for the two ticks
    the bench preferences ask for. *)
Definition armed (armed_min : Z) : State :=
  steps [arm_sticks; arm_sticks] (started 2 2 armed_min).

(** A state with bytes waiting on the two ports. *)
Definition incoming (usb xbee : list Z) (s : State) : State :=
  receive (tick 0 0 0 0 0 usb xbee) s.

(** The controller one tick after start-up, the tick having brought the
    given bytes on the two ports. *)
Definition linked (usb xbee : list Z) : State :=
  step (tick 0 0 0 0 0 usb xbee) (started 2 2 8500).

(** The controller hovering: started with a disarm delay of one tick,
    armed, and one tick with the sticks centred. *)
Definition hovering : State :=
  steps [arm_sticks; arm_sticks; centred] (started 2 1 8500).

(** The controller once the start-up delay of the battery monitor is
    over. *)
Definition settled : State := steps (replicate 496 centred) (started 2 2 8500).

End Bench.

(** ** Views of the state used in the statements *)

Section Views.

Context {hdr : Header} {pid : IntPID_ops} {imu_ops : QuatIMU_ops}
        {sens_ops : Sensors_ops} {prefs_ops : Prefs_ops}.

(** The variables of the ground-station link and the configuration: the
    flight code reads them and never writes them. *)
Definition link_view (s : State) :=
  (Mode s, UsbPulse s, XBeePulse s, NudgeMotor s, rx0 s, rx1 s,
   Prefs s, sensor_cal s, eeprom s, MotorPin s).

(** The variables of the flight loop: the ground-station link never writes
    them. *)
Definition flight_view (s : State) :=
  (FlightEnabled s, FlightEnableStep s, CompassConfigStep s, FlightMode s,
   IsHolding s, Radio s, Motor s, LEDModeColor s, counter s,
   BatteryVolts s, BatteryMonitorDelay s, DesiredAltitude s, DesiredAscentRate s,
   AltiEst s, AscentEst s, AltPID s, sens s).

(** What the control path of an armed tick leaves as it found it. *)
Definition control_view (s : State) :=
  (link_view s, FlightEnabled s, FlightEnableStep s, CompassConfigStep s,
   FlightMode s, Radio s, LEDModeColor s, LEDValue s, counter s,
   BatteryVolts s, BatteryMonitorDelay s, AltiEst s, AscentEst s, sens s).

(** What the blocks before the mixer leave as they found it. *)
Definition stage_view (s : State) := (control_view s, Motor s, trace s).

(** The variables of the altitude cascade. *)
Definition cascade_view (s : State) :=
  (IsHolding s, DesiredAltitude s, DesiredAscentRate s, AltPID s).

(** What the intake and the scaling of the receiver channels keep. *)
Definition tick_view (s : State) :=
  (link_view s, FlightEnabled s, FlightEnableStep s, CompassConfigStep s,
   FlightMode s, IsHolding s, Motor s, LEDModeColor s, counter s,
   BatteryVolts s, BatteryMonitorDelay s, DesiredAltitude s, AltiEst s).

(** What the gear switch keeps. *)
Definition select_view (s : State) :=
  (link_view s, FlightEnabled s, FlightEnableStep s, CompassConfigStep s,
   Radio s, Motor s, LEDModeColor s, counter s,
   BatteryVolts s, BatteryMonitorDelay s, AltiEst s).

(** What the battery monitor keeps. *)
Definition monitor_view (s : State) :=
  (link_view s, FlightEnabled s, FlightEnableStep s, CompassConfigStep s,
   FlightMode s, IsHolding s, Radio s, Motor s, counter s,
   DesiredAltitude s, AltiEst s).

(** The variables the arming logic depends on. *)
Definition arming_view (s : State) :=
  (Prefs s, FlightMode s, Radio s, FlightEnabled s, FlightEnableStep s).

(** The same without the preferences, which the link may replace. *)
Definition gesture_view (s : State) :=
  (FlightMode s, Radio s, FlightEnabled s, FlightEnableStep s).

(** What start-up establishes and the later start-up blocks keep. *)
Definition startup_view (s : State) :=
  (Motor s, FlightEnabled s, FlightEnableStep s, CompassConfigStep s, FlightMode s,
   MotorPin s, rx0 s, rx1 s).

(** The colour UpdateFlightLEDColor selects, as a function of the five
    values it looks at. *)
Definition flight_led_color (mode : FLIGHTMODE) (enabled holding lowbatt count : Z) : Z :=
  if negb (lowbatt =? 0) then
    if Z.land (Z.shiftr count 3) 7 <? 4 then mode_color mode
    else Z.shiftr (Z.land (Z.lor LED_Red (Z.land LED_Yellow LED_Half)) LEDBrightMask)
                  LEDBrightShift
  else
    if (Z.land (Z.shiftr count 3) 15 <? 3) || negb (holding =? 0) then mode_color mode
    else arm_color enabled.

(** The stick gestures, in the words of the design: arming is throttle,
    elevator and aileron below -750 with the rudder above +750; disarming is
    throttle and elevator below -750 with the rudder below -750 and the
    aileron above +750. *)
Definition arm_gesture (r : RADIO) : Prop :=
  Thro r < -750 /\ Elev r < -750 /\ Rudd r > 750 /\ Aile r < -750.

Definition disarm_gesture (r : RADIO) : Prop :=
  Thro r < -750 /\ Elev r < -750 /\ Rudd r < -750 /\ Aile r > 750.

(** The compass-calibration gesture: as the arming gesture, with the aileron
    above +750. *)
Definition compass_gesture (r : RADIO) : Prop :=
  Thro r < -750 /\ Elev r < -750 /\ Rudd r > 750 /\ Aile r > 750.

#[global] Instance arm_gesture_dec r : Decision (arm_gesture r).
Proof. unfold arm_gesture. apply _. Defined.

#[global] Instance disarm_gesture_dec r : Decision (disarm_gesture r).
Proof. unfold disarm_gesture. apply _. Defined.

#[global] Instance compass_gesture_dec r : Decision (compass_gesture r).
Proof. unfold compass_gesture. apply _. Defined.

(** The outcome of a tick for the arming logic: [r] is the radio frame of
    the tick, [p] the preferences and [n] the hold counter it started
    with. *)
Definition arming_outcome (p : PREFS) (n : Z) (enabled : Z) (r : RADIO) (s' : State) : Prop :=
  Radio s' = r
  /\ FlightMode s' <> FlightMode_CalibrateCompass
  /\ -32768 <= FlightEnableStep s' <= 32767
  /\ (enabled = 0 ->
      (arm_gesture r /\ ArmDelay p <= int16 (n + 1)
       /\ FlightEnabled s' = 1 /\ FlightEnableStep s' = 0)
      \/ (arm_gesture r /\ int16 (n + 1) < ArmDelay p
          /\ FlightEnabled s' = 0 /\ FlightEnableStep s' = int16 (n + 1))
      \/ (~ arm_gesture r /\ FlightEnabled s' = 0 /\ FlightEnableStep s' = 0))
  /\ (enabled <> 0 ->
      FlightEnabled s' = enabled \/ (FlightEnabled s' = 0 /\ FlightEnableStep s' = 0)).

(** The throttle stick with the deadband of Automatic mode removed. *)
Definition deadband_removed (thro : Z) : Z :=
  if thro >? 0 then thro - AltiThrottleDeadband else thro + AltiThrottleDeadband.

(** The position of the gear switch. *)
Definition gear_mode (gear : Z) : FLIGHTMODE :=
  if gear >? 512 then FlightMode_Assisted
  else if gear <? -512 then FlightMode_Manual
  else FlightMode_Automatic.

(** The states a step function passes through, most recent first. *)
Fixpoint trail {S I : Type} (step : I -> S -> S) (ticks : list I) (s : S) : list S :=
  match ticks with
  | [] => []
  | i :: rest => trail step rest (step i s) ++ [step i s]
  end.

(** The states after each tick of a run, most recent first. *)
Definition history (ticks : list TickIn) (s : State) : list State :=
  trail main_loop_body ticks s.

(** The arming gesture was seen on each of the [n] most recent ticks of a
    history. *)
Definition held (n : Z) (hist : list State) : Prop :=
  forall k : nat, Z.of_nat k < n ->
    exists st, hist !! k = Some st /\ arm_gesture (Radio st).

(** The next command byte: CheckDebugInput takes [c] from [port], leaving
    [q] in that port's queue.  Port 1 is polled only when port 0 has
    nothing. *)
Definition next_command (s : State) (port c : Z) (q : list Z) : Prop :=
  (port = 0 /\ rx0 s = c :: q) \/ (port = 1 /\ rx0 s = [] /\ rx1 s = c :: q).

(** The bytes an upload stores into [TempPrefs] when the queue of the port
    holds [q]: the first [sizeof(Prefs)] of them, and 0xFF for every read
    that times out. *)
Definition upload_bytes (q : list Z) : list Z :=
  map uint8 (take sizeof_Prefs q) ++ replicate (sizeof_Prefs - length q) (uint8 (-1)).

(** The display mode, the two heartbeat countdowns and the pending motor
    test: the variables only the ground-station link writes. *)
Definition console_view (s : State) :=
  (Mode s, UsbPulse s, XBeePulse s, NudgeMotor s).

(** The first three of them. *)
Definition pulse_view (s : State) := (Mode s, UsbPulse s, XBeePulse s).

(** The two receive queues. *)
Definition queue_view (s : State) := (rx0 s, rx1 s).

(** A tick on which no byte arrives from the ground station. *)
Definition quiet (i : TickIn) : Prop := in_usb i = [] /\ in_xbee i = [].

(** The same tick with another content for the uninitialised [phase]. *)
Definition with_phase (p : Z) (i : TickIn) : TickIn :=
  mkTickIn (in_sens i) (in_SBUS_GetRC i) (in_RC_GetRC i) (in_Sensors_In i)
           (in_battery i) (in_usb i) (in_xbee i) (in_late0 i) p.

(** The state in which DoDebugModeOutput is called during tick [i]. *)
Definition before_output (i : TickIn) (s : State) : State :=
  CheckDebugInput (receive i (update_estimates (flight_tick i s))).

(** The averages and the variation of each of the first [n] sampling
    windows of the gyro search, starting from the working set [w]. *)
Fixpoint gz_passes (feed : nat -> Z -> Z) (n : nat) (w : GyroWindow) : list (list Z * Z) :=
  match n with
  | O => []
  | S n' =>
      let '(w', maxVar) := gz_window feed w in
      ([at_ (avg w') 0; at_ (avg w') 1; at_ (avg w') 2], maxVar) :: gz_passes feed n' w'
  end.

(** The link is either idle or one of its countdowns is running. *)
Definition link_alive (s : State) : Prop :=
  (Mode s = MODE_None \/ 0 < UsbPulse s \/ 0 < XBeePulse s) /\ UsbPulse s <= 32767.

(** [(b, v)] is the first of the passes with the least variation: it is
    one of them, every earlier one has a strictly larger variation, and
    none has a smaller one. *)
Definition first_least {A : Type} (passes : list (A * Z)) (b : A) (v : Z) : Prop :=
  exists j, passes !! j = Some (b, v)
    /\ (forall j' p, (j' < j)%nat -> passes !! j' = Some p -> v < snd p)
    /\ (forall j' p, passes !! j' = Some p -> v <= snd p).

(** The readings of the sampling window that starts after [r0] live
    reads: the first reading of axis [a] and its 64 samples. *)
Definition gz_first (feed : nat -> Z -> Z) (r0 a : nat) : Z :=
  feed (r0 + a)%nat (1 + Z.of_nat a).

Definition gz_samples (feed : nat -> Z -> Z) (r0 a : nat) : list Z :=
  map (fun i => feed (r0 + 3 + 3 * i + a)%nat (1 + Z.of_nat a)) (seq 0 64).

(** Their least and largest value, the mean of the samples, and how far
    the mean is from the middle of the range. *)
Definition gz_lo (feed : nat -> Z -> Z) (r0 a : nat) : Z :=
  fold_left Z.min (gz_samples feed r0 a) (gz_first feed r0 a).

Definition gz_hi (feed : nat -> Z -> Z) (r0 a : nat) : Z :=
  fold_left Z.max (gz_samples feed r0 a) (gz_first feed r0 a).

Definition gz_mean (feed : nat -> Z -> Z) (r0 a : nat) : Z :=
  Z.quot (fold_left Z.add (gz_samples feed r0 a) 0) 64.

Definition gz_var (feed : nat -> Z -> Z) (r0 a : nat) : Z :=
  Z.quot (gz_hi feed r0 a + gz_lo feed r0 a) 2 - gz_mean feed r0 a.

(** What Initialize sets and nothing later in start-up writes. *)
Definition boot_view (s : State) :=
  (CompassConfigStep s, GyroRPFilter s, GyroYawFilter s, LEDValue s, MotorPin s).

(** The packet of the sensor-test cycle that belongs to a phase, if any. *)
Definition sensor_packet_id (phase : Z) : option Z :=
  if phase =? 0 then Some 1
  else if phase =? 1 then Some 7
  else if phase =? 2 then Some 2
  else if phase =? 4 then Some 3
  else if phase =? 5 then Some 5
  else if phase =? 6 then Some 4
  else if phase =? 7 then Some 6
  else None.

(** The events of a position of the cycle: the packet with the given
    payload, or nothing. *)
Definition packets (port : Z) (id : option Z) (payload : list Z) : list Event :=
  match id with
  | Some k => [E_Packet port k payload]
  | None => []
  end.

(** The state with which a tick calls UpdateFlightLoop (the mode not being
    compass calibration): after the intake, the receiver channels and the
    gear switch. *)
Definition before_flight_loop (i : TickIn) (s : State) : State :=
  let s := intake i s in
  let s := if negb (UseSBUS (Prefs s) =? 0)
           then read_radio (in_SBUS_GetRC i) s
           else read_radio (in_RC_GetRC i) s in
  select_flight_mode s.

(** The colour a tick ends with, in terms of the state [x] with which it
    calls UpdateFlightLoop: blue while the battery monitor waits; else
    half-bright yellow while the arming gesture is held disarmed or the
    disarm gesture armed, half-bright blue-and-red while the compass gesture
    is held disarmed; else the colour UpdateFlightLEDColor selects. *)
Definition tick_led_color (x : State) : Z :=
  if negb (UseBattMon (Prefs x) =? 0) && (BatteryMonitorDelay x >? 0) then LED_Blue
  else if FlightEnabled x =? 0 then
    if decide (arm_gesture (Radio x)) then Z.land LED_Yellow LED_Half
    else if decide (compass_gesture (Radio x)) then Z.land (Z.lor LED_Blue LED_Red) LED_Half
    else LEDModeColor (UpdateFlightLEDColor x)
  else
    if decide (disarm_gesture (Radio x)) then Z.land LED_Yellow LED_Half
    else LEDModeColor (UpdateFlightLEDColor x).

End Views.

(** * Properties *)

(** ** Machine integers and the small helpers *)

Arguments int32 : simpl never.
Arguments int16 : simpl never.
Arguments uint8 : simpl never.
Arguments clamp : simpl never.
Arguments abs : simpl never.
Arguments max : simpl never.
Arguments min : simpl never.

Lemma wrap_range bits x :
  0 < bits -> - 2 ^ (bits - 1) <= wrap bits x < 2 ^ (bits - 1).
Proof.
  intros Hb. unfold wrap.
  assert (E : 2 ^ bits = 2 * 2 ^ (bits - 1)).
  { rewrite <- Z.pow_succ_r by lia. f_equal. lia. }
  assert (0 < 2 ^ (bits - 1)) by (apply Z.pow_pos_nonneg; lia).
  pose proof (Z.mod_pos_bound (x + 2 ^ (bits - 1)) (2 ^ bits)) as B.
  lia.
Qed.

Lemma wrap_small bits x :
  0 < bits -> - 2 ^ (bits - 1) <= x < 2 ^ (bits - 1) -> wrap bits x = x.
Proof.
  intros Hb Hx. unfold wrap.
  assert (E : 2 ^ bits = 2 * 2 ^ (bits - 1)).
  { rewrite <- Z.pow_succ_r by lia. f_equal. lia. }
  rewrite Z.mod_small by lia. lia.
Qed.

Lemma int32_range x : - 2147483648 <= int32 x <= 2147483647.
Proof. pose proof (wrap_range 32 x). unfold int32. change (2 ^ (32 - 1)) with 2147483648 in *. lia. Qed.

Lemma int16_range x : - 32768 <= int16 x <= 32767.
Proof. pose proof (wrap_range 16 x). unfold int16. change (2 ^ (16 - 1)) with 32768 in *. lia. Qed.

Lemma int32_small x : - 2147483648 <= x <= 2147483647 -> int32 x = x.
Proof. intros. apply wrap_small; [lia|]. change (2 ^ (32 - 1)) with 2147483648. lia. Qed.

Lemma int16_small x : - 32768 <= x <= 32767 -> int16 x = x.
Proof. intros. apply wrap_small; [lia|]. change (2 ^ (16 - 1)) with 32768. lia. Qed.

(** Storing [x + 1] in a [short] never yields more than [x + 1] when [x]
    itself was a [short]. *)
Lemma int16_succ_le x : - 32768 <= x -> int16 (x + 1) <= x + 1.
Proof.
  intros Hx. destruct (Z_le_gt_dec (x + 1) 32767).
  - rewrite int16_small; lia.
  - pose proof (int16_range (x + 1)). lia.
Qed.

Lemma clamp_le_max v lo hi : clamp v lo hi <= hi.
Proof. unfold clamp. destruct (v <? lo) eqn:E1; destruct (_ >? hi) eqn:E2; lia. Qed.

Lemma clamp_ge_min v lo hi : lo <= hi -> lo <= clamp v lo hi.
Proof. unfold clamp. destruct (v <? lo) eqn:E1; destruct (_ >? hi) eqn:E2; lia. Qed.

Lemma clamp_spec v lo hi :
  clamp v lo hi = if Z_lt_dec hi (Z.max lo v) then hi else Z.max lo v.
Proof.
  unfold clamp. destruct (v <? lo) eqn:E1; destruct (_ >? hi) eqn:E2;
    destruct (Z_lt_dec hi (Z.max lo v)); lia.
Qed.

Lemma abs_small v : - 2147483647 <= v <= 2147483647 -> abs v = Z.abs v.
Proof.
  intros Hv. unfold abs. destruct (v <? 0) eqn:E.
  - rewrite int32_small by lia. lia.
  - lia.
Qed.

Lemma abs_nonneg_or_min v :
  - 2147483648 <= v <= 2147483647 -> 0 <= abs v \/ abs v = - 2147483648.
Proof.
  intros Hv. unfold abs. destruct (v <? 0) eqn:E; [|lia].
  destruct (Z.eq_dec v (- 2147483648)) as [->|Hne].
  - right. reflexivity.
  - left. rewrite int32_small by lia. lia.
Qed.

Lemma max_spec a b : max a b = Z.max a b.
Proof. unfold max. destruct (a >? b) eqn:E; lia. Qed.

Lemma min_spec a b : min a b = Z.min a b.
Proof. unfold min. destruct (a <? b) eqn:E; lia. Qed.

(** ** Loops *)

Lemma for_loop_0 {S : Type} (body : nat -> S -> S) s : for_loop 0 body s = s.
Proof. reflexivity. Qed.

Lemma for_loop_S {S : Type} n (body : nat -> S -> S) s :
  for_loop (Datatypes.S n) body s = body n (for_loop n body s).
Proof. unfold for_loop. rewrite seq_S, fold_left_app. reflexivity. Qed.

(** Loop invariant rule. *)
Lemma for_loop_inv {S : Type} (P : nat -> S -> Prop) n (body : nat -> S -> S) s :
  P 0%nat s ->
  (forall i x, (i < n)%nat -> P i x -> P (Datatypes.S i) (body i x)) ->
  P n (for_loop n body s).
Proof.
  intros H0 Hstep. induction n as [|n IH].
  - exact H0.
  - rewrite for_loop_S. apply Hstep; [lia|]. apply IH. intros; apply Hstep; [lia|assumption].
Qed.

(** A quantity no pass of the body changes is unchanged by the loop. *)
Lemma for_loop_frame {S A : Type} (f : S -> A) n (body : nat -> S -> S) s :
  (forall i x, f (body i x) = f x) -> f (for_loop n body s) = f s.
Proof.
  intros Hb. apply (for_loop_inv (fun _ x => f x = f s)); [reflexivity|].
  intros i x _ Hx. rewrite Hb. exact Hx.
Qed.

Lemma at_cons_0 x l : at_ (x :: l) 0 = x.
Proof. reflexivity. Qed.

Lemma at_insert_eq (l : list Z) (i : nat) v : (i < length l)%nat -> at_ (<[i := v]> l) i = v.
Proof. intros H. unfold at_. rewrite list_lookup_insert_eq by exact H. reflexivity. Qed.

Lemma at_insert_ne (l : list Z) (i j : nat) v : i <> j -> at_ (<[i := v]> l) j = at_ l j.
Proof. intros H. unfold at_. rewrite list_lookup_insert_ne by exact H. reflexivity. Qed.

Lemma trail_snoc {S I : Type} (step : I -> S -> S) ticks i s :
  trail step (ticks ++ [i]) s
  = step i (fold_left (fun s i => step i s) ticks s) :: trail step ticks s.
Proof.
  revert s. induction ticks as [|t ts IH]; intros s.
  - reflexivity.
  - cbn [app trail fold_left]. rewrite IH. reflexivity.
Qed.

(** ** Case analysis and state simplification *)

(** Destructs a scrutinee that itself contains no case analysis. *)
Ltac break_inner :=
  match goal with
  | |- context [match ?x with _ => _ end] =>
      lazymatch x with
      | context [match _ with _ => _ end] => fail
      | _ => destruct x eqn:?
      end
  end.

Ltac st_simpl :=
  cbn -[Z.add Z.sub Z.mul Z.opp Z.quot Z.div Z.modulo Z.shiftr Z.shiftl Z.land Z.lor
        Z.ltb Z.gtb Z.leb Z.geb Z.eqb Z.pow replicate mix_X clamp_motors];
  unfold constant.

Ltac st_simpl_in H :=
  cbn -[Z.add Z.sub Z.mul Z.opp Z.quot Z.div Z.modulo Z.shiftr Z.shiftl Z.land Z.lor
        Z.ltb Z.gtb Z.leb Z.geb Z.eqb Z.pow replicate mix_X clamp_motors] in H;
  unfold constant in H.

(** Brings every field access to one syntactic form, so that arithmetic
    and rewriting see equal terms as equal. *)
Ltac norm_proj :=
  unfold UsbPulse, XBeePulse, Radio, sens, GyroZX, GyroZY, GyroZZ, AccelZSmooth,
    counter, Mode, NudgeMotor, AltiEst, AscentEst, DesiredAltitude, DesiredAscentRate,
    RollDifference, PitchDifference, YawDifference, GyroRoll, GyroPitch, GyroYaw,
    GyroRPFilter, GyroYawFilter, Motor, LEDValue, FlightEnableStep, CompassConfigStep,
    FlightEnabled, FlightMode, IsHolding, BatteryMonitorDelay, MotorPin, LEDModeColor,
    BatteryVolts, RollPID, PitchPID, YawPID, AltPID, AscentPID, Prefs, imu, sensor_cal,
    eeprom, rx0, rx1, trace,
    DriftScale, AccelOffset, MagScaleOfs, RollCorrect, PitchCorrect, AutoLevelRollPitch,
    AutoLevelYawRate, ManualRollPitchRate, ManualYawRate, UseSBUS, UseBattMon,
    DisableMotors, LowVoltageAlarm, LowVoltageAlarmThreshold, VoltageOffset,
    AccelCorrectionFilter, ThrustCorrectionScale, MinThrottle, MaxThrottle,
    CenterThrottle, MinThrottleArmed, ArmDelay, DisarmDelay, ChannelIndex, ChannelScale,
    ChannelCenter, Checksum in *.

Ltac slia := norm_proj; lia.

Ltac st_cases := repeat (st_simpl; try break_inner); st_simpl.

Ltac frame := repeat (st_simpl; try break_inner); try reflexivity.

(** Splits an equation between two views into its field equations.  The
    states are named first, so that nothing inside them is touched. *)
Ltac open_view H :=
  let H' := fresh in
  let x := fresh "x" in let y := fresh "y" in
  let Ex := fresh "Ex" in let Ey := fresh "Ey" in
  pose proof H as H';
  lazymatch type of H' with
  | ?v ?a = ?v' ?b =>
      remember a as x eqn:Ex in H'; remember b as y eqn:Ey in H';
      unfold stage_view, control_view, link_view, flight_view, cascade_view,
        startup_view, tick_view, select_view, monitor_view, arming_view,
        gesture_view in H';
      injection H'; clear H'; intros; subst x; subst y
  | ?v ?a = _ =>
      remember a as x eqn:Ex in H';
      unfold stage_view, control_view, link_view, flight_view, cascade_view,
        startup_view, tick_view, select_view, monitor_view, arming_view,
        gesture_view in H';
      injection H'; clear H'; intros; subst x
  end.

Section Frames.

Context {hdr : Header} {pid : IntPID_ops} {imu_ops : QuatIMU_ops}
        {sens_ops : Sensors_ops} {prefs_ops : Prefs_ops}.

Lemma UpdateFlightLEDColor_eq (s : State) :
  UpdateFlightLEDColor s =
  s <| LEDModeColor := flight_led_color (FlightMode s) (FlightEnabled s) (IsHolding s)
                                        (LowBatt s) (counter s) |>.
Proof.
  unfold UpdateFlightLEDColor, flight_led_color.
  destruct (negb (LowBatt s =? 0)).
  - destruct (_ <? 4); reflexivity.
  - destruct (_ || _); reflexivity.
Qed.

Lemma battery_alarm_eq (s : State) :
  exists t, battery_alarm s = s <| trace := t |>.
Proof.
  unfold battery_alarm, BeepOn, BeepOff, emit.
  destruct PINS_V3; [|exists (trace s); reflexivity].
  destruct (_ && _); [|exists (trace s); reflexivity].
  destruct (_ && _); [eexists; reflexivity|].
  destruct (_ >? 32); [eexists; reflexivity|exists (trace s); reflexivity].
Qed.

(** *** The armed control path, block by block *)

Lemma stage_view_control (s s' : State) :
  stage_view s' = stage_view s -> control_view s' = control_view s.
Proof. intros H. exact (f_equal (fun v => fst (fst v)) H). Qed.


Lemma gyro_rates_stage (s : State) : stage_view (gyro_rates s) = stage_view s.
Proof. reflexivity. Qed.

Lemma integral_gate_stage (s : State) :
  stage_view (snd (integral_gate s)) = stage_view s.
Proof. unfold integral_gate. frame. Qed.

Lemma attitude_pids_stage d (s : State) :
  stage_view (snd (attitude_pids d s)) = stage_view s.
Proof. unfold attitude_pids. frame. Qed.

Lemma ascent_from_stick_stage (s : State) :
  stage_view (snd (ascent_from_stick s)) = stage_view s.
Proof. reflexivity. Qed.

Lemma altitude_hold_stage d (s : State) :
  stage_view (altitude_hold d s) = stage_view s.
Proof. unfold altitude_hold. frame. Qed.

Lemma ascent_thrust_stage d (s : State) :
  stage_view (snd (ascent_thrust d s)) = stage_view s.
Proof. unfold ascent_thrust. frame. Qed.

Lemma automatic_throttle_stage d (s : State) :
  stage_view (snd (automatic_throttle d s)) = stage_view s.
Proof.
  unfold automatic_throttle.
  destruct (abs (Thro (Radio s)) >? AltiThrottleDeadband).
  - pose proof (ascent_from_stick_stage s) as H1.
    destruct (ascent_from_stick s) as [a s1]. cbn [snd] in H1. cbv beta iota zeta.
    pose proof (ascent_thrust_stage d s1) as H2.
    destruct (ascent_thrust d s1) as [t s2]. cbn [snd] in *. rewrite H2. exact H1.
  - pose proof (altitude_hold_stage d s) as H1. cbv beta iota zeta.
    pose proof (ascent_thrust_stage d (altitude_hold d s)) as H2.
    destruct (ascent_thrust d (altitude_hold d s)) as [t s2]. cbn [snd] in *.
    rewrite H2. exact H1.
Qed.

Lemma assisted_throttle_stage d m t (s : State) :
  stage_view (snd (assisted_throttle d m t s)) = stage_view s.
Proof.
  unfold assisted_throttle.
  destruct (negb (bool_decide (FlightMode s = FlightMode_Manual))); [|reflexivity].
  destruct (bool_decide (FlightMode s = FlightMode_Automatic)).
  - pose proof (automatic_throttle_stage d s) as H1.
    destruct (automatic_throttle d s) as [t' s1]. exact H1.
  - reflexivity.
Qed.

Lemma drive_motors_control P R Y M T (s : State) :
  control_view (drive_motors P R Y M T s) = control_view s.
Proof. unfold drive_motors, Servo32_Set. frame. Qed.


Lemma drive_motors_Motor P R Y M T (s : State) :
  Motor (drive_motors P R Y M T s) = clamp_motors (Prefs s) (mix_X P R Y M T (Motor s)).
Proof. unfold drive_motors, Servo32_Set. frame. Qed.

(** The states between the blocks of [flight_control]. *)
Lemma flight_control_stages (s : State) :
  exists d R P Y T s1 s2 s3,
    integral_gate (gyro_rates s) = (d, s1)
    /\ attitude_pids d s1 = ((R, P, Y), s2)
    /\ assisted_throttle d (clamp (Z.shiftr (int32 (Thro (Radio s2) + 1024)) 2) 0 64)
                         (int32 (Z.shiftl (Thro (Radio s2)) 2 + 12000)) s2 = (T, s3)
    /\ flight_control s =
       drive_motors P R Y (clamp (Z.shiftr (int32 (Thro (Radio s2) + 1024)) 2) 0 64) T s3
    /\ stage_view s1 = stage_view s /\ stage_view s2 = stage_view s
    /\ stage_view s3 = stage_view s.
Proof.
  pose proof (integral_gate_stage (gyro_rates s)) as H1.
  destruct (integral_gate (gyro_rates s)) as [d s1] eqn:E1. cbn [snd] in H1.
  pose proof (attitude_pids_stage d s1) as H2.
  destruct (attitude_pids d s1) as [[[R P] Y] s2] eqn:E2. cbn [snd] in H2.
  pose proof (assisted_throttle_stage d
                (clamp (Z.shiftr (int32 (Thro (Radio s2) + 1024)) 2) 0 64)
                (int32 (Z.shiftl (Thro (Radio s2)) 2 + 12000)) s2) as H3.
  destruct (assisted_throttle d _ _ s2) as [T s3] eqn:E3. cbn [snd] in H3.
  exists d, R, P, Y, T, s1, s2, s3.
  rewrite gyro_rates_stage in H1. rewrite H1 in H2. rewrite H2 in H3.
  repeat split; try assumption.
  unfold flight_control. rewrite E1. cbv beta iota zeta. rewrite E2. cbv beta iota zeta.
  rewrite E3. reflexivity.
Qed.

Lemma flight_control_control (s : State) :
  control_view (flight_control s) = control_view s.
Proof.
  destruct (flight_control_stages s) as (d & R & P & Y & T & s1 & s2 & s3 & _ & _ & _ & E & _ & _ & H3).
  rewrite E, drive_motors_control. apply stage_view_control, H3.
Qed.

(** The motor values of an armed tick are clamped mixer outputs. *)
Lemma flight_control_Motor (s : State) :
  exists P R Y M T,
    Motor (flight_control s) = clamp_motors (Prefs s) (mix_X P R Y M T (Motor s)).
Proof.
  destruct (flight_control_stages s) as (d & R & P & Y & T & s1 & s2 & s3 & _ & _ & _ & E & _ & _ & H3).
  rewrite E, drive_motors_Motor. open_view H3.
  exists P, R, Y, (clamp (Z.shiftr (int32 (Thro (Radio s2) + 1024)) 2) 0 64), T.
  repeat match goal with
         | H : Motor s3 = _ |- _ => rewrite H; clear H
         | H : Prefs s3 = _ |- _ => rewrite H; clear H
         end.
  reflexivity.
Qed.

(** *** Arming, disarming and the shape of UpdateFlightLoop *)

Lemma battery_alarm_control (s : State) :
  control_view (battery_alarm s) = control_view s.
Proof. destruct (battery_alarm_eq s) as [t ->]. reflexivity. Qed.


Lemma battery_alarm_Motor (s : State) : Motor (battery_alarm s) = Motor s.
Proof. destruct (battery_alarm_eq s) as [t ->]. reflexivity. Qed.

Lemma battery_alarm_flight (s : State) :
  flight_view (battery_alarm s) = flight_view s.
Proof. destruct (battery_alarm_eq s) as [t ->]. reflexivity. Qed.

Lemma battery_alarm_link (s : State) :
  link_view (battery_alarm s) = link_view s.
Proof. destruct (battery_alarm_eq s) as [t ->]. reflexivity. Qed.

(** The disarm test either returns through DisarmFlightMode or goes on
    with a state that differs in the hold counter and the LED colour. *)
Lemma armed_sticks_cases (s : State) :
  (exists s1,
      armed_sticks s = Return (DisarmFlightMode s1)
      /\ disarm_gesture (Radio s)
      /\ FlightEnableStep s1 >= DisarmDelay (Prefs s)
      /\ s1 = s <| FlightEnableStep := int16 (FlightEnableStep s + 1) |>
               <| LEDModeColor := Z.land LED_Yellow LED_Half |>)
  \/ (armed_sticks s =
        Continue (s <| FlightEnableStep := int16 (FlightEnableStep s + 1) |>
                    <| LEDModeColor := Z.land LED_Yellow LED_Half |>)
       /\ disarm_gesture (Radio s)
       /\ int16 (FlightEnableStep s + 1) < DisarmDelay (Prefs s))
  \/ (armed_sticks s = Continue (s <| FlightEnableStep := 0 |>)
       /\ ~ disarm_gesture (Radio s)).
Proof.
  unfold armed_sticks, disarm_gesture.
  destruct (Rudd (Radio s) <? -750) eqn:E1; cbn [andb].
  2:{ right; right. split; [reflexivity|lia]. }
  destruct (Aile (Radio s) >? 750) eqn:E2; cbn [andb].
  2:{ right; right. split; [reflexivity|lia]. }
  destruct (Thro (Radio s) <? -750) eqn:E3; cbn [andb].
  2:{ right; right. split; [reflexivity|lia]. }
  destruct (Elev (Radio s) <? -750) eqn:E4.
  2:{ right; right. split; [reflexivity|lia]. }
  cbv beta iota zeta.
  match goal with |- context [if ?c then _ else _] => destruct c eqn:E5 end.
  - left.
    exists (s <| FlightEnableStep := int16 (FlightEnableStep s + 1) |>
              <| LEDModeColor := Z.land LED_Yellow LED_Half |>).
    split; [reflexivity|]. split; [lia|]. split; [|reflexivity].
    st_simpl. st_simpl_in E5. apply Z.geb_le in E5. slia.
  - right; left. split; [reflexivity|]. split; [lia|]. st_simpl_in E5.
    rewrite Z.geb_leb in E5. apply Z.leb_gt in E5. slia.
Qed.

Lemma UpdateFlightLoop_disarmed feed (s : State) :
  FlightEnabled s = 0 ->
  UpdateFlightLoop feed s = battery_alarm (disarmed_sticks feed (UpdateFlightLEDColor s)).
Proof.
  intros H. unfold UpdateFlightLoop. rewrite UpdateFlightLEDColor_eq at 1.
  st_simpl. norm_proj. rewrite H. reflexivity.
Qed.

Lemma UpdateFlightLoop_armed feed (s : State) :
  FlightEnabled s <> 0 ->
  UpdateFlightLoop feed s =
  match armed_sticks (UpdateFlightLEDColor s) with
  | Return s' => s'
  | Continue s' => battery_alarm (flight_control s')
  end.
Proof.
  intros H. unfold UpdateFlightLoop. rewrite UpdateFlightLEDColor_eq at 1.
  st_simpl. norm_proj. apply Z.eqb_neq in H. rewrite H.
  destruct (armed_sticks _); reflexivity.
Qed.

(** DisarmFlightMode: every motor slot and every motor pin receives
    MinThrottle. *)
Lemma DisarmFlightMode_eq (s : State) a b c d :
  Motor s = [a; b; c; d] ->
  DisarmFlightMode s =
  s <| Motor := replicate 4 (MinThrottle (Prefs s)) |>
    <| FlightEnabled := 0 |> <| FlightEnableStep := 0 |> <| CompassConfigStep := 0 |>
    <| LEDValue := replicate LED_COUNT (Z.land LED_Green LED_Half) |>
    <| trace := trace s ++ [E_Servo32_Set (at_ (MotorPin s) 0) (MinThrottle (Prefs s));
                            E_Servo32_Set (at_ (MotorPin s) 1) (MinThrottle (Prefs s));
                            E_Servo32_Set (at_ (MotorPin s) 2) (MinThrottle (Prefs s));
                            E_Servo32_Set (at_ (MotorPin s) 3) (MinThrottle (Prefs s));
                            E_Beep3] |>.
Proof.
  intros HM. unfold DisarmFlightMode, All_LED, Beep3, Servo32_Set, emit, for_loop.
  st_simpl. rewrite HM. st_simpl. rewrite <- !app_assoc. reflexivity.
Qed.

Lemma length_4 {A} (l : list A) :
  length l = 4%nat -> exists a b c d, l = [a; b; c; d].
Proof.
  destruct l as [|a [|b [|c [|d [|e l]]]]]; cbn; intros H; try discriminate.
  eauto.
Qed.

Lemma clamp_motors_at p a b c d :
  clamp_motors p [a; b; c; d] =
  [clamp a (MinThrottleArmed p) (MaxThrottle p); clamp b (MinThrottleArmed p) (MaxThrottle p);
   clamp c (MinThrottleArmed p) (MaxThrottle p); clamp d (MinThrottleArmed p) (MaxThrottle p)].
Proof. reflexivity. Qed.

Lemma mix_X_length P R Y M T m : length (mix_X P R Y M T m) = length m.
Proof. unfold mix_X. rewrite !length_insert. reflexivity. Qed.

Lemma clamp_motors_length p m : length (clamp_motors p m) = length m.
Proof. unfold clamp_motors. cbv zeta. rewrite !length_insert. reflexivity. Qed.

(** *** The stick test of the disarmed branch *)

Lemma FindGyroZero_eq feed (s : State) :
  FindGyroZero feed s =
  s <| trace := trace s ++ beeps (gz_search feed) |>
    <| GyroZX := at_ (best (gz_search feed)) 0 |>
    <| GyroZY := at_ (best (gz_search feed)) 1 |>
    <| GyroZZ := at_ (best (gz_search feed)) 2 |>
    <| imu := QuatIMU_SetGyroZero (at_ (best (gz_search feed)) 0)
                (at_ (best (gz_search feed)) 1) (at_ (best (gz_search feed)) 2) (imu s) |>.
Proof. reflexivity. Qed.

Lemma ArmFlightMode_eq feed (s : State) :
  ArmFlightMode feed s =
  s <| FlightEnabled := 1 |> <| FlightEnableStep := 0 |> <| CompassConfigStep := 0 |>
    <| LEDValue := replicate LED_COUNT (Z.land LED_Blue LED_Half) |>
    <| GyroZX := at_ (best (gz_search feed)) 0 |>
    <| GyroZY := at_ (best (gz_search feed)) 1 |>
    <| GyroZZ := at_ (best (gz_search feed)) 2 |>
    <| imu := QuatIMU_SetGyroZero (at_ (best (gz_search feed)) 0)
                (at_ (best (gz_search feed)) 1) (at_ (best (gz_search feed)) 2) (imu s) |>
    <| trace := ((trace s ++ [E_Beep2]) ++ beeps (gz_search feed)) ++ [E_BeepTune] |>
    <| DesiredAltitude := AltiEst s |>.
Proof.
  unfold ArmFlightMode. cbv zeta. rewrite FindGyroZero_eq.
  generalize (gz_search feed). intros g. reflexivity.
Qed.

Lemma disarmed_sticks_cases feed (s : State) :
  (arm_gesture (Radio s)
   /\ int16 (FlightEnableStep s + 1) >= ArmDelay (Prefs s)
   /\ disarmed_sticks feed s =
      ArmFlightMode feed (s <| FlightEnableStep := int16 (FlightEnableStep s + 1) |>
                            <| CompassConfigStep := 0 |>
                            <| LEDModeColor := Z.land LED_Yellow LED_Half |>))
  \/ (arm_gesture (Radio s)
      /\ int16 (FlightEnableStep s + 1) < ArmDelay (Prefs s)
      /\ disarmed_sticks feed s =
         s <| FlightEnableStep := int16 (FlightEnableStep s + 1) |>
           <| CompassConfigStep := 0 |>
           <| LEDModeColor := Z.land LED_Yellow LED_Half |>)
  \/ (~ arm_gesture (Radio s) /\ compass_gesture (Radio s)
      /\ disarmed_sticks feed s =
         s <| CompassConfigStep := int16 (CompassConfigStep s + 1) |>
           <| FlightEnableStep := 0 |>
           <| LEDModeColor := Z.land (Z.lor LED_Blue LED_Red) LED_Half |>)
  \/ (~ arm_gesture (Radio s) /\ ~ compass_gesture (Radio s)
      /\ disarmed_sticks feed s = s <| CompassConfigStep := 0 |> <| FlightEnableStep := 0 |>).
Proof.
  unfold disarmed_sticks, arm_gesture, compass_gesture, StartCompassCalibrate.
  destruct (Thro (Radio s) <? -750) eqn:E1; cbn [andb].
  2:{ right; right; right. repeat split; try reflexivity; lia. }
  destruct (Elev (Radio s) <? -750) eqn:E2.
  2:{ right; right; right. repeat split; try reflexivity; lia. }
  destruct (Rudd (Radio s) >? 750) eqn:E3; cbn [andb].
  2:{ right; right; right. repeat split; try reflexivity; lia. }
  destruct (Aile (Radio s) <? -750) eqn:E4.
  - cbv beta iota zeta.
    match goal with |- context [if ?c then _ else _] => destruct c eqn:E5 end.
    + left. split; [lia|]. split; [|reflexivity].
      st_simpl_in E5. apply Z.geb_le in E5. slia.
    + right; left. split; [lia|]. split; [|reflexivity].
      st_simpl_in E5. rewrite Z.geb_leb in E5. apply Z.leb_gt in E5. slia.
  - destruct (Aile (Radio s) >? 750) eqn:E6.
    + right; right; left. split; [lia|]. split; [lia|].
      cbv beta iota zeta.
      match goal with |- context [if ?c then _ else _] => destruct c end; reflexivity.
    + right; right; right. repeat split; try reflexivity; lia.
Qed.

(** *** Start-up *)

Lemma ApplyPrefs_startup (s : State) : startup_view (ApplyPrefs s) = startup_view s.
Proof. unfold ApplyPrefs. destruct FORCE_SBUS, PINS_V2; reflexivity. Qed.

Lemma InitializePrefs_startup (s : State) :
  startup_view (InitializePrefs s) = startup_view s.
Proof.
  unfold InitializePrefs, do_Prefs_Load. destruct (Prefs_Load _ _) as [ok p].
  rewrite ApplyPrefs_startup. reflexivity.
Qed.

Lemma Initialize_startup feed (s : State) :
  Motor (Initialize feed s) = Motor s
  /\ FlightEnabled (Initialize feed s) = 0
  /\ FlightEnableStep (Initialize feed s) = 0
  /\ FlightMode (Initialize feed s) = FlightMode_Assisted
  /\ length (MotorPin (Initialize feed s)) = length (MotorPin s)
  /\ rx0 (Initialize feed s) = rx0 s /\ rx1 (Initialize feed s) = rx1 s.
Proof.
  unfold Initialize. cbv zeta. rewrite FindGyroZero_eq.
  assert (H : startup_view (init_controllers (start_servos (InitializePrefs (reset_variables s))))
              = startup_view (reset_variables s)).
  { transitivity (startup_view (start_servos (InitializePrefs (reset_variables s))));
      [reflexivity|].
    transitivity (startup_view (InitializePrefs (reset_variables s))); [reflexivity|].
    apply InitializePrefs_startup. }
  remember (init_controllers (start_servos (InitializePrefs (reset_variables s)))) as s'.
  clear Heqs'. open_view H. st_simpl. norm_proj.
  repeat match goal with H : _ = _ |- _ => rewrite H; clear H end.
  repeat split; try reflexivity.
  unfold reset_variables, All_LED. st_simpl. rewrite !length_insert. reflexivity.
Qed.

(** *** The ground-station link leaves the flight variables alone *)

Lemma set_rx_flight port q (s : State) : flight_view (set_rx port q s) = flight_view s.
Proof. unfold set_rx. destruct (port =? 0); reflexivity. Qed.

Lemma S4_Check_flight port (s : State) :
  flight_view (snd (S4_Check port s)) = flight_view s.
Proof. unfold S4_Check. destruct (rx port s); [reflexivity|apply set_rx_flight]. Qed.

Lemma S4_Get_Timed_flight port (s : State) :
  flight_view (snd (S4_Get_Timed port s)) = flight_view s.
Proof. unfold S4_Get_Timed. destruct (rx port s); [reflexivity|apply set_rx_flight]. Qed.

Lemma S4_Get_flight port late (s : State) :
  flight_view (snd (S4_Get port late s)) = flight_view s.
Proof. unfold S4_Get. destruct (rx port s); [reflexivity|apply set_rx_flight]. Qed.

Lemma calibration_command_flight c (s : State) :
  flight_view (calibration_command c s) = flight_view s.
Proof.
  unfold calibration_command.
  destruct (Mode s =? MODE_SensorTest); [|reflexivity].
  destruct (c =? 16); [reflexivity|].
  destruct (c =? 17); [reflexivity|].
  destruct (c =? 19).
  { unfold Beep2. change (flight_view (emit E_Beep2 ?x)) with (flight_view x).
    apply for_loop_frame. intros i x. reflexivity. }
  destruct (c =? 20); [reflexivity|].
  destruct (c =? 21); reflexivity.
Qed.

Lemma receive_prefs_flight port (s : State) :
  flight_view (snd (receive_prefs port s)) = flight_view s.
Proof.
  unfold receive_prefs.
  apply (for_loop_frame (fun x : list Z * State => flight_view (snd x))).
  intros i [bytes x]. pose proof (S4_Get_Timed_flight port x) as H.
  destruct (S4_Get_Timed port x) as [b x']. exact H.
Qed.

Lemma ApplyPrefs_flight (s : State) : flight_view (ApplyPrefs s) = flight_view s.
Proof. unfold ApplyPrefs. destruct FORCE_SBUS, PINS_V2; reflexivity. Qed.

Lemma do_Prefs_Load_flight (s : State) :
  flight_view (snd (do_Prefs_Load s)) = flight_view s.
Proof. unfold do_Prefs_Load. destruct (Prefs_Load _ _). reflexivity. Qed.

Lemma store_settings_flight port (s : State) :
  flight_view (store_settings port s) = flight_view s.
Proof.
  unfold store_settings.
  pose proof (receive_prefs_flight port s) as H.
  destruct (receive_prefs port s) as [bytes s1]. cbn [snd] in H.
  destruct (_ =? _); [|exact H].
  match goal with |- context [do_Prefs_Load ?x] =>
    pose proof (do_Prefs_Load_flight x) as H2; destruct (do_Prefs_Load x) as [ok s2] end.
  cbn [snd] in H2. destruct ok.
  - rewrite ApplyPrefs_flight. etransitivity; [|exact H].
    etransitivity; [|exact H2]. reflexivity.
  - etransitivity; [|exact H]. etransitivity; [|exact H2]. reflexivity.
Qed.

Lemma settings_command_flight port c (s : State) :
  flight_view (settings_command port c s) = flight_view s.
Proof.
  unfold settings_command.
  destruct (c =? 24); [reflexivity|].
  destruct (c =? 25); [apply store_settings_flight|].
  destruct (c =? 26); [|reflexivity].
  pose proof (S4_Get_Timed_flight port s) as H.
  destruct (S4_Get_Timed port s) as [b s1]. cbn [snd] in H.
  destruct (b =? 26); [|exact H]. etransitivity; [|exact H]. reflexivity.
Qed.

Lemma handle_command_flight port c (s : State) :
  flight_view (handle_command port c s) = flight_view s.
Proof.
  unfold handle_command.
  destruct (c <=? MODE_MotorTest).
  { destruct (port =? 0), (port =? 1); reflexivity. }
  destruct (_ && _); [reflexivity|].
  cbv zeta.
  assert (H1 : flight_view (if Z.land c 248 =? 16 then calibration_command c s else s)
               = flight_view s).
  { destruct (_ =? 16); [apply calibration_command_flight|reflexivity]. }
  set (s1 := if Z.land c 248 =? 16 then calibration_command c s else s) in *.
  assert (H2 : flight_view (if Z.land c 248 =? 24 then settings_command port c s1 else s1)
               = flight_view s).
  { destruct (_ =? 24); [rewrite settings_command_flight|]; exact H1. }
  set (s2 := if Z.land c 248 =? 24 then settings_command port c s1 else s1) in *.
  destruct (c =? 255); [|exact H2]. etransitivity; [|exact H2]. reflexivity.
Qed.

Lemma CheckDebugInput_flight (s : State) :
  flight_view (CheckDebugInput s) = flight_view s.
Proof.
  unfold CheckDebugInput.
  pose proof (S4_Check_flight 0 s) as H0.
  destruct (S4_Check 0 s) as [c s0]. cbn [snd] in H0.
  destruct (c <? 0).
  - pose proof (S4_Check_flight 1 s0) as H1.
    destruct (S4_Check 1 s0) as [c1 s1]. cbn [snd] in H1.
    destruct (c1 <? 0).
    + etransitivity; [exact H1|exact H0].
    + rewrite handle_command_flight. etransitivity; [exact H1|exact H0].
  - rewrite handle_command_flight. exact H0.
Qed.

Lemma sensor_test_packet_flight port phase (s : State) :
  flight_view (sensor_test_packet port phase s) = flight_view s.
Proof.
  unfold sensor_test_packet.
  repeat match goal with |- context [if ?c then _ else _] => destruct c end; reflexivity.
Qed.

Lemma servo_loop_flight (v : State -> Z) (s : State) :
  flight_view (for_loop 4 (fun i s => Servo32_Set (at_ (MotorPin s) i) (v s) s) s)
  = flight_view s.
Proof. apply for_loop_frame. intros i x. reflexivity. Qed.

Lemma led_loop_flight (c : nat -> Z) (s : State) :
  flight_view (for_loop 256 (fun i => All_LED (c i)) s) = flight_view s.
Proof. apply for_loop_frame. intros i x. reflexivity. Qed.

Lemma motor_test_flight late (s : State) :
  flight_view (motor_test late s) = flight_view s.
Proof.
  unfold motor_test. destruct (NudgeMotor s >? -1); [|reflexivity].
  change (flight_view (?x <| NudgeMotor := -1 |>)) with (flight_view x).
  destruct (NudgeMotor s <? 4); [reflexivity|].
  destruct (NudgeMotor s =? 4); [reflexivity|].
  destruct (NudgeMotor s =? 5).
  { rewrite !led_loop_flight. reflexivity. }
  destruct (NudgeMotor s =? 6).
  { cbv zeta.
    match goal with |- context [S4_Get 0 (fst late) ?x] =>
      pose proof (S4_Get_flight 0 (fst late) x) as H1;
      destruct (S4_Get 0 (fst late) x) as [b s1] end.
    cbn [snd] in H1.
    destruct (b =? 255); [|exact H1].
    match goal with |- context [S4_Get 0 (snd late) ?x] =>
      pose proof (S4_Get_flight 0 (snd late) x) as H2;
      destruct (S4_Get 0 (snd late) x) as [b2 s2] end.
    cbn [snd] in H2.
    rewrite (servo_loop_flight (fun s => MinThrottle (Prefs s))).
    etransitivity; [exact H2|].
    rewrite (servo_loop_flight (fun s => MaxThrottle (Prefs s))). exact H1. }
  destruct (NudgeMotor s =? 7); [|reflexivity].
  apply (servo_loop_flight (fun s => MinThrottle (Prefs s))).
Qed.

Lemma debug_output_flight port phase late (s : State) :
  flight_view (debug_output port phase late s) = flight_view s.
Proof.
  unfold debug_output. destruct (Mode s =? MODE_None); [reflexivity|].
  cbv zeta. rewrite motor_test_flight.
  destruct (Mode s =? MODE_SensorTest); [apply sensor_test_packet_flight|reflexivity].
Qed.

Lemma DoDebugModeOutput_flight late phase (s : State) :
  flight_view (DoDebugModeOutput late phase s) = flight_view s.
Proof.
  unfold DoDebugModeOutput.
  destruct (UsbPulse s >? 0).
  { cbv zeta. match goal with |- context [if ?c then _ else _] => destruct c end;
      [reflexivity|]. rewrite debug_output_flight. reflexivity. }
  destruct (XBeePulse s >? 0).
  { cbv zeta. match goal with |- context [if ?c then _ else _] => destruct c end;
      [reflexivity|]. rewrite debug_output_flight. reflexivity. }
  apply debug_output_flight.
Qed.

(** *** The blocks of a tick around UpdateFlightLoop *)

Lemma intake_tick i (s : State) : tick_view (intake i s) = tick_view s.
Proof. reflexivity. Qed.

Lemma intake_Radio i (s : State) : Radio (intake i s) = Radio s.
Proof. reflexivity. Qed.

Lemma read_radio_tick GetRC (s : State) : tick_view (read_radio GetRC s) = tick_view s.
Proof. unfold read_radio. apply for_loop_frame. intros i x. reflexivity. Qed.

Lemma select_flight_mode_select (s : State) :
  select_view (select_flight_mode s) = select_view s.
Proof.
  unfold select_flight_mode. cbv zeta.
  destruct (negb _); [|reflexivity].
  destruct (bool_decide (_ = FlightMode_Manual)), (bool_decide (_ = FlightMode_Automatic));
    reflexivity.
Qed.

Lemma select_flight_mode_FlightMode (s : State) :
  FlightMode (select_flight_mode s) = gear_mode (Gear (Radio s)).
Proof.
  unfold select_flight_mode. cbv zeta. fold (gear_mode (Gear (Radio s))).
  destruct (bool_decide (gear_mode (Gear (Radio s)) = FlightMode s)) eqn:E.
  - apply bool_decide_eq_true in E. symmetry. exact E.
  - cbn [negb].
    destruct (bool_decide (_ = FlightMode_Manual)), (bool_decide (_ = FlightMode_Automatic));
      reflexivity.
Qed.

Lemma gear_mode_flying g : gear_mode g <> FlightMode_CalibrateCompass.
Proof. unfold gear_mode. destruct (g >? 512), (g <? -512); discriminate. Qed.

Lemma battery_monitor_monitor b (s : State) :
  monitor_view (battery_monitor b s) = monitor_view s.
Proof.
  unfold battery_monitor.
  repeat match goal with |- context [if ?c then _ else _] => destruct c end; reflexivity.
Qed.

(** *** Runs *)

Lemma run_snoc ticks i (s : State) :
  run (ticks ++ [i]) s = main_loop_body i (run ticks s).
Proof. unfold run. rewrite fold_left_app. reflexivity. Qed.

Lemma history_snoc ticks i (s : State) :
  history (ticks ++ [i]) s = main_loop_body i (run ticks s) :: history ticks s.
Proof. apply trail_snoc. Qed.

(** The part of the loop body after [All_LED] keeps the flight variables,
    but for the estimates and the tick counter. *)
Lemma main_loop_body_gesture i (s : State) :
  gesture_view (main_loop_body i s) = gesture_view (flight_tick i s)
  /\ LEDValue (flight_tick i s) = replicate LED_COUNT (LEDModeColor (main_loop_body i s))
  /\ IsHolding (main_loop_body i s) = IsHolding (flight_tick i s).
Proof.
  unfold main_loop_body. cbv zeta.
  remember (flight_tick i s) as s1 eqn:E1.
  pose proof (CheckDebugInput_flight (receive i (update_estimates s1))) as H1.
  remember (CheckDebugInput (receive i (update_estimates s1))) as s2 eqn:E2. clear E2.
  pose proof (DoDebugModeOutput_flight (in_late0 i) (in_phase i) s2) as H2.
  remember (DoDebugModeOutput (in_late0 i) (in_phase i) s2) as s3 eqn:E3. clear E3.
  rewrite H1 in H2. clear H1. open_view H2.
  unfold gesture_view. st_simpl. norm_proj.
  repeat match goal with H : _ s3 = _ |- _ => rewrite H; clear H end.
  split; [reflexivity|]. split; [|reflexivity].
  subst s1. unfold flight_tick, All_LED. reflexivity.
Qed.

Lemma main_startup_state first feed e :
  let s := main_startup first feed (power_on e) in
  FlightEnabled s = 0 /\ FlightEnableStep s = 0 /\ FlightMode s = FlightMode_Assisted
  /\ rx0 s = [] /\ rx1 s = [] /\ Mode s = MODE_None /\ length (Motor s) = 4%nat.
Proof.
  cbv zeta. unfold main_startup.
  destruct (Initialize_startup feed (power_on e)) as (HM & HE & HS & HF & _ & H0 & H1).
  remember (Initialize feed (power_on e)) as s0 eqn:E0. clear E0. cbv zeta.
  split; [exact HE|]. split; [exact HS|]. split; [exact HF|].
  split; [exact H0|]. split; [exact H1|]. split; [reflexivity|].
  unfold for_loop, Servo32_Set, emit. st_simpl. rewrite !length_insert.
  norm_proj. rewrite HM. reflexivity.
Qed.

(** *** The arming state across a tick *)

Lemma flight_control_arming (s : State) :
  arming_view (battery_alarm (flight_control s)) = arming_view s.
Proof.
  destruct (battery_alarm_eq (flight_control s)) as [t ->].
  pose proof (flight_control_control s) as H. open_view H.
  unfold arming_view. st_simpl. norm_proj.
  repeat match goal with H : _ = _ |- _ => rewrite H; clear H end.
  reflexivity.
Qed.

Lemma DisarmFlightMode_arming (s : State) :
  arming_view (DisarmFlightMode s) = (Prefs s, FlightMode s, Radio s, 0, 0).
Proof.
  unfold DisarmFlightMode, All_LED, Beep3, Servo32_Set, emit.
  reflexivity.
Qed.

(** UpdateFlightLoop on a disarmed controller: the three ways the stick
    test can go. *)
Lemma UpdateFlightLoop_disarmed_cases feed (s : State) :
  FlightEnabled s = 0 ->
  let s' := UpdateFlightLoop feed s in
  (arm_gesture (Radio s) /\ ArmDelay (Prefs s) <= int16 (FlightEnableStep s + 1)
   /\ arming_view s' = (Prefs s, FlightMode s, Radio s, 1, 0))
  \/ (arm_gesture (Radio s) /\ int16 (FlightEnableStep s + 1) < ArmDelay (Prefs s)
      /\ arming_view s' =
         (Prefs s, FlightMode s, Radio s, 0, int16 (FlightEnableStep s + 1)))
  \/ (~ arm_gesture (Radio s)
      /\ arming_view s' = (Prefs s, FlightMode s, Radio s, 0, 0)).
Proof.
  intros Hd. cbv zeta. rewrite (UpdateFlightLoop_disarmed feed s Hd).
  destruct (battery_alarm_eq (disarmed_sticks feed (UpdateFlightLEDColor s))) as [t ->].
  rewrite UpdateFlightLEDColor_eq.
  set (s0 := s <| LEDModeColor := _ |>).
  destruct (disarmed_sticks_cases feed s0)
    as [(G & D & ->)|[(G & D & ->)|[(G & _ & ->)|(G & _ & ->)]]].
  - left. split; [exact G|]. split; [apply Z.ge_le; exact D|].
    rewrite ArmFlightMode_eq. reflexivity.
  - right; left. split; [exact G|]. split; [exact D|].
    subst s0. unfold arming_view. st_simpl. norm_proj. rewrite Hd. reflexivity.
  - right; right. split; [exact G|].
    subst s0. unfold arming_view. st_simpl. norm_proj. rewrite Hd. reflexivity.
  - right; right. split; [exact G|].
    subst s0. unfold arming_view. st_simpl. norm_proj. rewrite Hd. reflexivity.
Qed.

(** UpdateFlightLoop on an armed controller: it stays armed, or it is
    disarmed with the hold counter back at zero. *)
Lemma UpdateFlightLoop_armed_cases feed (s : State) :
  FlightEnabled s <> 0 ->
  let s' := UpdateFlightLoop feed s in
  (exists n, -32768 <= n <= 32767
             /\ arming_view s' = (Prefs s, FlightMode s, Radio s, FlightEnabled s, n))
  \/ arming_view s' = (Prefs s, FlightMode s, Radio s, 0, 0).
Proof.
  intros Ha. cbv zeta. rewrite (UpdateFlightLoop_armed feed s Ha).
  rewrite UpdateFlightLEDColor_eq.
  set (s0 := s <| LEDModeColor := _ |>).
  destruct (armed_sticks_cases s0) as [(s1 & -> & _ & _ & ->)|[(-> & _)|(-> & _)]].
  - right. rewrite DisarmFlightMode_arming. reflexivity.
  - left. exists (int16 (FlightEnableStep s + 1)). split; [apply int16_range|].
    rewrite flight_control_arming. reflexivity.
  - left. exists 0. split; [lia|]. rewrite flight_control_arming. reflexivity.
Qed.

Lemma UpdateFlightLoop_outcome feed (s : State) :
  FlightMode s <> FlightMode_CalibrateCompass ->
  arming_outcome (Prefs s) (FlightEnableStep s) (FlightEnabled s) (Radio s)
                 (UpdateFlightLoop feed s)
  /\ Prefs (UpdateFlightLoop feed s) = Prefs s.
Proof.
  intros Hm. unfold arming_outcome.
  destruct (Z.eq_dec (FlightEnabled s) 0) as [Hd|Ha].
  - destruct (UpdateFlightLoop_disarmed_cases feed s Hd) as [(G & D & E)|[(G & D & E)|(G & E)]];
      open_view E;
      repeat match goal with H : _ (UpdateFlightLoop feed s) = _ |- _ => rewrite H; clear H end;
      pose proof (int16_range (FlightEnableStep s + 1));
      (split; [|reflexivity]); (split; [reflexivity|]); (split; [exact Hm|]);
      (split; [lia|]); (split; [intros _|intros C; contradiction]).
    + left. split; [exact G|]. split; [exact D|]. split; reflexivity.
    + right; left. split; [exact G|]. split; [exact D|]. split; reflexivity.
    + right; right. split; [exact G|]. split; reflexivity.
  - destruct (UpdateFlightLoop_armed_cases feed s Ha) as [(n & Hn & E)|E];
      open_view E;
      repeat match goal with H : _ (UpdateFlightLoop feed s) = _ |- _ => rewrite H; clear H end;
      (split; [|reflexivity]); (split; [reflexivity|]); (split; [exact Hm|]);
      (split; [lia|]); (split; [intros C; contradiction|intros _]).
    + left. reflexivity.
    + right. split; reflexivity.
Qed.

Lemma flight_tick_outcome i (s : State) :
  FlightMode s <> FlightMode_CalibrateCompass ->
  arming_outcome (Prefs s) (FlightEnableStep s) (FlightEnabled s)
                 (Radio (flight_tick i s)) (flight_tick i s)
  /\ Prefs (flight_tick i s) = Prefs s.
Proof.
  intros Hm. unfold flight_tick. cbv zeta.
  remember (if negb (UseSBUS (Prefs (intake i s)) =? 0)
            then read_radio (in_SBUS_GetRC i) (intake i s)
            else read_radio (in_RC_GetRC i) (intake i s)) as s2 eqn:E2.
  assert (Hv2 : tick_view s2 = tick_view s).
  { subst s2. destruct (negb _); rewrite read_radio_tick; apply intake_tick. }
  clear E2. open_view Hv2.
  assert (Hm2 : FlightMode s2 <> FlightMode_CalibrateCompass) by congruence.
  rewrite (bool_decide_eq_false_2 _ Hm2).
  pose proof (select_flight_mode_select s2) as Hv3. open_view Hv3.
  pose proof (select_flight_mode_FlightMode s2) as HM3.
  remember (select_flight_mode s2) as s3 eqn:E3. clear E3.
  assert (Hm3 : FlightMode s3 <> FlightMode_CalibrateCompass).
  { rewrite HM3. apply gear_mode_flying. }
  destruct (UpdateFlightLoop_outcome (in_Sensors_In i) s3 Hm3) as [HO HP].
  remember (UpdateFlightLoop (in_Sensors_In i) s3) as s4 eqn:E4. clear E4.
  pose proof (battery_monitor_monitor (in_battery i) s4) as Hv5. open_view Hv5.
  remember (battery_monitor (in_battery i) s4) as s5 eqn:E5. clear E5.
  unfold All_LED, arming_outcome in *. st_simpl. norm_proj.
  repeat match goal with
         | H : _ s5 = _ |- _ => rewrite H; clear H
         end.
  repeat match goal with
         | H : _ s3 = _ s2 |- _ => rewrite H in *; clear H
         end.
  repeat match goal with
         | H : _ s2 = _ s |- _ => rewrite H in *; clear H
         end.
  destruct HO as (HR & HO). rewrite HR in *. split; [|assumption].
  split; [reflexivity|]. exact HO.
Qed.

Lemma main_loop_body_outcome i (s : State) :
  FlightMode s <> FlightMode_CalibrateCompass ->
  arming_outcome (Prefs s) (FlightEnableStep s) (FlightEnabled s)
                 (Radio (main_loop_body i s)) (main_loop_body i s).
Proof.
  intros Hm. destruct (flight_tick_outcome i s Hm) as [HO _].
  destruct (main_loop_body_gesture i s) as [HG _]. open_view HG.
  unfold arming_outcome in *.
  repeat match goal with H : _ (main_loop_body i s) = _ |- _ => rewrite H; clear H end.
  exact HO.
Qed.

(** *** Dispatch of a command byte *)

Lemma rx_set_rx port q (s : State) : rx port (set_rx port q s) = q.
Proof. unfold rx, set_rx. destruct (port =? 0); reflexivity. Qed.

Lemma CheckDebugInput_next (s : State) port c q :
  0 <= c -> next_command s port c q ->
  CheckDebugInput s = handle_command port c (set_rx port q s).
Proof.
  intros Hc [[-> H0]|[-> [H0 H1]]]; unfold CheckDebugInput, S4_Check, rx;
    norm_proj; cbn [Z.eqb]; rewrite H0.
  - destruct (c <? 0) eqn:E; [lia|]. reflexivity.
  - cbn [Z.ltb Z.compare]. rewrite H1.
    destruct (c <? 0) eqn:E; [lia|]. reflexivity.
Qed.

(** Bytes 0x10..0x17 reach the calibration commands and nothing else. *)
Lemma handle_command_calibration port c (s : State) :
  16 <= c <= 23 -> MODE_MotorTest < 16 ->
  handle_command port c s = calibration_command c s.
Proof.
  intros Hc Hm. unfold handle_command.
  destruct (c <=? MODE_MotorTest) eqn:E; [lia|].
  assert (Hcases : c = 16 \/ c = 17 \/ c = 18 \/ c = 19 \/ c = 20 \/ c = 21
                   \/ c = 22 \/ c = 23) by lia.
  destruct Hcases as [->|[->|[->|[->|[->|[->|[->| ->]]]]]]];
    cbn [Z.land Pos.land Z.eqb Pos.eqb andb Pos.Nsucc_double Pos.Ndouble Z.of_N];
    rewrite andb_false_r; reflexivity.
Qed.

(** Byte 0x19 reaches the upload. *)
Lemma handle_command_store port (s : State) :
  MODE_MotorTest < 25 ->
  handle_command port 25 s = store_settings port s.
Proof.
  intros Hm. unfold handle_command.
  destruct (25 <=? MODE_MotorTest) eqn:E; [lia|].
  cbn [Z.land Pos.land Z.eqb Pos.eqb andb Pos.Nsucc_double Pos.Ndouble Z.of_N].
  rewrite andb_false_r. unfold settings_command.
  cbn [Z.eqb Pos.eqb]. reflexivity.
Qed.

(** *** Servo calls *)

(** A loop that sets the four motor pins adds the four calls to the calls
    made. *)
Lemma servo_loop_trace (v : PREFS -> Z) (x : State) :
  for_loop 4 (fun i s => Servo32_Set (at_ (MotorPin s) i) (v (Prefs s)) s) x
  = x <| trace := trace x
                  ++ map (fun i => E_Servo32_Set (at_ (MotorPin x) i) (v (Prefs x))) (seq 0 4) |>.
Proof.
  unfold for_loop, Servo32_Set, emit. cbn [seq fold_left map]. st_simpl.
  rewrite <- !app_assoc. reflexivity.
Qed.

Lemma InitializePrefs_trace (s : State) : trace (InitializePrefs s) = trace s.
Proof.
  unfold InitializePrefs, do_Prefs_Load. destruct (Prefs_Load _ _) as [ok p].
  unfold ApplyPrefs. destruct FORCE_SBUS, PINS_V2; reflexivity.
Qed.

End Frames.

(** ** Motor outputs *)

Section MotorOutputs.

Context {hdr : Header} {pid : IntPID_ops} {imu_ops : QuatIMU_ops}
        {sens_ops : Sensors_ops} {prefs_ops : Prefs_ops}.

(** The loop of [main] that parks the motors. *)
Lemma park_motors (s : State) a b c d :
  Motor s = [a; b; c; d] ->
  Motor (for_loop 4 (fun i s =>
           let s := s <| Motor := <[i := MinThrottle (Prefs s)]> (Motor s) |> in
           Servo32_Set (at_ (MotorPin s) i) (MinThrottle (Prefs s)) s) s)
  = replicate 4 (MinThrottle (Prefs s)).
Proof.
  intros HM. unfold for_loop, Servo32_Set, emit. st_simpl. norm_proj. rewrite HM.
  reflexivity.
Qed.

Lemma main_startup_Motor first feed e :
  let s := main_startup first feed (power_on e) in
  Motor s = replicate 4 (MinThrottle (Prefs s)) /\ FlightEnabled s = 0.
Proof.
  unfold main_startup.
  destruct (Initialize_startup feed (power_on e)) as (HM & HE & _).
  set (s0 := Initialize feed (power_on e)) in *.
  cbv zeta. split.
  - etransitivity; [apply (park_motors _ 0 0 0 0); exact HM|]. reflexivity.
  - exact HE.
Qed.

(** The calls made during start-up: the four motor pins at MinThrottle
    when the servo driver is started, the beeps of the gyro search, and
    the four motor pins at MinThrottle again before the loop. *)
Lemma start_servos_calls (y : State) :
  MotorPin (start_servos y) = MotorPin y /\ Prefs (start_servos y) = Prefs y
  /\ trace (start_servos y)
     = trace y
       ++ map (fun i => E_Servo32_Set (at_ (MotorPin y) i) (MinThrottle (Prefs y))) (seq 0 4).
Proof.
  unfold start_servos. cbv zeta. rewrite (servo_loop_trace MinThrottle).
  repeat split.
Qed.

Lemma Initialize_calls feed (s0 : State) :
  let y := InitializePrefs (reset_variables s0) in
  MotorPin (Initialize feed s0) = MotorPin y /\ Prefs (Initialize feed s0) = Prefs y
  /\ trace (Initialize feed s0)
     = (trace y
        ++ map (fun i => E_Servo32_Set (at_ (MotorPin y) i) (MinThrottle (Prefs y))) (seq 0 4))
       ++ beeps (gz_search feed).
Proof.
  cbv zeta. unfold Initialize. cbv zeta.
  generalize (InitializePrefs (reset_variables s0)). intros y.
  rewrite FindGyroZero_eq. generalize (gz_search feed). intros g.
  destruct (start_servos_calls y) as (HP & HR & HT).
  generalize dependent (start_servos y). intros x HP HR HT.
  change (MotorPin (?z <| trace := _ |> <| GyroZX := _ |> <| GyroZY := _ |>
                       <| GyroZZ := _ |> <| imu := _ |>)) with (MotorPin z).
  change (Prefs (?z <| trace := _ |> <| GyroZX := _ |> <| GyroZY := _ |>
                    <| GyroZZ := _ |> <| imu := _ |>)) with (Prefs z).
  change (trace (?z <| trace := ?t |> <| GyroZX := _ |> <| GyroZY := _ |>
                    <| GyroZZ := _ |> <| imu := _ |>)) with t.
  change (MotorPin (init_controllers x)) with (MotorPin x).
  change (Prefs (init_controllers x)) with (Prefs x).
  change (trace (init_controllers x)) with (trace x).
  rewrite HP, HR, HT. repeat split.
Qed.

Lemma park_calls (x : State) :
  let x' := for_loop 4 (fun i s =>
              let s := s <| Motor := <[i := MinThrottle (Prefs s)]> (Motor s) |> in
              Servo32_Set (at_ (MotorPin s) i) (MinThrottle (Prefs s)) s) x in
  MotorPin x' = MotorPin x /\ Prefs x' = Prefs x
  /\ trace x'
     = trace x
       ++ map (fun i => E_Servo32_Set (at_ (MotorPin x) i) (MinThrottle (Prefs x))) (seq 0 4).
Proof.
  cbv zeta. unfold for_loop, Servo32_Set, emit. cbn [seq fold_left map]. st_simpl.
  rewrite <- !app_assoc. repeat split.
Qed.

Lemma main_startup_calls first feed (s0 : State) :
  let y := InitializePrefs (reset_variables s0) in
  let s := main_startup first feed s0 in
  MotorPin s = MotorPin y /\ Prefs s = Prefs y
  /\ trace s
     = trace y
       ++ map (fun i => E_Servo32_Set (at_ (MotorPin y) i) (MinThrottle (Prefs y))) (seq 0 4)
       ++ beeps (gz_search feed)
       ++ map (fun i => E_Servo32_Set (at_ (MotorPin y) i) (MinThrottle (Prefs y))) (seq 0 4).
Proof.
  cbv zeta. unfold main_startup. cbv zeta.
  destruct (Initialize_calls feed s0) as (HP & HR & HT). cbv zeta in HP, HR, HT.
  generalize dependent (Initialize feed s0). intros x HP HR HT.
  match goal with |- context [for_loop 4 ?body ?z] =>
    destruct (park_calls z) as (KP & KR & KT); cbv zeta in KP, KR, KT;
    generalize dependent (for_loop 4 body z) end.
  intros x' KP KR KT.
  rewrite KP, KR, KT. st_simpl. norm_proj. rewrite HP, HR, HT.
  rewrite <- !app_assoc. repeat split.
Qed.

Lemma InitializePrefs_power_on (e : EEPROM) :
  trace (InitializePrefs (reset_variables (power_on e))) = [].
Proof. rewrite InitializePrefs_trace. reflexivity. Qed.

(** The same calls, with the pins and the throttle read from the state the
    loop starts in. *)
Lemma calls_of_final_state (s y : State) g :
  MotorPin s = MotorPin y -> Prefs s = Prefs y ->
  trace s = trace y
       ++ map (fun i => E_Servo32_Set (at_ (MotorPin y) i) (MinThrottle (Prefs y))) (seq 0 4)
       ++ beeps g
       ++ map (fun i => E_Servo32_Set (at_ (MotorPin y) i) (MinThrottle (Prefs y))) (seq 0 4) ->
  trace y = [] ->
  trace s
  = [E_Servo32_Set (at_ (MotorPin s) 0) (MinThrottle (Prefs s));
     E_Servo32_Set (at_ (MotorPin s) 1) (MinThrottle (Prefs s));
     E_Servo32_Set (at_ (MotorPin s) 2) (MinThrottle (Prefs s));
     E_Servo32_Set (at_ (MotorPin s) 3) (MinThrottle (Prefs s))]
    ++ beeps g
    ++ [E_Servo32_Set (at_ (MotorPin s) 0) (MinThrottle (Prefs s));
        E_Servo32_Set (at_ (MotorPin s) 1) (MinThrottle (Prefs s));
        E_Servo32_Set (at_ (MotorPin s) 2) (MinThrottle (Prefs s));
        E_Servo32_Set (at_ (MotorPin s) 3) (MinThrottle (Prefs s))].
Proof. intros HP HR HT HI. rewrite HT, HP, HR, HI. reflexivity. Qed.

(** The control path writes clamped values into the four slots. *)
Lemma flight_control_range (x : State) i :
  length (Motor x) = 4%nat -> (i < 4)%nat ->
  at_ (Motor (battery_alarm (flight_control x))) i <= MaxThrottle (Prefs x)
  /\ (MinThrottleArmed (Prefs x) <= MaxThrottle (Prefs x) ->
      MinThrottleArmed (Prefs x) <= at_ (Motor (battery_alarm (flight_control x))) i).
Proof.
  intros Hlen Hi. rewrite battery_alarm_Motor.
  destruct (flight_control_Motor x) as (P & R & Y & M & T & E). rewrite E.
  pose proof (mix_X_length P R Y M T (Motor x)) as HL. rewrite Hlen in HL.
  destruct (length_4 _ HL) as (a & b & c & d & E'). rewrite E'.
  rewrite clamp_motors_at.
  destruct i as [|[|[|[|i]]]]; try lia; cbn [at_ lookup list_lookup default];
    (split; [apply clamp_le_max | apply clamp_ge_min]).
Qed.

(** C1 (as the code has it): on a tick that starts armed, either the
    controller stays armed and each of the four motor values computed by
    UpdateFlightLoop is at most MaxThrottle and, provided
    MinThrottleArmed <= MaxThrottle, at least MinThrottleArmed; or the tick
    is the disarm transition, after which the controller is disarmed, the
    four motor values equal MinThrottle and the calls the tick has added
    are the four motor pins set to MinThrottle, then Beep3.
    DisarmFlightMode writes MinThrottle to the four slots and to the four
    motor pins.  So does start-up, which leaves the controller disarmed:
    the only calls made before the loop are the four motor pins set to
    MinThrottle when the servo driver is started, the beeps of the gyro
    search, and the four motor pins set to MinThrottle again by [main]. *)
Theorem motor_outputs_bounded :
  (forall feed (s : State),
      FlightEnabled s <> 0 -> length (Motor s) = 4%nat ->
      let s' := UpdateFlightLoop feed s in
      (FlightEnabled s' = FlightEnabled s
       /\ forall i, (i < 4)%nat ->
            at_ (Motor s') i <= MaxThrottle (Prefs s)
            /\ (MinThrottleArmed (Prefs s) <= MaxThrottle (Prefs s) ->
                MinThrottleArmed (Prefs s) <= at_ (Motor s') i))
      \/ (FlightEnabled s' = 0
          /\ Motor s' = replicate 4 (MinThrottle (Prefs s))
          /\ trace s' = trace s ++ [E_Servo32_Set (at_ (MotorPin s) 0) (MinThrottle (Prefs s));
                                    E_Servo32_Set (at_ (MotorPin s) 1) (MinThrottle (Prefs s));
                                    E_Servo32_Set (at_ (MotorPin s) 2) (MinThrottle (Prefs s));
                                    E_Servo32_Set (at_ (MotorPin s) 3) (MinThrottle (Prefs s));
                                    E_Beep3]))
  /\ (forall (s : State),
      length (Motor s) = 4%nat ->
      let s' := DisarmFlightMode s in
      FlightEnabled s' = 0
      /\ Motor s' = replicate 4 (MinThrottle (Prefs s))
      /\ trace s' = trace s ++ [E_Servo32_Set (at_ (MotorPin s) 0) (MinThrottle (Prefs s));
                                E_Servo32_Set (at_ (MotorPin s) 1) (MinThrottle (Prefs s));
                                E_Servo32_Set (at_ (MotorPin s) 2) (MinThrottle (Prefs s));
                                E_Servo32_Set (at_ (MotorPin s) 3) (MinThrottle (Prefs s));
                                E_Beep3])
  /\ (forall first feed e,
      let s := main_startup first feed (power_on e) in
      FlightEnabled s = 0 /\ Motor s = replicate 4 (MinThrottle (Prefs s))
      /\ trace s = [E_Servo32_Set (at_ (MotorPin s) 0) (MinThrottle (Prefs s));
                    E_Servo32_Set (at_ (MotorPin s) 1) (MinThrottle (Prefs s));
                    E_Servo32_Set (at_ (MotorPin s) 2) (MinThrottle (Prefs s));
                    E_Servo32_Set (at_ (MotorPin s) 3) (MinThrottle (Prefs s))]
                   ++ beeps (gz_search feed)
                   ++ [E_Servo32_Set (at_ (MotorPin s) 0) (MinThrottle (Prefs s));
                       E_Servo32_Set (at_ (MotorPin s) 1) (MinThrottle (Prefs s));
                       E_Servo32_Set (at_ (MotorPin s) 2) (MinThrottle (Prefs s));
                       E_Servo32_Set (at_ (MotorPin s) 3) (MinThrottle (Prefs s))]).
Proof.
  split; [|split].
  - intros feed s Hen Hlen s'. subst s'.
    rewrite UpdateFlightLoop_armed by exact Hen.
    rewrite UpdateFlightLEDColor_eq.
    set (s0 := s <| LEDModeColor := _ |>).
    destruct (armed_sticks_cases s0) as [(s1 & -> & _ & _ & ->)|[(-> & _)|(-> & _)]].
    + right. destruct (length_4 _ Hlen) as (a & b & c & d & HM).
      erewrite DisarmFlightMode_eq by (subst s0; st_simpl; exact HM).
      repeat split; reflexivity.
    + left. split.
      * pose proof (battery_alarm_control (flight_control
           (s0 <| FlightEnableStep := int16 (FlightEnableStep s0 + 1) |>
               <| LEDModeColor := Z.land LED_Yellow LED_Half |>))) as H1.
        rewrite flight_control_control in H1. open_view H1. assumption.
      * intros i Hi.
        match goal with |- context [flight_control ?x] =>
          exact (flight_control_range x i Hlen Hi) end.
    + left. split.
      * pose proof (battery_alarm_control (flight_control
           (s0 <| FlightEnableStep := 0 |>))) as H1.
        rewrite flight_control_control in H1. open_view H1. assumption.
      * intros i Hi.
        match goal with |- context [flight_control ?x] =>
          exact (flight_control_range x i Hlen Hi) end.
  - intros s Hlen s'. subst s'.
    destruct (length_4 _ Hlen) as (a & b & c & d & HM).
    rewrite (DisarmFlightMode_eq s a b c d HM). repeat split; reflexivity.
  - intros first feed e. cbv zeta.
    destruct (main_startup_Motor first feed e) as [H1 H2].
    split; [exact H2|]. split; [exact H1|].
    destruct (main_startup_calls first feed (power_on e)) as (HP & HR & HT).
    exact (calls_of_final_state _ _ _ HP HR HT (InitializePrefs_power_on e)).
Qed.

End MotorOutputs.

(** The first part of [motor_outputs_bounded] on the bench: an armed
    controller with the usual limits, one tick of the flight loop. *)
Lemma motor_outputs_bounded_witness :
  FlightEnabled (Bench.armed 8500) <> 0
  /\ length (Motor (Bench.armed 8500)) = 4%nat
  /\ (let s' := UpdateFlightLoop (hdr := Bench.header) (fun _ _ => 0) (Bench.armed 8500) in
      (FlightEnabled s' = FlightEnabled (Bench.armed 8500)
       /\ forall i, (i < 4)%nat ->
            at_ (Motor s') i <= MaxThrottle (Prefs (Bench.armed 8500))
            /\ (MinThrottleArmed (Prefs (Bench.armed 8500))
                <= MaxThrottle (Prefs (Bench.armed 8500)) ->
                MinThrottleArmed (Prefs (Bench.armed 8500)) <= at_ (Motor s') i))
      \/ (FlightEnabled s' = 0
          /\ Motor s' = replicate 4 (MinThrottle (Prefs (Bench.armed 8500)))
          /\ trace s'
             = trace (Bench.armed 8500)
               ++ [E_Servo32_Set (at_ (MotorPin (Bench.armed 8500)) 0)
                     (MinThrottle (Prefs (Bench.armed 8500)));
                   E_Servo32_Set (at_ (MotorPin (Bench.armed 8500)) 1)
                     (MinThrottle (Prefs (Bench.armed 8500)));
                   E_Servo32_Set (at_ (MotorPin (Bench.armed 8500)) 2)
                     (MinThrottle (Prefs (Bench.armed 8500)));
                   E_Servo32_Set (at_ (MotorPin (Bench.armed 8500)) 3)
                     (MinThrottle (Prefs (Bench.armed 8500)));
                   E_Beep3])).
Proof.
  assert (H1 : FlightEnabled (Bench.armed 8500) <> 0) by (vm_compute; discriminate).
  assert (H2 : length (Motor (Bench.armed 8500)) = 4%nat) by (vm_compute; reflexivity).
  split; [exact H1|]. split; [exact H2|].
  exact (proj1 (motor_outputs_bounded (hdr := Bench.header)) (fun _ _ => 0)
               (Bench.armed 8500) H1 H2).
Defined.

(** C1 as stated does not hold for every preference record: with
    MinThrottleArmed = 17000 above MaxThrottle = 16000 the armed controller
    computes 16000 for a slot, which is below MinThrottleArmed. *)
Lemma motor_range_counterexample :
  FlightEnabled (Bench.armed 17000) = 1
  /\ FlightEnabled (UpdateFlightLoop (hdr := Bench.header) (fun _ _ => 0) (Bench.armed 17000)) = 1
  /\ MinThrottleArmed (Prefs (Bench.armed 17000)) = 17000
  /\ MaxThrottle (Prefs (Bench.armed 17000)) = 16000
  /\ at_ (Motor (UpdateFlightLoop (hdr := Bench.header) (fun _ _ => 0) (Bench.armed 17000))) 0
     = 16000
  /\ ~ (MinThrottleArmed (Prefs (Bench.armed 17000))
        <= at_ (Motor (UpdateFlightLoop (hdr := Bench.header) (fun _ _ => 0)
                         (Bench.armed 17000))) 0
        <= MaxThrottle (Prefs (Bench.armed 17000))).
Proof.
  assert (E1 : MinThrottleArmed (Prefs (Bench.armed 17000)) = 17000) by (vm_compute; reflexivity).
  assert (E2 : at_ (Motor (UpdateFlightLoop (hdr := Bench.header) (fun _ _ => 0)
                             (Bench.armed 17000))) 0 = 16000) by (vm_compute; reflexivity).
  repeat split; try (vm_compute; reflexivity).
  rewrite E1, E2. lia.
Qed.

(** ** Arming *)

Section Arming.

Context {hdr : Header} {pid : IntPID_ops} {imu_ops : QuatIMU_ops}
        {sens_ops : Sensors_ops} {prefs_ops : Prefs_ops}.

(** The invariant of a run: the controller is never in compass
    calibration, the hold counter is a [short], and while disarmed it
    counts no more ticks than the gesture has been held. *)
Lemma run_invariant first feed e ticks :
  let s0 := main_startup first feed (power_on e) in
  let s := run ticks s0 in
  FlightMode s <> FlightMode_CalibrateCompass
  /\ -32768 <= FlightEnableStep s <= 32767
  /\ (FlightEnabled s = 0 -> held (FlightEnableStep s) (history ticks s0)).
Proof.
  cbv zeta. induction ticks as [|i ticks IH] using rev_ind.
  - destruct (main_startup_state first feed e) as (HE & HS & HF & _).
    cbn [run fold_left]. rewrite HS, HF. split; [discriminate|]. split; [lia|].
    intros _ k Hk. lia.
  - rewrite run_snoc, history_snoc. destruct IH as (Hm & Hr & Hh).
    set (s0 := main_startup first feed (power_on e)) in *.
    set (s := run ticks s0) in *.
    destruct (main_loop_body_outcome i s Hm) as (_ & Hm' & Hr' & Hd & Ha).
    split; [exact Hm'|]. split; [exact Hr'|].
    intros He' k Hk.
    destruct (Z.eq_dec (FlightEnabled s) 0) as [He|He].
    + destruct (Hd He) as [(_ & _ & C & _)|[(G & _ & _ & HS)|(_ & _ & HS)]].
      * rewrite He' in C. discriminate.
      * destruct k as [|k].
        { exists (main_loop_body i s). split; [reflexivity|exact G]. }
        { cbn [lookup list_lookup]. apply (Hh He).
          pose proof (int16_succ_le (FlightEnableStep s)). lia. }
      * lia.
    + destruct (Ha He) as [C|(_ & HS)]; [congruence|lia].
Qed.

(** C4: on a run of the main loop from start-up, a tick that begins
    disarmed ends armed only if the arming gesture (throttle, elevator and
    aileron below -750, rudder above +750) is present on that tick and on
    every one of the ArmDelay most recent ticks; and a tick that begins
    disarmed without the gesture ends disarmed with FlightEnableStep = 0. *)
Theorem arming_requires_hold :
  forall first feed e ticks i,
    let s0 := main_startup first feed (power_on e) in
    let s := run ticks s0 in
    let s' := main_loop_body i s in
    FlightEnabled s = 0 ->
    (FlightEnabled s' <> 0 ->
     arm_gesture (Radio s') /\ held (ArmDelay (Prefs s)) (history (ticks ++ [i]) s0))
    /\ (~ arm_gesture (Radio s') -> FlightEnabled s' = 0 /\ FlightEnableStep s' = 0).
Proof.
  intros first feed e ticks i s0 s s' He.
  destruct (run_invariant first feed e ticks) as (Hm & Hr & Hh).
  fold s0 in Hm, Hr, Hh. fold s in Hm, Hr, Hh.
  destruct (main_loop_body_outcome i s Hm) as (_ & _ & _ & Hd & _).
  fold s' in Hd. specialize (Hd He). split.
  - intros Hen.
    destruct Hd as [(G & D & _)|[(_ & _ & C & _)|(_ & C & _)]]; try contradiction.
    split; [exact G|]. unfold held. intros k Hk. rewrite history_snoc.
    fold s0. fold s. fold s'.
    destruct k as [|k].
    + exists s'. split; [reflexivity|exact G].
    + cbn [lookup list_lookup]. apply (Hh He).
      pose proof (int16_succ_le (FlightEnableStep s)). lia.
  - intros Hn.
    destruct Hd as [(G & _)|[(G & _)|(_ & H1 & H2)]]; try contradiction.
    split; assumption.
Qed.

End Arming.

(** The theorem on the bench: ArmDelay = 2, the sticks in the arming
    corner for two ticks after start-up. *)
Lemma arming_requires_hold_witness :
  FlightEnabled (Bench.steps [Bench.arm_sticks] (Bench.started 2 2 8500)) = 0
  /\ (FlightEnabled (Bench.step Bench.arm_sticks
                       (Bench.steps [Bench.arm_sticks] (Bench.started 2 2 8500))) <> 0 ->
      arm_gesture (Radio (Bench.step Bench.arm_sticks
                            (Bench.steps [Bench.arm_sticks] (Bench.started 2 2 8500))))
      /\ held (ArmDelay (Prefs (Bench.steps [Bench.arm_sticks] (Bench.started 2 2 8500))))
              (history (hdr := Bench.header) ([Bench.arm_sticks] ++ [Bench.arm_sticks])
                       (Bench.started 2 2 8500))).
Proof.
  assert (H : FlightEnabled (Bench.steps [Bench.arm_sticks] (Bench.started 2 2 8500)) = 0)
    by (vm_compute; reflexivity).
  split; [exact H|].
  exact (proj1 (arming_requires_hold (hdr := Bench.header) (pid := Bench.pid)
                  (imu_ops := Bench.quatimu) (sens_ops := Bench.sensors)
                  (prefs_ops := Bench.prefs_store) Bench.still (fun _ _ => 0)
                  (Bench.stored 2 2 8500) [Bench.arm_sticks] Bench.arm_sticks H)).
Defined.


(** ** Altitude hold in Automatic mode *)

Section AltitudeHold.

Context {hdr : Header} {pid : IntPID_ops} {imu_ops : QuatIMU_ops}
        {sens_ops : Sensors_ops} {prefs_ops : Prefs_ops}.









End AltitudeHold.


(** C5 as stated does not hold on the tick that disarms: UpdateFlightLoop
    returns from the disarm test before it reaches the altitude code.  The
    bench controller hovers (armed, Automatic, IsHolding = 1) with a disarm
    delay of one tick; on the next tick the sticks are in the disarming
    corner, throttle at -1000.  The tick starts armed in Automatic mode
    with |Throttle| > 100, yet IsHolding is still 1 after it, and
    DesiredAscentRate is not (-1000 + 100) * 6000 / 924 = -5844. *)
Lemma automatic_mode_hold_counterexample :
  FlightEnabled (before_flight_loop Bench.disarm_sticks Bench.hovering) = 1
  /\ FlightMode (before_flight_loop Bench.disarm_sticks Bench.hovering) = FlightMode_Automatic
  /\ Thro (Radio (before_flight_loop Bench.disarm_sticks Bench.hovering)) = -1000
  /\ IsHolding (before_flight_loop Bench.disarm_sticks Bench.hovering) = 1
  /\ IsHolding (UpdateFlightLoop (hdr := Bench.header) (fun _ _ => 0)
                  (before_flight_loop Bench.disarm_sticks Bench.hovering)) = 1
  /\ DesiredAscentRate (UpdateFlightLoop (hdr := Bench.header) (fun _ _ => 0)
                          (before_flight_loop Bench.disarm_sticks Bench.hovering)) = 0
  /\ Z.quot (deadband_removed (-1000) * 6000) (1024 - AltiThrottleDeadband) = -5844
  /\ ~ (IsHolding (UpdateFlightLoop (hdr := Bench.header) (fun _ _ => 0)
                     (before_flight_loop Bench.disarm_sticks Bench.hovering)) = 0
        /\ DesiredAscentRate (UpdateFlightLoop (hdr := Bench.header) (fun _ _ => 0)
                                (before_flight_loop Bench.disarm_sticks Bench.hovering))
           = Z.quot (deadband_removed
                       (Thro (Radio (before_flight_loop Bench.disarm_sticks Bench.hovering)))
                     * 6000) (1024 - AltiThrottleDeadband)).
Proof.
  assert (H : IsHolding (UpdateFlightLoop (hdr := Bench.header) (fun _ _ => 0)
                           (before_flight_loop Bench.disarm_sticks Bench.hovering)) = 1)
    by (vm_compute; reflexivity).
  repeat split; try (vm_compute; reflexivity).
  intros [C _]. rewrite H in C. discriminate C.
Qed.

(** Two ticks on the bench: leaving the arming corner for a centred stick
    starts the hover at the current altitude estimate; pushing the stick to
    +562 ends it with an ascent rate of (562 - 100) * 6000 / 924 = 3000. *)
Example hover_then_climb :
  let hover := Bench.step Bench.centred (Bench.armed 8500) in
  let climb := Bench.step (Bench.tick 562 0 0 0 0 [] []) hover in
  IsHolding (Bench.armed 8500) = 0
  /\ IsHolding hover = 1 /\ DesiredAltitude hover = 1000
  /\ IsHolding climb = 0 /\ DesiredAscentRate climb = 3000.
Proof. vm_compute. repeat split; reflexivity. Qed.

(** ** Flight mode selection *)

Section ModeSelection.

Context {hdr : Header} {pid : IntPID_ops} {imu_ops : QuatIMU_ops}
        {sens_ops : Sensors_ops} {prefs_ops : Prefs_ops}.

(** UpdateFlightLoop neither changes the flight mode nor the radio frame. *)
Lemma UpdateFlightLoop_mode feed (s : State) :
  FlightMode (UpdateFlightLoop feed s) = FlightMode s
  /\ Radio (UpdateFlightLoop feed s) = Radio s.
Proof.
  destruct (Z.eq_dec (FlightEnabled s) 0) as [Hd|Ha].
  - destruct (UpdateFlightLoop_disarmed_cases feed s Hd) as [(_ & _ & E)|[(_ & _ & E)|(_ & E)]];
      open_view E; split; assumption.
  - destruct (UpdateFlightLoop_armed_cases feed s Ha) as [(n & _ & E)|E];
      open_view E; split; assumption.
Qed.

(** The mode at the end of a tick is the position of the gear switch read
    on that tick. *)
Lemma main_loop_body_mode i (s : State) :
  FlightMode s <> FlightMode_CalibrateCompass ->
  FlightMode (main_loop_body i s) = gear_mode (Gear (Radio (main_loop_body i s))).
Proof.
  intros Hm. destruct (main_loop_body_gesture i s) as [HG _]. open_view HG.
  repeat match goal with H : _ (main_loop_body i s) = _ |- _ => rewrite H; clear H end.
  unfold flight_tick. cbv zeta.
  remember (if negb (UseSBUS (Prefs (intake i s)) =? 0)
            then read_radio (in_SBUS_GetRC i) (intake i s)
            else read_radio (in_RC_GetRC i) (intake i s)) as s2 eqn:E2.
  assert (Hv2 : tick_view s2 = tick_view s).
  { subst s2. destruct (negb _); rewrite read_radio_tick; apply intake_tick. }
  clear E2. open_view Hv2.
  assert (Hm2 : FlightMode s2 <> FlightMode_CalibrateCompass) by congruence.
  rewrite (bool_decide_eq_false_2 _ Hm2).
  pose proof (select_flight_mode_select s2) as Hv3. open_view Hv3.
  pose proof (select_flight_mode_FlightMode s2) as HM3.
  remember (select_flight_mode s2) as s3 eqn:E3. clear E3.
  destruct (UpdateFlightLoop_mode (in_Sensors_In i) s3) as [HM4 HR4].
  remember (UpdateFlightLoop (in_Sensors_In i) s3) as s4 eqn:E4. clear E4.
  pose proof (battery_monitor_monitor (in_battery i) s4) as Hv5. open_view Hv5.
  remember (battery_monitor (in_battery i) s4) as s5 eqn:E5. clear E5.
  unfold All_LED. st_simpl. norm_proj.
  repeat match goal with H : _ s5 = _ |- _ => rewrite H; clear H end.
  rewrite HM4, HR4, HM3.
  match goal with H : Radio s3 = Radio s2 |- _ => rewrite H end. reflexivity.
Qed.

(** C6: outside compass calibration the flight mode is recomputed on
    every tick from the gear channel (Assisted above 512, Manual below -512,
    Automatic otherwise).  The block of [main] that does it leaves the state
    alone when the mode is unchanged; when the mode changes it sets
    IsHolding to 0, resets the desired orientation if the new mode is Manual
    and only the desired yaw otherwise, and sets DesiredAltitude to AltiEst
    if the new mode is Automatic. *)
Theorem flight_mode_selection :
  (forall i (s : State),
      FlightMode s <> FlightMode_CalibrateCompass ->
      FlightMode (main_loop_body i s) = gear_mode (Gear (Radio (main_loop_body i s))))
  /\ (forall s : State,
      let new := gear_mode (Gear (Radio s)) in
      let s' := select_flight_mode s in
      FlightMode s' = new
      /\ (new = FlightMode s -> s' = s)
      /\ (new <> FlightMode s ->
          IsHolding s' = 0
          /\ imu s' = (if decide (new = FlightMode_Manual)
                       then QuatIMU_ResetDesiredOrientation (imu s)
                       else QuatIMU_ResetDesiredYaw (imu s))
          /\ DesiredAltitude s' = (if decide (new = FlightMode_Automatic)
                                   then AltiEst s else DesiredAltitude s))).
Proof.
  split; [exact main_loop_body_mode|].
  intros s new s'. split; [apply select_flight_mode_FlightMode|].
  subst s'. unfold select_flight_mode. cbv zeta. fold (gear_mode (Gear (Radio s))).
  fold new. split.
  - intros E. rewrite (bool_decide_eq_true_2 _ E). reflexivity.
  - intros N. rewrite (bool_decide_eq_false_2 _ N). cbn [negb].
    destruct (decide (new = FlightMode_Manual)) as [EM|NM];
      [rewrite (bool_decide_eq_true_2 _ EM)|rewrite (bool_decide_eq_false_2 _ NM)];
      (destruct (decide (new = FlightMode_Automatic)) as [EA|NA];
       [rewrite (bool_decide_eq_true_2 _ EA)|rewrite (bool_decide_eq_false_2 _ NA)]);
      repeat split; reflexivity.
Qed.

End ModeSelection.

(** The theorem on the bench: after start-up (Assisted), a tick with the
    gear switch centred selects Automatic. *)
Lemma flight_mode_selection_witness :
  FlightMode (Bench.started 2 2 8500) <> FlightMode_CalibrateCompass
  /\ FlightMode (Bench.step Bench.centred (Bench.started 2 2 8500))
     = gear_mode (Gear (Radio (Bench.step Bench.centred (Bench.started 2 2 8500)))).
Proof.
  assert (H : FlightMode (Bench.started 2 2 8500) <> FlightMode_CalibrateCompass)
    by (vm_compute; discriminate).
  split; [exact H|].
  exact (proj1 (flight_mode_selection (hdr := Bench.header)) Bench.centred
               (Bench.started 2 2 8500) H).
Defined.

(** Moving the gear switch from its centre to the Manual position resets
    the desired orientation once more and leaves the hover. *)
Example switch_to_manual :
  let hover := Bench.step Bench.centred (Bench.armed 8500) in
  let manual := Bench.step (Bench.tick 0 0 0 0 (-1000) [] []) hover in
  FlightMode hover = FlightMode_Automatic /\ IsHolding hover = 1
  /\ FlightMode manual = FlightMode_Manual /\ IsHolding manual = 0
  /\ Bench.orientation_resets (imu manual) = S (Bench.orientation_resets (imu hover))
  /\ Bench.yaw_resets (imu manual) = Bench.yaw_resets (imu hover).
Proof. vm_compute. repeat split; reflexivity. Qed.

(** ** The X mixer *)

Section Mixer.

Lemma shiftr7_div x : Z.shiftr x 7 = x / 128.
Proof. rewrite Z.shiftr_div_pow2 by lia. reflexivity. Qed.

(** C7: the X mixer stage.  With no attitude correction the four mixed
    values equal the base throttle 12000, whatever ThroMix is; a pure roll
    command of +1000 at ThroMix = 64 raises FL and BL to 12500 and lowers
    FR and BR to 11500; in general each slot receives
    ThroOut + ((+-Pitch +-Roll +-Yaw) * ThroMix) / 128 with the signs of the
    X pattern, the division being the flooring one of the shift and both
    the product and the sum being 32-bit results. *)
Theorem mix_X_pattern :
  (forall ThroMix a b c d,
      mix_X 0 0 0 ThroMix 12000 [a; b; c; d] = [12000; 12000; 12000; 12000])
  /\ (forall a b c d,
      let motor := mix_X 0 1000 0 64 12000 [a; b; c; d] in
      at_ motor OUT_FL = 12500 /\ at_ motor OUT_BL = 12500
      /\ at_ motor OUT_FR = 11500 /\ at_ motor OUT_BR = 11500)
  /\ (forall PitchOut RollOut YawOut ThroMix ThroOut a b c d,
      let motor := mix_X PitchOut RollOut YawOut ThroMix ThroOut [a; b; c; d] in
      at_ motor OUT_FL = int32 (ThroOut + int32 ((PitchOut + RollOut - YawOut) * ThroMix) / 128)
      /\ at_ motor OUT_FR = int32 (ThroOut + int32 ((PitchOut - RollOut + YawOut) * ThroMix) / 128)
      /\ at_ motor OUT_BL = int32 (ThroOut + int32 ((- PitchOut + RollOut + YawOut) * ThroMix) / 128)
      /\ at_ motor OUT_BR = int32 (ThroOut + int32 ((- PitchOut - RollOut - YawOut) * ThroMix) / 128)).
Proof.
  split; [|split].
  - intros ThroMix a b c d. unfold mix_X, OUT_FL, OUT_FR, OUT_BL, OUT_BR. cbn.
    replace (- ThroMix * 0) with 0 by lia. reflexivity.
  - intros a b c d. vm_compute. repeat split; reflexivity.
  - intros. unfold motor, mix_X, OUT_FL, OUT_FR, OUT_BL, OUT_BR. cbn [insert list_insert at_ lookup list_lookup default].
    rewrite !shiftr7_div. cbn. repeat split; reflexivity.
Qed.

End Mixer.

(** * Further properties of the main thread *)

(** Splits an equation between two views of the link into its field
    equations. *)
Ltac open_link H :=
  let H' := fresh in
  let x := fresh "x" in let y := fresh "y" in
  let Ex := fresh "Ex" in let Ey := fresh "Ey" in
  pose proof H as H';
  lazymatch type of H' with
  | ?v ?a = ?v' ?b =>
      remember a as x eqn:Ex in H'; remember b as y eqn:Ey in H';
      unfold console_view, pulse_view, queue_view, link_view in H';
      injection H'; clear H'; intros; subst x; subst y
  end.

Section Console.

Context {hdr : Header} {pid : IntPID_ops} {imu_ops : QuatIMU_ops}
        {sens_ops : Sensors_ops} {prefs_ops : Prefs_ops}.

(** ** The flight code leaves the link alone *)

Lemma DisarmFlightMode_link (s : State) :
  link_view (DisarmFlightMode s) = link_view s.
Proof. unfold DisarmFlightMode, All_LED, Beep3, Servo32_Set, emit. reflexivity. Qed.

Lemma ArmFlightMode_link feed (s : State) :
  link_view (ArmFlightMode feed s) = link_view s.
Proof. rewrite ArmFlightMode_eq. generalize (gz_search feed). intros g. reflexivity. Qed.

Lemma UpdateFlightLoop_link feed (s : State) :
  link_view (UpdateFlightLoop feed s) = link_view s.
Proof.
  destruct (Z.eq_dec (FlightEnabled s) 0) as [Hd|Ha].
  - rewrite (UpdateFlightLoop_disarmed feed s Hd), battery_alarm_link.
    rewrite UpdateFlightLEDColor_eq.
    set (s0 := s <| LEDModeColor := _ |>).
    destruct (disarmed_sticks_cases feed s0)
      as [(_ & _ & ->)|[(_ & _ & ->)|[(_ & _ & ->)|(_ & _ & ->)]]];
      [rewrite ArmFlightMode_link| | |]; reflexivity.
  - rewrite (UpdateFlightLoop_armed feed s Ha).
    rewrite UpdateFlightLEDColor_eq.
    set (s0 := s <| LEDModeColor := _ |>).
    destruct (armed_sticks_cases s0) as [(s1 & -> & _ & _ & ->)|[(-> & _)|(-> & _)]].
    + rewrite DisarmFlightMode_link. reflexivity.
    + rewrite battery_alarm_link.
      match goal with |- link_view (flight_control ?x) = _ =>
        pose proof (flight_control_control x) as H end.
      apply (f_equal (fun v => fst (fst (fst (fst (fst (fst (fst (fst (fst (fst (fst (fst (fst v)))))))))))))) in H.
      exact H.
    + rewrite battery_alarm_link.
      match goal with |- link_view (flight_control ?x) = _ =>
        pose proof (flight_control_control x) as H end.
      apply (f_equal (fun v => fst (fst (fst (fst (fst (fst (fst (fst (fst (fst (fst (fst (fst v)))))))))))))) in H.
      exact H.
Qed.

Lemma tick_view_link (s s' : State) : tick_view s' = tick_view s -> link_view s' = link_view s.
Proof.
  intros H.
  exact (f_equal (fun v => fst (fst (fst (fst (fst (fst (fst (fst (fst (fst (fst (fst v)))))))))))) H).
Qed.

Lemma select_view_link (s s' : State) :
  select_view s' = select_view s -> link_view s' = link_view s.
Proof.
  intros H.
  exact (f_equal (fun v => fst (fst (fst (fst (fst (fst (fst (fst (fst (fst v)))))))))) H).
Qed.

Lemma monitor_view_link (s s' : State) :
  monitor_view s' = monitor_view s -> link_view s' = link_view s.
Proof.
  intros H.
  exact (f_equal (fun v => fst (fst (fst (fst (fst (fst (fst (fst (fst (fst v)))))))))) H).
Qed.

Lemma flight_tick_link i (s : State) : link_view (flight_tick i s) = link_view s.
Proof.
  unfold flight_tick. cbv zeta.
  remember (if negb (UseSBUS (Prefs (intake i s)) =? 0)
            then read_radio (in_SBUS_GetRC i) (intake i s)
            else read_radio (in_RC_GetRC i) (intake i s)) as s2 eqn:E2.
  assert (Hv2 : link_view s2 = link_view s).
  { apply tick_view_link. subst s2.
    destruct (negb _); rewrite read_radio_tick; apply intake_tick. }
  clear E2.
  remember (if bool_decide (FlightMode s2 = FlightMode_CalibrateCompass)
            then DoCompassCalibrate s2
            else UpdateFlightLoop (in_Sensors_In i) (select_flight_mode s2)) as s4 eqn:E4.
  assert (Hv4 : link_view s4 = link_view s).
  { subst s4. destruct (bool_decide _); [exact Hv2|].
    rewrite UpdateFlightLoop_link.
    rewrite (select_view_link _ _ (select_flight_mode_select s2)). exact Hv2. }
  clear E4.
  change (link_view (All_LED ?c ?x)) with (link_view x).
  rewrite (monitor_view_link _ _ (battery_monitor_monitor (in_battery i) s4)).
  exact Hv4.
Qed.

Lemma update_estimates_link (s : State) : link_view (update_estimates s) = link_view s.
Proof. reflexivity. Qed.

(** ** What the command handler writes *)

Lemma set_rx_kept port q (s : State) :
  Prefs (set_rx port q s) = Prefs s /\ trace (set_rx port q s) = trace s
  /\ eeprom (set_rx port q s) = eeprom s.
Proof. unfold set_rx. destruct (port =? 0); repeat split; reflexivity. Qed.

Lemma console_pulse (s s' : State) :
  console_view s' = console_view s -> pulse_view s' = pulse_view s.
Proof. intros H. exact (f_equal fst H). Qed.

Lemma console_nudge (s s' : State) :
  console_view s' = console_view s -> NudgeMotor s' = NudgeMotor s.
Proof. intros H. exact (f_equal snd H). Qed.

Lemma set_rx_console port q (s : State) : console_view (set_rx port q s) = console_view s.
Proof. unfold set_rx. destruct (port =? 0); reflexivity. Qed.

Lemma S4_Check_console port (s : State) :
  console_view (snd (S4_Check port s)) = console_view s.
Proof. unfold S4_Check. destruct (rx port s); [reflexivity|apply set_rx_console]. Qed.

Lemma S4_Get_Timed_console port (s : State) :
  console_view (snd (S4_Get_Timed port s)) = console_view s.
Proof. unfold S4_Get_Timed. destruct (rx port s); [reflexivity|apply set_rx_console]. Qed.

Lemma S4_Get_console port late (s : State) :
  console_view (snd (S4_Get port late s)) = console_view s.
Proof. unfold S4_Get. destruct (rx port s); [reflexivity|apply set_rx_console]. Qed.

Lemma calibration_command_console c (s : State) :
  console_view (calibration_command c s) = console_view s.
Proof.
  unfold calibration_command.
  destruct (Mode s =? MODE_SensorTest); [|reflexivity].
  destruct (c =? 16); [reflexivity|].
  destruct (c =? 17); [reflexivity|].
  destruct (c =? 19).
  { unfold Beep2. change (console_view (emit E_Beep2 ?x)) with (console_view x).
    apply for_loop_frame. intros i x. reflexivity. }
  destruct (c =? 20); [reflexivity|].
  destruct (c =? 21); reflexivity.
Qed.

Lemma receive_prefs_console port (s : State) :
  console_view (snd (receive_prefs port s)) = console_view s.
Proof.
  unfold receive_prefs.
  apply (for_loop_frame (fun x : list Z * State => console_view (snd x))).
  intros i [bytes x]. pose proof (S4_Get_Timed_console port x) as H.
  destruct (S4_Get_Timed port x) as [b x']. exact H.
Qed.

Lemma ApplyPrefs_console (s : State) : console_view (ApplyPrefs s) = console_view s.
Proof. unfold ApplyPrefs. destruct FORCE_SBUS, PINS_V2; reflexivity. Qed.

Lemma do_Prefs_Load_console (s : State) :
  console_view (snd (do_Prefs_Load s)) = console_view s.
Proof. unfold do_Prefs_Load. destruct (Prefs_Load _ _). reflexivity. Qed.

Lemma store_settings_console port (s : State) :
  console_view (store_settings port s) = console_view s.
Proof.
  unfold store_settings.
  pose proof (receive_prefs_console port s) as H.
  destruct (receive_prefs port s) as [bytes s1]. cbn [snd] in H.
  destruct (_ =? _); [|exact H].
  match goal with |- context [do_Prefs_Load ?x] =>
    pose proof (do_Prefs_Load_console x) as H2; destruct (do_Prefs_Load x) as [ok s2] end.
  cbn [snd] in H2. destruct ok.
  - rewrite ApplyPrefs_console. etransitivity; [|exact H].
    etransitivity; [|exact H2]. reflexivity.
  - etransitivity; [|exact H]. etransitivity; [|exact H2]. reflexivity.
Qed.

Lemma settings_command_console port c (s : State) :
  console_view (settings_command port c s) = console_view s.
Proof.
  unfold settings_command.
  destruct (c =? 24); [reflexivity|].
  destruct (c =? 25); [apply store_settings_console|].
  destruct (c =? 26); [|reflexivity].
  pose proof (S4_Get_Timed_console port s) as H.
  destruct (S4_Get_Timed port s) as [b s1]. cbn [snd] in H.
  destruct (b =? 26); [|exact H]. etransitivity; [|exact H]. reflexivity.
Qed.

(** The commands above the display modes and outside the motor nudge. *)
Lemma handle_command_console port c (s : State) :
  MODE_MotorTest < c ->
  (port =? 0) && (Z.land c 248 =? 8) = false ->
  console_view (handle_command port c s) = console_view s.
Proof.
  intros Hc Hn. unfold handle_command.
  destruct (c <=? MODE_MotorTest) eqn:E; [lia|].
  rewrite Hn. cbv zeta.
  assert (H1 : console_view (if Z.land c 248 =? 16 then calibration_command c s else s)
               = console_view s).
  { destruct (_ =? 16); [apply calibration_command_console|reflexivity]. }
  set (s1 := if Z.land c 248 =? 16 then calibration_command c s else s) in *.
  assert (H2 : console_view (if Z.land c 248 =? 24 then settings_command port c s1 else s1)
               = console_view s).
  { destruct (_ =? 24); [rewrite settings_command_console|]; exact H1. }
  set (s2 := if Z.land c 248 =? 24 then settings_command port c s1 else s1) in *.
  destruct (c =? 255); [|exact H2]. etransitivity; [|exact H2]. reflexivity.
Qed.

(** Only a display-mode byte writes the mode and the countdowns. *)
Lemma handle_command_pulse port c (s : State) :
  MODE_MotorTest < c -> pulse_view (handle_command port c s) = pulse_view s.
Proof.
  intros Hc.
  destruct ((port =? 0) && (Z.land c 248 =? 8)) eqn:Hn.
  - unfold handle_command. destruct (c <=? MODE_MotorTest) eqn:E; [lia|].
    rewrite Hn. reflexivity.
  - apply console_pulse, handle_command_console; assumption.
Qed.

(** A display-mode byte. *)
Lemma handle_command_mode c (s : State) :
  c <= MODE_MotorTest ->
  handle_command 0 c s = s <| Mode := c |> <| UsbPulse := 500 |> <| XBeePulse := 0 |>
  /\ handle_command 1 c s = s <| Mode := c |> <| UsbPulse := 0 |> <| XBeePulse := 500 |>.
Proof.
  intros Hc. unfold handle_command.
  destruct (c <=? MODE_MotorTest) eqn:E; [|lia]. split; reflexivity.
Qed.

(** With nothing waiting on either port the handler does nothing. *)
Lemma CheckDebugInput_idle (s : State) :
  rx0 s = [] -> rx1 s = [] -> CheckDebugInput s = s.
Proof.
  intros H0 H1. unfold CheckDebugInput, S4_Check, rx. norm_proj. cbn [Z.eqb].
  rewrite H0. cbn [Z.ltb Z.compare]. rewrite H1. reflexivity.
Qed.

(** ** What the telemetry writes *)

Lemma sensor_test_packet_eq port phase (s : State) :
  exists t, sensor_test_packet port phase s = s <| trace := t |>.
Proof.
  unfold sensor_test_packet, emit.
  repeat match goal with |- context [if ?c then _ else _] => destruct c end;
    eexists; reflexivity.
Qed.

(** A quantity that beeps, servo pulses, LED colours, the receive queue of
    port 0 and the nudge request do not enter is unchanged by the motor
    test. *)
Lemma motor_test_frame {A : Type} (f : State -> A) late (s : State) :
  (forall x e, f (emit e x) = f x) ->
  (forall x q, f (x <| rx0 := q |>) = f x) ->
  (forall x c, f (All_LED c x) = f x) ->
  (forall x n, f (x <| NudgeMotor := n |>) = f x) ->
  f (motor_test late s) = f s.
Proof.
  intros He Hq Hl Hn.
  assert (Hget : forall b x, f (snd (S4_Get 0 b x)) = f x).
  { intros b x. unfold S4_Get. destruct (rx 0 x); [reflexivity|]. apply Hq. }
  assert (Hservo : forall (v : State -> Z) x,
             f (for_loop 4 (fun i s => Servo32_Set (at_ (MotorPin s) i) (v s) s) x) = f x).
  { intros v x. apply for_loop_frame. intros i y. apply He. }
  assert (Hled : forall (c : nat -> Z) x, f (for_loop 256 (fun i => All_LED (c i)) x) = f x).
  { intros c x. apply for_loop_frame. intros i y. apply Hl. }
  unfold motor_test. destruct (NudgeMotor s >? -1); [|reflexivity].
  rewrite Hn.
  destruct (NudgeMotor s <? 4); [apply He|].
  destruct (NudgeMotor s =? 4); [unfold BeepHz; rewrite !He; reflexivity|].
  destruct (NudgeMotor s =? 5); [rewrite !Hled; reflexivity|].
  destruct (NudgeMotor s =? 6).
  { cbv zeta.
    match goal with |- context [S4_Get 0 (fst late) ?x] =>
      pose proof (Hget (fst late) x) as H1;
      destruct (S4_Get 0 (fst late) x) as [b s1] end.
    cbn [snd] in H1. unfold BeepHz in H1. rewrite !He in H1.
    destruct (b =? 255); [|exact H1].
    match goal with |- context [S4_Get 0 (snd late) ?x] =>
      pose proof (Hget (snd late) x) as H2;
      destruct (S4_Get 0 (snd late) x) as [b2 s2] end.
    cbn [snd] in H2.
    rewrite (Hservo (fun s => MinThrottle (Prefs s))).
    etransitivity; [exact H2|].
    rewrite (Hservo (fun s => MaxThrottle (Prefs s))). exact H1. }
  destruct (NudgeMotor s =? 7); [|reflexivity].
  apply (Hservo (fun s => MinThrottle (Prefs s))).
Qed.

Lemma motor_test_pulse late (s : State) : pulse_view (motor_test late s) = pulse_view s.
Proof. apply motor_test_frame; intros; reflexivity. Qed.

Lemma motor_test_rx1 late (s : State) : rx1 (motor_test late s) = rx1 s.
Proof. apply motor_test_frame; intros; reflexivity. Qed.

(** The blocking reads of the ESC calibration find the queue empty and
    leave it so. *)
Lemma motor_test_rx0 late (s : State) : rx0 s = [] -> rx0 (motor_test late s) = [].
Proof.
  intros H.
  assert (Hservo : forall (v : State -> Z) x,
             rx0 (for_loop 4 (fun i s => Servo32_Set (at_ (MotorPin s) i) (v s) s) x) = rx0 x).
  { intros v x. apply (for_loop_frame rx0). intros i y. reflexivity. }
  assert (Hled : forall (c : nat -> Z) x, rx0 (for_loop 256 (fun i => All_LED (c i)) x) = rx0 x).
  { intros c x. apply (for_loop_frame rx0). intros i y. reflexivity. }
  assert (Hget : forall b x, rx0 x = [] -> S4_Get 0 b x = (b, x)).
  { intros b x Hx. unfold S4_Get, rx. cbn [Z.eqb]. norm_proj. rewrite Hx. reflexivity. }
  unfold motor_test. destruct (NudgeMotor s >? -1); [|exact H].
  change (rx0 (?x <| NudgeMotor := -1 |>)) with (rx0 x).
  destruct (NudgeMotor s <? 4); [exact H|].
  destruct (NudgeMotor s =? 4); [exact H|].
  destruct (NudgeMotor s =? 5); [rewrite !Hled; exact H|].
  destruct (NudgeMotor s =? 6).
  { cbv zeta. rewrite Hget by exact H.
    destruct (fst late =? 255); [|exact H].
    rewrite Hget by (rewrite Hservo; exact H).
    rewrite !Hservo. exact H. }
  destruct (NudgeMotor s =? 7); [|exact H].
  rewrite Hservo. exact H.
Qed.

Lemma debug_output_pulse port phase late (s : State) :
  pulse_view (debug_output port phase late s) = pulse_view s.
Proof.
  unfold debug_output. destruct (Mode s =? MODE_None); [reflexivity|].
  cbv zeta. rewrite motor_test_pulse.
  destruct (Mode s =? MODE_SensorTest); [|reflexivity].
  destruct (sensor_test_packet_eq port phase s) as [t ->]. reflexivity.
Qed.

Lemma debug_output_queue port phase late (s : State) :
  rx0 s = [] -> queue_view (debug_output port phase late s) = queue_view s.
Proof.
  intros H. unfold debug_output. destruct (Mode s =? MODE_None); [reflexivity|].
  cbv zeta. unfold queue_view.
  assert (E : exists t, (if Mode s =? MODE_SensorTest then sensor_test_packet port phase s else s)
                        = s <| trace := t |>).
  { destruct (Mode s =? MODE_SensorTest); [apply sensor_test_packet_eq|].
    exists (trace s). reflexivity. }
  destruct E as [t ->].
  rewrite motor_test_rx1, motor_test_rx0 by exact H.
  norm_proj. rewrite H. reflexivity.
Qed.

(** The countdown at the head of DoDebugModeOutput: whichever countdown is
    positive, the one decremented and tested is [UsbPulse]. *)
Lemma DoDebugModeOutput_pulse late phase (s : State) :
  pulse_view (DoDebugModeOutput late phase s) =
  if (UsbPulse s >? 0) || (XBeePulse s >? 0)
  then (if int16 (UsbPulse s - 1) =? 0 then MODE_None else Mode s,
        int16 (UsbPulse s - 1), XBeePulse s)
  else pulse_view s.
Proof.
  unfold DoDebugModeOutput.
  destruct (UsbPulse s >? 0); cbn [orb].
  { cbv zeta. st_simpl. norm_proj. destruct (int16 _ =? 0); [reflexivity|].
    rewrite debug_output_pulse. reflexivity. }
  destruct (XBeePulse s >? 0).
  { cbv zeta. st_simpl. norm_proj. destruct (int16 _ =? 0); [reflexivity|].
    rewrite debug_output_pulse. reflexivity. }
  apply debug_output_pulse.
Qed.

Lemma DoDebugModeOutput_queue late phase (s : State) :
  rx0 s = [] -> queue_view (DoDebugModeOutput late phase s) = queue_view s.
Proof.
  intros H. unfold DoDebugModeOutput.
  destruct (UsbPulse s >? 0).
  { cbv zeta. match goal with |- context [if ?c then _ else _] => destruct c end;
      [reflexivity|]. rewrite debug_output_queue by exact H. reflexivity. }
  destruct (XBeePulse s >? 0).
  { cbv zeta. match goal with |- context [if ?c then _ else _] => destruct c end;
      [reflexivity|]. rewrite debug_output_queue by exact H. reflexivity. }
  apply debug_output_queue. exact H.
Qed.

(** ** Ticks without traffic *)

Lemma receive_quiet i (s : State) : quiet i -> receive i s = s.
Proof.
  intros [H0 H1]. unfold receive. rewrite H0, H1. st_simpl. rewrite !app_nil_r.
  reflexivity.
Qed.

Lemma main_loop_body_output i (s : State) :
  main_loop_body i s =
  (DoDebugModeOutput (in_late0 i) (in_phase i) (before_output i s))
    <| counter := int32 (counter (DoDebugModeOutput (in_late0 i) (in_phase i)
                                    (before_output i s)) + 1) |>.
Proof. reflexivity. Qed.

(** On a quiet tick with empty queues the command handler sees the link
    variables the tick started with. *)
Lemma before_output_quiet i (s : State) :
  quiet i -> rx0 s = [] -> rx1 s = [] ->
  before_output i s = update_estimates (flight_tick i s)
  /\ link_view (before_output i s) = link_view s.
Proof.
  intros Hq H0 H1. unfold before_output. rewrite (receive_quiet _ _ Hq).
  assert (HL : link_view (update_estimates (flight_tick i s)) = link_view s).
  { rewrite update_estimates_link. apply flight_tick_link. }
  remember (update_estimates (flight_tick i s)) as x eqn:Ex. clear Ex.
  open_link HL.
  rewrite CheckDebugInput_idle by congruence.
  split; [reflexivity|]. unfold link_view. congruence.
Qed.

Lemma queue_view_inv (x y : State) :
  queue_view x = queue_view y -> rx0 x = rx0 y /\ rx1 x = rx1 y.
Proof. intros H. split; [exact (f_equal fst H)|exact (f_equal snd H)]. Qed.

Lemma pulse_view_inv (x : State) m u p :
  pulse_view x = (m, u, p) -> Mode x = m /\ UsbPulse x = u /\ XBeePulse x = p.
Proof. unfold pulse_view. intros H. injection H. intros. repeat split; assumption. Qed.

Lemma link_view_inv (x y : State) :
  link_view x = link_view y ->
  pulse_view x = pulse_view y /\ NudgeMotor x = NudgeMotor y
  /\ queue_view x = queue_view y /\ Prefs x = Prefs y /\ sensor_cal x = sensor_cal y
  /\ eeprom x = eeprom y /\ MotorPin x = MotorPin y.
Proof.
  unfold link_view, pulse_view, queue_view. intros H. injection H. intros.
  repeat split; congruence.
Qed.

Lemma pulse_view_eq (x y : State) :
  pulse_view x = pulse_view y ->
  Mode x = Mode y /\ UsbPulse x = UsbPulse y /\ XBeePulse x = XBeePulse y.
Proof. intros H. apply pulse_view_inv. exact H. Qed.

(** The end of a tick, from the call of DoDebugModeOutput on. *)
Lemma close_tick late phase (x : State) :
  rx0 x = [] ->
  let y := DoDebugModeOutput late phase x in
  let z := y <| counter := int32 (counter y + 1) |> in
  queue_view z = queue_view x
  /\ pulse_view z =
     if (UsbPulse x >? 0) || (XBeePulse x >? 0)
     then (if int16 (UsbPulse x - 1) =? 0 then MODE_None else Mode x,
           int16 (UsbPulse x - 1), XBeePulse x)
     else pulse_view x.
Proof.
  intros Hx. cbv zeta.
  pose proof (DoDebugModeOutput_queue late phase x Hx) as HQ.
  pose proof (DoDebugModeOutput_pulse late phase x) as HP.
  generalize dependent (DoDebugModeOutput late phase x). intros y HQ HP.
  split; [exact HQ|exact HP].
Qed.

Lemma main_loop_body_quiet i (s : State) :
  quiet i -> rx0 s = [] -> rx1 s = [] ->
  queue_view (main_loop_body i s) = queue_view s
  /\ pulse_view (main_loop_body i s) =
     if (UsbPulse s >? 0) || (XBeePulse s >? 0)
     then (if int16 (UsbPulse s - 1) =? 0 then MODE_None else Mode s,
           int16 (UsbPulse s - 1), XBeePulse s)
     else pulse_view s.
Proof.
  intros Hq H0 H1. rewrite main_loop_body_output.
  destruct (before_output_quiet i s Hq H0 H1) as [_ HL].
  apply link_view_inv in HL. destruct HL as (HP & _ & HQ & _).
  destruct (queue_view_inv _ _ HQ) as [Q0 Q1].
  assert (Hx0 : rx0 (before_output i s) = []) by (rewrite Q0; exact H0).
  destruct (close_tick (in_late0 i) (in_phase i) (before_output i s) Hx0) as [U1 U2].
  split.
  - rewrite U1. exact HQ.
  - destruct (pulse_view_eq _ _ HP) as (HM & HU & HX).
    rewrite U2, HP, HM, HU, HX. reflexivity.
Qed.

Lemma run_quiet_queues ticks (s : State) :
  Forall quiet ticks -> rx0 s = [] -> rx1 s = [] ->
  rx0 (run ticks s) = [] /\ rx1 (run ticks s) = [].
Proof.
  intros Hq H0 H1. induction ticks as [|i ticks IH] using rev_ind.
  - split; assumption.
  - apply Forall_app in Hq. destruct Hq as [Hq Hi]. apply Forall_inv in Hi.
    destruct (IH Hq) as [I0 I1]. rewrite run_snoc.
    destruct (main_loop_body_quiet i (run ticks s) Hi I0 I1) as [HQ _].
    destruct (queue_view_inv _ _ HQ) as [Q0 Q1].
    split; [rewrite Q0; exact I0|rewrite Q1; exact I1].
Qed.

(** ** The link stays alive or idle *)

Lemma link_alive_pulse (x y : State) :
  pulse_view x = pulse_view y -> link_alive y -> link_alive x.
Proof.
  intros H. destruct (pulse_view_eq _ _ H) as (HM & HU & HX).
  unfold link_alive. rewrite HM, HU, HX. tauto.
Qed.

Lemma handle_command_alive port c (s : State) :
  port = 0 \/ port = 1 -> link_alive s -> link_alive (handle_command port c s).
Proof.
  intros Hp Ha. destruct (Z_le_gt_dec c MODE_MotorTest) as [Hc|Hc].
  - destruct (handle_command_mode c s Hc) as [E0 E1].
    destruct Hp as [-> | ->]; [rewrite E0|rewrite E1]; unfold link_alive; st_simpl; lia.
  - apply (link_alive_pulse _ s); [|exact Ha]. apply handle_command_pulse. lia.
Qed.

Lemma CheckDebugInput_alive (s : State) : link_alive s -> link_alive (CheckDebugInput s).
Proof.
  intros Ha. unfold CheckDebugInput.
  pose proof (S4_Check_console 0 s) as H0.
  destruct (S4_Check 0 s) as [c s0]. cbn [snd] in H0.
  assert (A0 : link_alive s0).
  { apply (link_alive_pulse _ s); [apply console_pulse; exact H0|exact Ha]. }
  destruct (c <? 0).
  - pose proof (S4_Check_console 1 s0) as H1.
    destruct (S4_Check 1 s0) as [c1 s1]. cbn [snd] in H1.
    assert (A1 : link_alive s1).
    { apply (link_alive_pulse _ s0); [apply console_pulse; exact H1|exact A0]. }
    destruct (c1 <? 0); [exact A1|]. apply handle_command_alive; [right; reflexivity|exact A1].
  - apply handle_command_alive; [left; reflexivity|exact A0].
Qed.

Lemma receive_pulse i (s : State) : pulse_view (receive i s) = pulse_view s.
Proof. reflexivity. Qed.

Lemma link_pulse (x y : State) : link_view x = link_view y -> pulse_view x = pulse_view y.
Proof. intros H. apply link_view_inv in H. tauto. Qed.

Lemma before_output_alive i (s : State) : link_alive s -> link_alive (before_output i s).
Proof.
  intros Ha. unfold before_output. apply CheckDebugInput_alive.
  apply (link_alive_pulse _ s); [|exact Ha].
  rewrite receive_pulse. apply link_pulse.
  rewrite update_estimates_link. apply flight_tick_link.
Qed.

Lemma DoDebugModeOutput_alive late phase (s : State) :
  link_alive s -> link_alive (DoDebugModeOutput late phase s).
Proof.
  intros [Ha Hu]. pose proof (DoDebugModeOutput_pulse late phase s) as HP.
  destruct ((UsbPulse s >? 0) || (XBeePulse s >? 0)) eqn:E.
  - apply pulse_view_inv in HP. destruct HP as (HM & HU & HX).
    unfold link_alive. rewrite HM, HU, HX.
    pose proof (int16_range (UsbPulse s - 1)) as R. split; [|lia].
    destruct (int16 (UsbPulse s - 1) =? 0) eqn:E0; [left; reflexivity|].
    apply orb_true_iff in E. destruct E as [E|E].
    + right; left. rewrite int16_small in * by lia. lia.
    + right; right. lia.
  - apply (link_alive_pulse _ s); [exact HP|]. split; assumption.
Qed.

Lemma counter_pulse (y : State) c : pulse_view (y <| counter := c |>) = pulse_view y.
Proof. reflexivity. Qed.

Lemma main_loop_body_alive i (s : State) : link_alive s -> link_alive (main_loop_body i s).
Proof.
  intros Ha. rewrite main_loop_body_output.
  eapply link_alive_pulse; [apply counter_pulse|].
  apply DoDebugModeOutput_alive, before_output_alive, Ha.
Qed.

Lemma run_alive ticks (s : State) : link_alive s -> link_alive (run ticks s).
Proof.
  intros Ha. induction ticks as [|i ticks IH] using rev_ind; [exact Ha|].
  rewrite run_snoc. apply main_loop_body_alive, IH.
Qed.

(** With the link alive or idle the uninitialised [phase] is not looked
    at. *)
Lemma DoDebugModeOutput_phase late p1 p2 (s : State) :
  link_alive s -> DoDebugModeOutput late p1 s = DoDebugModeOutput late p2 s.
Proof.
  intros [Ha _]. unfold DoDebugModeOutput.
  destruct (UsbPulse s >? 0) eqn:E1; [reflexivity|].
  destruct (XBeePulse s >? 0) eqn:E2; [reflexivity|].
  destruct Ha as [Ha|[Ha|Ha]]; [|lia|lia].
  unfold debug_output. apply Z.eqb_eq in Ha. rewrite Ha. reflexivity.
Qed.

(** ** Start-up leaves the link idle *)

Lemma InitializePrefs_console (s : State) :
  console_view (InitializePrefs s) = console_view s.
Proof.
  unfold InitializePrefs. pose proof (do_Prefs_Load_console s) as H.
  destruct (do_Prefs_Load s) as [ok s1]. rewrite ApplyPrefs_console. exact H.
Qed.

Lemma start_servos_console (s : State) : console_view (start_servos s) = console_view s.
Proof. unfold start_servos. cbv zeta. rewrite for_loop_frame; [reflexivity|]. intros i x. reflexivity. Qed.

Lemma Initialize_console feed (s : State) :
  console_view (Initialize feed s) = (MODE_None, UsbPulse s, XBeePulse s, -1).
Proof.
  unfold Initialize. cbv zeta. rewrite FindGyroZero_eq.
  generalize (gz_search feed). intros g.
  change (console_view (?x <| trace := _ |> <| GyroZX := _ |> <| GyroZY := _ |>
                           <| GyroZZ := _ |> <| imu := _ |>))
    with (console_view x).
  change (console_view (init_controllers ?x)) with (console_view x).
  rewrite start_servos_console, InitializePrefs_console. reflexivity.
Qed.

Lemma main_startup_console first feed (s : State) :
  console_view (main_startup first feed s) = (MODE_None, UsbPulse s, XBeePulse s, -1).
Proof.
  unfold main_startup. cbv zeta.
  pose proof (Initialize_console feed s) as H.
  generalize dependent (Initialize feed s). intros x H.
  rewrite for_loop_frame; [|intros i y; reflexivity].
  unfold console_view in *. injection H. intros _ HX HU _. st_simpl. norm_proj.
  rewrite HX, HU. reflexivity.
Qed.

Lemma main_startup_alive first feed e :
  link_alive (main_startup first feed (power_on e)).
Proof.
  pose proof (main_startup_console first feed (power_on e)) as H.
  generalize dependent (main_startup first feed (power_on e)). intros x H.
  unfold console_view in H. injection H. intros _ HX HU HM.
  unfold link_alive. split; [left; exact HM|]. rewrite HU. cbn. lia.
Qed.

(** ** What a command above the display modes can write

    A quantity that the receive queue of the port, the calls made, the
    preferences, the sensor calibration, the persistent store and the IMU
    settings do not enter is unchanged by such a command. *)

Lemma push_settings_eq (x : State) :
  push_settings x =
  x <| sensor_cal := sensor_cal (push_settings x) |> <| imu := imu (push_settings x) |>.
Proof. reflexivity. Qed.

Lemma ApplyPrefs_eq (x : State) :
  ApplyPrefs x =
  x <| Prefs := Prefs (ApplyPrefs x) |> <| sensor_cal := sensor_cal (ApplyPrefs x) |>
    <| imu := imu (ApplyPrefs x) |>.
Proof.
  unfold ApplyPrefs. cbv zeta.
  destruct FORCE_SBUS, PINS_V2; rewrite push_settings_eq; reflexivity.
Qed.

Section CommandFrame.

Context {A : Type} (f : State -> A) (port : Z).
Hypothesis f_rx : forall x q, f (set_rx port q x) = f x.
Hypothesis f_emit : forall x e, f (emit e x) = f x.
Hypothesis f_Prefs : forall x p, f (x <| Prefs := p |>) = f x.
Hypothesis f_cal : forall x v, f (x <| sensor_cal := v |>) = f x.
Hypothesis f_eeprom : forall x v, f (x <| eeprom := v |>) = f x.
Hypothesis f_imu : forall x v, f (x <| imu := v |>) = f x.

Lemma S4_Get_Timed_frame (x : State) : f (snd (S4_Get_Timed port x)) = f x.
Proof. unfold S4_Get_Timed. destruct (rx port x); [reflexivity|apply f_rx]. Qed.

Lemma calibration_command_frame c (x : State) : f (calibration_command c x) = f x.
Proof.
  unfold calibration_command.
  destruct (Mode x =? MODE_SensorTest); [|reflexivity].
  destruct (c =? 16); [apply f_cal|].
  destruct (c =? 17); [apply f_cal|].
  destruct (c =? 19).
  { unfold Beep2. rewrite f_emit. apply for_loop_frame. intros i y. cbv zeta.
    rewrite !f_Prefs. reflexivity. }
  destruct (c =? 20); [apply f_cal|].
  destruct (c =? 21); [apply f_cal|reflexivity].
Qed.

Lemma receive_prefs_frame (x : State) : f (snd (receive_prefs port x)) = f x.
Proof.
  unfold receive_prefs.
  apply (for_loop_frame (fun y : list Z * State => f (snd y))).
  intros i [bytes y]. pose proof (S4_Get_Timed_frame y) as H.
  destruct (S4_Get_Timed port y) as [b y']. exact H.
Qed.

Lemma ApplyPrefs_frame (x : State) : f (ApplyPrefs x) = f x.
Proof.
  rewrite ApplyPrefs_eq, f_imu, f_cal, f_Prefs. reflexivity.
Qed.

Lemma do_Prefs_Load_frame (x : State) : f (snd (do_Prefs_Load x)) = f x.
Proof. unfold do_Prefs_Load. destruct (Prefs_Load _ _). apply f_Prefs. Qed.

Lemma store_settings_frame (x : State) : f (store_settings port x) = f x.
Proof.
  unfold store_settings.
  pose proof (receive_prefs_frame x) as H.
  destruct (receive_prefs port x) as [bytes s1]. cbn [snd] in H.
  destruct (_ =? _); [|unfold Beep; rewrite f_emit; exact H].
  match goal with |- context [do_Prefs_Load ?y] =>
    pose proof (do_Prefs_Load_frame y) as H2; destruct (do_Prefs_Load y) as [ok s2] end.
  cbn [snd] in H2. unfold do_Prefs_Save in H2. rewrite f_eeprom, f_Prefs in H2.
  destruct ok.
  - rewrite ApplyPrefs_frame. unfold Beep2, BeepOff. rewrite !f_emit.
    etransitivity; [exact H2|exact H].
  - unfold Beep. rewrite f_emit. etransitivity; [exact H2|exact H].
Qed.

Lemma settings_command_frame c (x : State) : f (settings_command port c x) = f x.
Proof.
  unfold settings_command.
  destruct (c =? 24); [cbv zeta; rewrite !f_emit; apply f_Prefs|].
  destruct (c =? 25); [apply store_settings_frame|].
  destruct (c =? 26); [|reflexivity].
  pose proof (S4_Get_Timed_frame x) as H.
  destruct (S4_Get_Timed port x) as [b s1]. cbn [snd] in H.
  destruct (b =? 26); [|exact H].
  unfold Beep3, do_Prefs_Save. cbv zeta. rewrite f_emit, f_eeprom, f_Prefs. exact H.
Qed.

Lemma handle_command_frame c (x : State) :
  MODE_MotorTest < c ->
  (port =? 0) && (Z.land c 248 =? 8) = false ->
  f (handle_command port c x) = f x.
Proof.
  intros Hc Hn. unfold handle_command.
  destruct (c <=? MODE_MotorTest) eqn:E; [lia|].
  rewrite Hn. cbv zeta.
  assert (H1 : f (if Z.land c 248 =? 16 then calibration_command c x else x) = f x).
  { destruct (_ =? 16); [apply calibration_command_frame|reflexivity]. }
  set (s1 := if Z.land c 248 =? 16 then calibration_command c x else x) in *.
  assert (H2 : f (if Z.land c 248 =? 24 then settings_command port c s1 else s1) = f x).
  { destruct (_ =? 24); [rewrite settings_command_frame|]; exact H1. }
  set (s2 := if Z.land c 248 =? 24 then settings_command port c s1 else s1) in *.
  destruct (c =? 255); [|exact H2]. rewrite f_emit. exact H2.
Qed.

End CommandFrame.

End Console.

(** ** Preferences upload *)

Section PrefsUpload.

Context {hdr : Header} {pid : IntPID_ops} {imu_ops : QuatIMU_ops}
        {sens_ops : Sensors_ops} {prefs_ops : Prefs_ops}.

(** The receive loop reads the next [sizeof(Prefs)] bytes of the port, a
    timed-out read giving 0xFF, and touches nothing but the queue. *)
Lemma receive_prefs_spec port (s : State) :
  fst (receive_prefs port s) = upload_bytes (rx port s)
  /\ Prefs (snd (receive_prefs port s)) = Prefs s
  /\ trace (snd (receive_prefs port s)) = trace s
  /\ eeprom (snd (receive_prefs port s)) = eeprom s.
Proof.
  unfold receive_prefs, upload_bytes.
  set (q := rx port s).
  match goal with |- context [for_loop sizeof_Prefs ?b ([], s)] =>
    pose proof (for_loop_inv
      (fun i (x : list Z * State) =>
         fst x = map uint8 (take i q) ++ replicate (i - length q) (uint8 (-1))
         /\ rx port (snd x) = drop i q
         /\ Prefs (snd x) = Prefs s /\ trace (snd x) = trace s
         /\ eeprom (snd x) = eeprom s) sizeof_Prefs b ([], s)) as HI
  end.
  destruct HI as (I1 & _ & I2 & I3 & I4).
  - cbn [fst snd take drop map replicate Nat.sub app]. repeat split; reflexivity.
  - intros i [bytes st] _ (J1 & J2 & J3 & J4 & J5). cbn [fst snd] in *.
    unfold S4_Get_Timed. rewrite J2.
    destruct (drop i q) as [|b q'] eqn:E.
    + assert (Hlen : (length q <= i)%nat).
      { apply (f_equal length) in E. rewrite length_drop in E. cbn in E. lia. }
      cbn [fst snd]. rewrite J1.
      rewrite (take_ge q (S i)) by lia. rewrite (take_ge q i) by lia.
      replace (S i - length q)%nat with (S (i - length q)) by lia.
      cbn [replicate]. rewrite replicate_cons_app, app_assoc.
      rewrite (drop_ge q (S i)) by lia.
      repeat split; assumption.
    + assert (Hlk : q !! i = Some b).
      { rewrite <- (Nat.add_0_r i), <- lookup_drop, E. reflexivity. }
      assert (Hlen : (i < length q)%nat) by (eapply lookup_lt_Some; exact Hlk).
      assert (Eq' : q' = drop (S i) q).
      { replace (S i) with (i + 1)%nat by lia. rewrite <- drop_drop, E. reflexivity. }
      cbn [fst snd]. rewrite J1, rx_set_rx.
      rewrite (take_S_r q i b Hlk), map_app.
      replace (i - length q)%nat with 0%nat by lia.
      replace (S i - length q)%nat with 0%nat by lia.
      cbn [replicate map]. rewrite !app_nil_r.
      destruct (set_rx_kept port q' st) as (K1 & K2 & K3).
      rewrite K1, K2, K3. repeat split; assumption.
  - repeat split; assumption.
Qed.

(** The upload when the checksum of the received record is wrong. *)
Lemma store_settings_rejected port (s : State) :
  Prefs_CalculateChecksum (PREFS_of_bytes (upload_bytes (rx port s)))
  <> Checksum (PREFS_of_bytes (upload_bytes (rx port s))) ->
  Prefs (store_settings port s) = Prefs s
  /\ eeprom (store_settings port s) = eeprom s
  /\ trace (store_settings port s) = trace s ++ [E_Beep].
Proof.
  intros Hne. unfold store_settings.
  destruct (receive_prefs_spec port s) as (R1 & R2 & R3 & R4).
  destruct (receive_prefs port s) as [bytes s1]. cbn [fst snd] in *. subst bytes.
  apply Z.eqb_neq in Hne. norm_proj. rewrite Hne.
  unfold Beep, emit. st_simpl. norm_proj. rewrite R2, R3, R4. repeat split; reflexivity.
Qed.

(** The upload when the checksum matches: the record is written to the
    persistent store. *)
Lemma store_settings_accepted port (s : State) :
  Prefs_CalculateChecksum (PREFS_of_bytes (upload_bytes (rx port s)))
  = Checksum (PREFS_of_bytes (upload_bytes (rx port s))) ->
  eeprom (store_settings port s)
  = Prefs_Save (PREFS_of_bytes (upload_bytes (rx port s))) (eeprom s).
Proof.
  intros He. unfold store_settings.
  destruct (receive_prefs_spec port s) as (R1 & R2 & R3 & R4).
  destruct (receive_prefs port s) as [bytes s1]. cbn [fst snd] in *. subst bytes.
  apply Z.eqb_eq in He. norm_proj. rewrite He.
  unfold do_Prefs_Load, do_Prefs_Save. st_simpl.
  destruct (Prefs_Load _ _) as [ok p]. destruct ok.
  - unfold ApplyPrefs. destruct FORCE_SBUS, PINS_V2; st_simpl; norm_proj; rewrite R4;
      reflexivity.
  - unfold Beep, emit. st_simpl. norm_proj. rewrite R4. reflexivity.
Qed.

(** C2: command byte 0x19, followed on the same port by the bytes of a
    preference record.  If the checksum computed over the received record
    differs from the one it carries, the preferences in memory and the
    persistent copy are what they were and the only call made is the error
    beep; hence the preferences in memory change only when the checksum
    matches, in which case the record is also saved. *)
Theorem prefs_upload_checksum :
  forall (s : State) port q,
    MODE_MotorTest < 25 ->
    next_command s port 25 q ->
    let TempPrefs := PREFS_of_bytes (upload_bytes q) in
    let s' := CheckDebugInput s in
    (Prefs_CalculateChecksum TempPrefs <> Checksum TempPrefs ->
     Prefs s' = Prefs s /\ eeprom s' = eeprom s /\ trace s' = trace s ++ [E_Beep])
    /\ (Prefs s' <> Prefs s -> Prefs_CalculateChecksum TempPrefs = Checksum TempPrefs)
    /\ (Prefs_CalculateChecksum TempPrefs = Checksum TempPrefs ->
        eeprom s' = Prefs_Save TempPrefs (eeprom s)).
Proof.
  intros s port q Hm Hn TempPrefs s'. subst s'.
  rewrite (CheckDebugInput_next s port 25 q) by (lia || exact Hn).
  rewrite handle_command_store by exact Hm.
  destruct (set_rx_kept port q s) as (K1 & K2 & K3).
  pose proof (rx_set_rx port q s) as Hq.
  assert (Hrej : Prefs_CalculateChecksum TempPrefs <> Checksum TempPrefs ->
                 Prefs (store_settings port (set_rx port q s)) = Prefs s
                 /\ eeprom (store_settings port (set_rx port q s)) = eeprom s
                 /\ trace (store_settings port (set_rx port q s)) = trace s ++ [E_Beep]).
  { intros Hne. rewrite <- K1, <- K2, <- K3.
    apply store_settings_rejected. rewrite Hq. exact Hne. }
  split; [exact Hrej|]. split.
  - intros Hch.
    destruct (Z.eq_dec (Prefs_CalculateChecksum TempPrefs) (Checksum TempPrefs)) as [E|N];
      [exact E|].
    exfalso. apply Hch. apply (Hrej N).
  - intros He. pose proof (store_settings_accepted port (set_rx port q s)) as HA.
    rewrite Hq in HA. rewrite (HA He), K3. reflexivity.
Qed.

End PrefsUpload.

(** The theorem on the bench: an upload over USB whose last byte is 0
    where the checksum of the three bytes before it is 89. *)
Lemma prefs_upload_checksum_witness :
  MODE_MotorTest (Header := Bench.header) < 25
  /\ next_command (Bench.incoming [25; 2; 2; 85; 0] [] (Bench.started 2 2 8500))
                  0 25 [2; 2; 85; 0]
  /\ Prefs_CalculateChecksum (Prefs_ops := Bench.prefs_store)
       (PREFS_of_bytes (Prefs_ops := Bench.prefs_store)
          (upload_bytes (prefs_ops := Bench.prefs_store) [2; 2; 85; 0]))
     <> Checksum (PREFS_of_bytes (Prefs_ops := Bench.prefs_store)
                    (upload_bytes (prefs_ops := Bench.prefs_store) [2; 2; 85; 0]))
  /\ Prefs (CheckDebugInput (hdr := Bench.header)
              (Bench.incoming [25; 2; 2; 85; 0] [] (Bench.started 2 2 8500)))
     = Prefs (Bench.incoming [25; 2; 2; 85; 0] [] (Bench.started 2 2 8500))
  /\ eeprom (CheckDebugInput (hdr := Bench.header)
               (Bench.incoming [25; 2; 2; 85; 0] [] (Bench.started 2 2 8500)))
     = eeprom (Bench.incoming [25; 2; 2; 85; 0] [] (Bench.started 2 2 8500))
  /\ trace (CheckDebugInput (hdr := Bench.header)
              (Bench.incoming [25; 2; 2; 85; 0] [] (Bench.started 2 2 8500)))
     = trace (Bench.incoming [25; 2; 2; 85; 0] [] (Bench.started 2 2 8500)) ++ [E_Beep].
Proof.
  assert (H1 : MODE_MotorTest (Header := Bench.header) < 25) by (vm_compute; reflexivity).
  assert (H2 : next_command (Bench.incoming [25; 2; 2; 85; 0] [] (Bench.started 2 2 8500))
                            0 25 [2; 2; 85; 0])
    by (left; split; vm_compute; reflexivity).
  assert (H3 : Prefs_CalculateChecksum (Prefs_ops := Bench.prefs_store)
                 (PREFS_of_bytes (Prefs_ops := Bench.prefs_store)
                    (upload_bytes (prefs_ops := Bench.prefs_store) [2; 2; 85; 0]))
               <> Checksum (PREFS_of_bytes (Prefs_ops := Bench.prefs_store)
                              (upload_bytes (prefs_ops := Bench.prefs_store) [2; 2; 85; 0])))
    by (vm_compute; discriminate).
  split; [exact H1|]. split; [exact H2|]. split; [exact H3|].
  exact (proj1 (prefs_upload_checksum (hdr := Bench.header)
                  (Bench.incoming [25; 2; 2; 85; 0] [] (Bench.started 2 2 8500))
                  0 [2; 2; 85; 0] H1 H2) H3).
Defined.

(** A well-formed upload is taken over: the arm delay becomes 7. *)
Example upload_accepted :
  ArmDelay (Prefs (Bench.step (Bench.tick 0 0 0 0 0 [25; 7; 2; 85; 94] [])
                              (Bench.started 2 2 8500))) = 7
  /\ ArmDelay (Prefs (Bench.step (Bench.tick 0 0 0 0 0 [25; 7; 2; 85; 0] [])
                                 (Bench.started 2 2 8500))) = 2.
Proof. vm_compute. split; reflexivity. Qed.

(** ** Calibration commands *)

Section CalibrationCommands.

Context {hdr : Header} {pid : IntPID_ops} {imu_ops : QuatIMU_ops}
        {sens_ops : Sensors_ops} {prefs_ops : Prefs_ops}.

Lemma calibration_command_rx port c (s : State) :
  rx port (calibration_command c s) = rx port s.
Proof.
  unfold calibration_command.
  destruct (Mode s =? MODE_SensorTest); [|reflexivity].
  destruct (c =? 16); [reflexivity|].
  destruct (c =? 17); [reflexivity|].
  destruct (c =? 19).
  { unfold Beep2. change (rx port (emit E_Beep2 ?x)) with (rx port x).
    apply (for_loop_frame (rx port)). intros i x. reflexivity. }
  destruct (c =? 20); [reflexivity|].
  destruct (c =? 21); reflexivity.
Qed.

Lemma insert_prefix {A : Type} (v : A) (l : list A) (i : nat) :
  (i < length l)%nat ->
  <[i := v]> (replicate i v ++ drop i l) = replicate (S i) v ++ drop (S i) l.
Proof.
  intros Hi.
  rewrite insert_app_r_alt by (rewrite length_replicate; lia).
  rewrite length_replicate, Nat.sub_diag.
  destruct (drop i l) as [|y t] eqn:E.
  - apply (f_equal length) in E. rewrite length_drop in E. cbn in E. lia.
  - assert (Et : t = drop (S i) l).
    { replace (S i) with (i + 1)%nat by lia. rewrite <- drop_drop, E. reflexivity. }
    cbn [insert list_insert]. rewrite <- Et.
    change (replicate (S i) v) with (v :: replicate i v).
    rewrite replicate_cons_app. rewrite <- app_assoc. reflexivity.
Qed.

(** The reset loop of command 0x13 on full-size channel tables. *)
Lemma reset_channels (s : State) :
  length (ChannelScale (Prefs s)) = 8%nat ->
  length (ChannelCenter (Prefs s)) = 8%nat ->
  let s' := for_loop 8 (fun i s =>
              let s := s <| Prefs := (Prefs s) <| ChannelScale := <[i := 1024]> (ChannelScale (Prefs s)) |> |> in
              s <| Prefs := (Prefs s) <| ChannelCenter := <[i := 0]> (ChannelCenter (Prefs s)) |> |>) s in
  ChannelScale (Prefs s') = replicate 8 1024
  /\ ChannelCenter (Prefs s') = replicate 8 0
  /\ sensor_cal s' = sensor_cal s.
Proof.
  intros H1 H2. cbv zeta.
  match goal with |- context [for_loop 8 ?b s] =>
    pose proof (for_loop_inv
      (fun i x => ChannelScale (Prefs x) = replicate i 1024 ++ drop i (ChannelScale (Prefs s))
                  /\ ChannelCenter (Prefs x) = replicate i 0 ++ drop i (ChannelCenter (Prefs s))
                  /\ sensor_cal x = sensor_cal s) 8 b s) as HI
  end.
  destruct HI as (I1 & I2 & I3).
  - split; [|split]; reflexivity.
  - intros i x Hi (J1 & J2 & J3). cbv zeta. st_simpl. norm_proj.
    rewrite J1, J2. rewrite !insert_prefix by lia. repeat split. exact J3.
  - rewrite I1, I2, I3.
    rewrite (drop_ge (ChannelScale (Prefs s))) by lia.
    rewrite (drop_ge (ChannelCenter (Prefs s))) by lia.
    rewrite !app_nil_r. repeat split.
Qed.

(** C10: a command byte in 0x10..0x15 is taken from its port, and it acts
    only in MODE_SensorTest.  In any other display mode the state after
    CheckDebugInput is the state before it with the byte removed from the
    queue: in particular the calibration held by the sensor driver and the
    ChannelScale and ChannelCenter tables are unchanged.  In MODE_SensorTest
    the byte runs its action: 0x10 and 0x11 zero and restore the gyro drift,
    0x13 sets the eight channel scales to 1024 and centres to 0, 0x14 and
    0x15 zero and restore the accelerometer offsets. *)
Theorem calibration_commands_gated :
  forall (s : State) port c q,
    MODE_MotorTest < 16 ->
    16 <= c <= 21 ->
    next_command s port c q ->
    let s' := CheckDebugInput s in
    rx port s' = q
    /\ (Mode s <> MODE_SensorTest ->
        s' = set_rx port q s
        /\ sensor_cal s' = sensor_cal s
        /\ ChannelScale (Prefs s') = ChannelScale (Prefs s)
        /\ ChannelCenter (Prefs s') = ChannelCenter (Prefs s))
    /\ (Mode s = MODE_SensorTest ->
        (c = 16 -> sensor_cal s' = Sensors_TempZeroDriftValues (sensor_cal s))
        /\ (c = 17 -> sensor_cal s' = Sensors_ResetDriftValues (sensor_cal s))
        /\ (c = 19 ->
            length (ChannelScale (Prefs s)) = 8%nat ->
            length (ChannelCenter (Prefs s)) = 8%nat ->
            ChannelScale (Prefs s') = replicate 8 1024
            /\ ChannelCenter (Prefs s') = replicate 8 0
            /\ sensor_cal s' = sensor_cal s)
        /\ (c = 20 -> sensor_cal s' = Sensors_TempZeroAccelOffsetValues (sensor_cal s))
        /\ (c = 21 -> sensor_cal s' = Sensors_ResetAccelOffsetValues (sensor_cal s))).
Proof.
  intros s port c q Hm Hc Hn s'. subst s'.
  rewrite (CheckDebugInput_next s port c q) by (lia || exact Hn).
  rewrite handle_command_calibration by lia.
  assert (HS : sensor_cal (set_rx port q s) = sensor_cal s
               /\ Prefs (set_rx port q s) = Prefs s /\ Mode (set_rx port q s) = Mode s).
  { unfold set_rx. destruct (port =? 0); repeat split; reflexivity. }
  destruct HS as (HS1 & HS2 & HS3).
  split; [rewrite calibration_command_rx; apply rx_set_rx|].
  remember (set_rx port q s) as s0 eqn:E0. unfold calibration_command. rewrite HS3.
  split.
  - intros Hmode. apply Z.eqb_neq in Hmode. rewrite Hmode.
    rewrite HS1, HS2. repeat split; reflexivity.
  - intros Hmode. apply Z.eqb_eq in Hmode. rewrite Hmode.
    split; [|split; [|split; [|split]]]; intros ->; cbn [Z.eqb Pos.eqb].
    + rewrite <- HS1. reflexivity.
    + rewrite <- HS1. reflexivity.
    + intros H1 H2. rewrite <- HS2 in H1, H2.
      destruct (reset_channels s0 H1 H2) as (R1 & R2 & R3).
      unfold Beep2, emit. st_simpl. rewrite <- HS1.
      repeat split; assumption.
    + rewrite <- HS1. reflexivity.
    + rewrite <- HS1. reflexivity.
Qed.

End CalibrationCommands.

(** The theorem on the bench: byte 0x10 arrives over USB while the display
    mode is MODE_None. *)
Lemma calibration_commands_gated_witness :
  MODE_MotorTest (Header := Bench.header) < 16
  /\ 16 <= 16 <= 21
  /\ next_command (Bench.incoming [16] [] (Bench.started 2 2 8500)) 0 16 []
  /\ Mode (Bench.incoming [16] [] (Bench.started 2 2 8500))
     <> MODE_SensorTest (Header := Bench.header)
  /\ CheckDebugInput (hdr := Bench.header) (Bench.incoming [16] [] (Bench.started 2 2 8500))
     = set_rx 0 [] (Bench.incoming [16] [] (Bench.started 2 2 8500)).
Proof.
  assert (H1 : MODE_MotorTest (Header := Bench.header) < 16) by (vm_compute; reflexivity).
  assert (H2 : 16 <= 16 <= 21) by lia.
  assert (H3 : next_command (Bench.incoming [16] [] (Bench.started 2 2 8500)) 0 16 [])
    by (left; split; vm_compute; reflexivity).
  assert (H4 : Mode (Bench.incoming [16] [] (Bench.started 2 2 8500))
               <> MODE_SensorTest (Header := Bench.header)) by (vm_compute; discriminate).
  split; [exact H1|]. split; [exact H2|]. split; [exact H3|]. split; [exact H4|].
  exact (proj1 (proj1 (proj2 (calibration_commands_gated (hdr := Bench.header)
           (Bench.incoming [16] [] (Bench.started 2 2 8500)) 0 16 [] H1 H2 H3)) H4)).
Defined.

(** In MODE_SensorTest the same byte zeroes the gyro drift in use; in
    MODE_None it does not. *)
Example drift_zeroed_in_sensor_test :
  let idle := Bench.started 2 2 8500 in
  let testing := Bench.step (Bench.tick 0 0 0 0 0 [2] []) idle in
  Bench.drift (sensor_cal idle) = [1; 2; 3]
  /\ Bench.drift (sensor_cal (Bench.step (Bench.tick 0 0 0 0 0 [16] []) idle)) = [1; 2; 3]
  /\ Mode testing = 2
  /\ Bench.drift (sensor_cal (Bench.step (Bench.tick 0 0 0 0 0 [16] []) testing)) = [0; 0; 0].
Proof. vm_compute. repeat split; reflexivity. Qed.

(** ** The heartbeat countdowns of the telemetry *)

Lemma int16_sub_1 a : int16 (int16 a - 1) = int16 (a - 1).
Proof.
  unfold int16, wrap. change (2 ^ (16 - 1)) with 32768. change (2 ^ 16) with 65536.
  replace ((a + 32768) mod 65536 - 32768 - 1 + 32768) with ((a + 32768) mod 65536 - 1) by lia.
  replace (a - 1 + 32768) with ((a + 32768) - 1) by lia.
  rewrite Zminus_mod_idemp_l. reflexivity.
Qed.

Lemma int16_neg_zero k : 0 < k < 65536 -> int16 (- k) <> 0.
Proof.
  intros Hk. unfold int16, wrap. change (2 ^ (16 - 1)) with 32768. change (2 ^ 16) with 65536.
  intros E.
  destruct (Z_le_gt_dec k 32768).
  - rewrite Z.mod_small in E by lia. lia.
  - replace (- k + 32768) with ((- k + 32768 + 65536) + (-1) * 65536) in E by lia.
    rewrite Z.mod_add in E by lia. rewrite Z.mod_small in E by lia. lia.
Qed.

Section Pulse.

Context {hdr : Header} {pid : IntPID_ops} {imu_ops : QuatIMU_ops}
        {sens_ops : Sensors_ops} {prefs_ops : Prefs_ops}.

(** One quiet tick while a countdown is running. *)
Lemma quiet_step_running i (x : State) :
  quiet i -> rx0 x = [] -> rx1 x = [] ->
  0 < UsbPulse x \/ 0 < XBeePulse x ->
  Mode (main_loop_body i x) = (if int16 (UsbPulse x - 1) =? 0 then MODE_None else Mode x)
  /\ UsbPulse (main_loop_body i x) = int16 (UsbPulse x - 1)
  /\ XBeePulse (main_loop_body i x) = XBeePulse x.
Proof.
  intros Hq H0 H1 HU.
  destruct (main_loop_body_quiet i x Hq H0 H1) as [_ HP].
  assert (E : (UsbPulse x >? 0) || (XBeePulse x >? 0) = true).
  { apply orb_true_iff. destruct HU; [left|right]; apply Z.gtb_lt; assumption. }
  rewrite E in HP. apply pulse_view_inv in HP. exact HP.
Qed.

Lemma usb_countdown ticks (s : State) :
  Forall quiet ticks -> rx0 s = [] -> rx1 s = [] ->
  0 < UsbPulse s <= 32767 ->
  Z.of_nat (length ticks) < UsbPulse s ->
  Mode (run ticks s) = Mode s
  /\ UsbPulse (run ticks s) = UsbPulse s - Z.of_nat (length ticks)
  /\ XBeePulse (run ticks s) = XBeePulse s.
Proof.
  intros Hq H0 H1 HU. induction ticks as [|i ticks IH] using rev_ind; intros Hk.
  - cbn [length Z.of_nat]. unfold run. cbn [fold_left]. repeat split. slia.
  - rewrite length_app in Hk. cbn [length] in Hk.
    apply Forall_app in Hq. destruct Hq as [Hq Hi]. apply Forall_inv in Hi.
    destruct (IH Hq) as (IM & IU & IX); [slia|].
    destruct (run_quiet_queues ticks s Hq H0 H1) as [Q0 Q1].
    rewrite run_snoc.
    destruct (quiet_step_running i (run ticks s) Hi Q0 Q1) as (SM & SU & SX);
      [left; rewrite IU; slia|].
    rewrite SM, SU, SX, IU, IX, IM. rewrite length_app. cbn [length].
    rewrite int16_small by slia.
    match goal with |- context [if ?c then _ else _] => destruct c eqn:E end; [slia|].
    repeat split. slia.
Qed.

Lemma usb_expiry ticks (s : State) :
  Forall quiet ticks -> rx0 s = [] -> rx1 s = [] ->
  0 < UsbPulse s <= 32767 ->
  Z.of_nat (length ticks) = UsbPulse s ->
  Mode (run ticks s) = MODE_None
  /\ UsbPulse (run ticks s) = 0
  /\ XBeePulse (run ticks s) = XBeePulse s.
Proof.
  intros Hq H0 H1 HU Hk. destruct ticks as [|i ticks _] using rev_ind.
  { cbn [length Z.of_nat] in Hk. slia. }
  rewrite length_app in Hk. cbn [length] in Hk.
  apply Forall_app in Hq. destruct Hq as [Hq Hi]. apply Forall_inv in Hi.
  destruct (usb_countdown ticks s Hq H0 H1 HU) as (IM & IU & IX); [slia|].
  destruct (run_quiet_queues ticks s Hq H0 H1) as [Q0 Q1].
  rewrite run_snoc.
  destruct (quiet_step_running i (run ticks s) Hi Q0 Q1) as (SM & SU & SX);
    [left; rewrite IU; slia|].
  rewrite SM, SU, SX, IU, IX.
  replace (UsbPulse s - Z.of_nat (length ticks) - 1) with 0 by slia.
  repeat split.
Qed.

(** X3: the USB heartbeat.  With [UsbPulse] at [n] and no byte arriving,
    the display mode and the XBee countdown stand for the next [n - 1]
    ticks while [UsbPulse] counts down by one per tick; on the [n]-th tick
    [UsbPulse] reaches 0 and the display mode is reset to MODE_None. *)
Theorem usb_heartbeat_timeout :
  forall (ticks : list TickIn) (s : State),
    Forall quiet ticks -> rx0 s = [] -> rx1 s = [] ->
    0 < UsbPulse s <= 32767 ->
    (Z.of_nat (length ticks) < UsbPulse s ->
     Mode (run ticks s) = Mode s
     /\ UsbPulse (run ticks s) = UsbPulse s - Z.of_nat (length ticks)
     /\ XBeePulse (run ticks s) = XBeePulse s)
    /\ (Z.of_nat (length ticks) = UsbPulse s ->
        Mode (run ticks s) = MODE_None
        /\ UsbPulse (run ticks s) = 0
        /\ XBeePulse (run ticks s) = XBeePulse s).
Proof.
  intros ticks s Hq H0 H1 HU.
  split; [apply usb_countdown|apply usb_expiry]; assumption.
Qed.

Lemma xbee_countdown ticks (s : State) :
  Forall quiet ticks -> rx0 s = [] -> rx1 s = [] ->
  -32768 <= UsbPulse s <= 0 -> 0 < XBeePulse s ->
  XBeePulse (run ticks s) = XBeePulse s
  /\ UsbPulse (run ticks s) = int16 (UsbPulse s - Z.of_nat (length ticks))
  /\ (Z.of_nat (length ticks) < 65536 + UsbPulse s -> Mode (run ticks s) = Mode s).
Proof.
  intros Hq H0 H1 HU HX. induction ticks as [|i ticks IH] using rev_ind.
  - unfold run. cbn [fold_left length Z.of_nat]. rewrite Z.sub_0_r, int16_small by slia.
    repeat split.
  - apply Forall_app in Hq. destruct Hq as [Hq Hi]. apply Forall_inv in Hi.
    destruct (IH Hq) as (IX & IU & IM).
    destruct (run_quiet_queues ticks s Hq H0 H1) as [Q0 Q1].
    rewrite run_snoc.
    destruct (quiet_step_running i (run ticks s) Hi Q0 Q1) as (SM & SU & SX);
      [right; rewrite IX; exact HX|].
    rewrite SM, SU, SX, IU, IX. rewrite int16_sub_1.
    rewrite length_app. cbn [length].
    replace (UsbPulse s - Z.of_nat (length ticks) - 1)
      with (- (Z.of_nat (length ticks + 1) - UsbPulse s)) by slia.
    replace (UsbPulse s - Z.of_nat (length ticks + 1))
      with (- (Z.of_nat (length ticks + 1) - UsbPulse s)) by slia.
    split; [reflexivity|]. split; [reflexivity|].
    intros Hk. match goal with |- context [if ?c then _ else _] => destruct c eqn:E end.
    + apply Z.eqb_eq in E. exfalso. revert E. apply int16_neg_zero. slia.
    + apply IM. slia.
Qed.

Lemma xbee_expiry ticks (s : State) :
  Forall quiet ticks -> rx0 s = [] -> rx1 s = [] ->
  -32768 <= UsbPulse s <= 0 -> 0 < XBeePulse s ->
  Z.of_nat (length ticks) = 65536 + UsbPulse s ->
  Mode (run ticks s) = MODE_None.
Proof.
  intros Hq H0 H1 HU HX Hk. destruct ticks as [|i ticks _] using rev_ind.
  { cbn [length Z.of_nat] in Hk. slia. }
  rewrite length_app in Hk. cbn [length] in Hk.
  apply Forall_app in Hq. destruct Hq as [Hq Hi]. apply Forall_inv in Hi.
  destruct (xbee_countdown ticks s Hq H0 H1 HU HX) as (IX & IU & _).
  destruct (run_quiet_queues ticks s Hq H0 H1) as [Q0 Q1].
  rewrite run_snoc.
  destruct (quiet_step_running i (run ticks s) Hi Q0 Q1) as (SM & _ & _);
    [right; rewrite IX; exact HX|].
  rewrite SM, IU, int16_sub_1.
  replace (UsbPulse s - Z.of_nat (length ticks) - 1) with (-65536) by slia.
  reflexivity.
Qed.

(** X4: the XBee heartbeat.  With the link on the XBee port ([UsbPulse]
    not positive, [XBeePulse] positive) and no byte arriving, [XBeePulse]
    is never decremented: the countdown that runs is [UsbPulse], down
    through the negative 16-bit values and around.  The display mode
    stands until [UsbPulse] has come round to 0, which takes
    [65536 + UsbPulse] ticks, and is reset to MODE_None on that tick. *)
Theorem xbee_heartbeat_countdown :
  forall (ticks : list TickIn) (s : State),
    Forall quiet ticks -> rx0 s = [] -> rx1 s = [] ->
    -32768 <= UsbPulse s <= 0 -> 0 < XBeePulse s ->
    XBeePulse (run ticks s) = XBeePulse s
    /\ UsbPulse (run ticks s) = int16 (UsbPulse s - Z.of_nat (length ticks))
    /\ (Z.of_nat (length ticks) < 65536 + UsbPulse s -> Mode (run ticks s) = Mode s)
    /\ (Z.of_nat (length ticks) = 65536 + UsbPulse s -> Mode (run ticks s) = MODE_None).
Proof.
  intros ticks s Hq H0 H1 HU HX.
  destruct (xbee_countdown ticks s Hq H0 H1 HU HX) as (MX & MU & MM).
  split; [exact MX|]. split; [exact MU|]. split; [exact MM|].
  apply xbee_expiry; assumption.
Qed.

(** *** From the byte that selects a display mode *)







End Pulse.

(** The USB theorem on the bench: display mode 2 is selected over USB,
    which leaves [UsbPulse] at 499; 499 quiet ticks later the mode is
    MODE_None again. *)
Lemma usb_heartbeat_timeout_witness :
  Forall quiet (replicate 499 Bench.centred)
  /\ 0 < UsbPulse (Bench.linked [2] []) <= 32767
  /\ Z.of_nat (length (replicate 499 Bench.centred)) = UsbPulse (Bench.linked [2] [])
  /\ Mode (run (hdr := Bench.header) (replicate 499 Bench.centred) (Bench.linked [2] []))
     = MODE_None (Header := Bench.header)
  /\ UsbPulse (run (hdr := Bench.header) (replicate 499 Bench.centred) (Bench.linked [2] []))
     = 0.
Proof.
  set (s := Bench.linked [2] []). set (ticks := replicate 499 Bench.centred).
  assert (H1 : Forall quiet ticks) by (apply Forall_replicate; split; reflexivity).
  assert (H2 : rx0 s = []) by (vm_compute; reflexivity).
  assert (H3 : rx1 s = []) by (vm_compute; reflexivity).
  assert (H4 : 0 < UsbPulse s <= 32767) by (vm_compute; split; [reflexivity|discriminate]).
  assert (H5 : Z.of_nat (length ticks) = UsbPulse s) by (vm_compute; reflexivity).
  split; [exact H1|]. split; [exact H4|]. split; [exact H5|].
  destruct (proj2 (usb_heartbeat_timeout (hdr := Bench.header) ticks s H1 H2 H3 H4) H5)
    as (A & B & _).
  split; [exact A|exact B].
Defined.

(** The XBee theorem on the bench: display mode 2 is selected over XBee,
    which leaves [UsbPulse] at -1 and [XBeePulse] at 500; 1000 quiet ticks
    later the mode and [XBeePulse] are what they were. *)
Lemma xbee_heartbeat_countdown_witness :
  Forall quiet (replicate 1000 Bench.centred)
  /\ -32768 <= UsbPulse (Bench.linked [] [2]) <= 0
  /\ 0 < XBeePulse (Bench.linked [] [2])
  /\ Z.of_nat (length (replicate 1000 Bench.centred)) < 65536 + UsbPulse (Bench.linked [] [2])
  /\ XBeePulse (run (hdr := Bench.header) (replicate 1000 Bench.centred) (Bench.linked [] [2]))
     = 500
  /\ Mode (run (hdr := Bench.header) (replicate 1000 Bench.centred) (Bench.linked [] [2])) = 2.
Proof.
  set (s := Bench.linked [] [2]). set (ticks := replicate 1000 Bench.centred).
  assert (H1 : Forall quiet ticks) by (apply Forall_replicate; split; reflexivity).
  assert (H2 : rx0 s = []) by (vm_compute; reflexivity).
  assert (H3 : rx1 s = []) by (vm_compute; reflexivity).
  assert (H4 : -32768 <= UsbPulse s <= 0) by (vm_compute; split; discriminate).
  assert (H5 : 0 < XBeePulse s) by (vm_compute; reflexivity).
  assert (H6 : Z.of_nat (length ticks) < 65536 + UsbPulse s) by (vm_compute; reflexivity).
  split; [exact H1|]. split; [exact H4|]. split; [exact H5|]. split; [exact H6|].
  destruct (xbee_heartbeat_countdown (hdr := Bench.header) ticks s H1 H2 H3 H4 H5)
    as (A & _ & B & _).
  split; [rewrite A; vm_compute; reflexivity|rewrite (B H6); vm_compute; reflexivity].
Defined.


(** C8: the XBee countdown is not counted down.  Display mode 2 is
    selected over the XBee port, which sets XBeePulse to 500 and UsbPulse to
    0 and leaves them at 500 and -1 when the tick ends; 500 further ticks
    pass with no byte on either port.  XBeePulse is still 500 and the
    display mode is still 2: the countdown that has run is UsbPulse, now at
    -501.  Selected over USB, the same mode is reset to MODE_None on the
    499th further tick, with UsbPulse at 0. *)
Theorem xbee_pulse_not_counted_down :
  XBeePulse (Bench.linked [] [2]) = 500
  /\ UsbPulse (Bench.linked [] [2]) = -1
  /\ Mode (Bench.linked [] [2]) = 2
  /\ XBeePulse (Bench.steps (replicate 500 Bench.centred) (Bench.linked [] [2])) = 500
  /\ UsbPulse (Bench.steps (replicate 500 Bench.centred) (Bench.linked [] [2])) = -501
  /\ Mode (Bench.steps (replicate 500 Bench.centred) (Bench.linked [] [2])) = 2
  /\ UsbPulse (Bench.linked [2] []) = 499
  /\ Mode (Bench.steps (replicate 498 Bench.centred) (Bench.linked [2] [])) = 2
  /\ UsbPulse (Bench.steps (replicate 499 Bench.centred) (Bench.linked [2] [])) = 0
  /\ Mode (Bench.steps (replicate 499 Bench.centred) (Bench.linked [2] [])) = 0.
Proof. vm_compute. repeat split; reflexivity. Qed.

(** The same on the bench by running the loop: 600 ticks after the mode
    byte the USB link has gone idle, the XBee link has not. *)
Example heartbeat_after_600_ticks :
  Mode (Bench.steps (replicate 600 Bench.centred)
          (Bench.step (Bench.tick 0 0 0 0 0 [2] []) (Bench.started 2 2 8500))) = 0
  /\ Mode (Bench.steps (replicate 600 Bench.centred)
             (Bench.step (Bench.tick 0 0 0 0 0 [] [2]) (Bench.started 2 2 8500))) = 2.
Proof. vm_compute. split; reflexivity. Qed.

(** ** The uninitialised phase of DoDebugModeOutput *)

Section Phase.

Context {hdr : Header} {pid : IntPID_ops} {imu_ops : QuatIMU_ops}
        {sens_ops : Sensors_ops} {prefs_ops : Prefs_ops}.

Lemma before_output_with_phase p i (s : State) :
  before_output (with_phase p i) s = before_output i s.
Proof. reflexivity. Qed.

(** X6: [phase] is a local of DoDebugModeOutput that is assigned only
    when one of the two countdowns is positive and read whenever the
    display mode is MODE_SensorTest.  In every run from start-up the value
    it happens to hold is without effect: a tick gives the same state
    whatever that value is. *)
Theorem phase_never_read_unset :
  forall first feed e (ticks : list TickIn) (i : TickIn) (p : Z),
    main_loop_body (with_phase p i) (run ticks (main_startup first feed (power_on e)))
    = main_loop_body i (run ticks (main_startup first feed (power_on e))).
Proof.
  intros first feed e ticks i p.
  pose proof (run_alive ticks _ (main_startup_alive first feed e)) as Ha.
  generalize dependent (run ticks (main_startup first feed (power_on e))). intros s Ha.
  rewrite !main_loop_body_output, before_output_with_phase.
  change (in_late0 (with_phase p i)) with (in_late0 i).
  change (in_phase (with_phase p i)) with p.
  rewrite (DoDebugModeOutput_phase (in_late0 i) p (in_phase i)); [reflexivity|].
  apply before_output_alive, Ha.
Qed.

End Phase.

(** ** Ground-station commands *)

Section Commands.

Context {hdr : Header} {pid : IntPID_ops} {imu_ops : QuatIMU_ops}
        {sens_ops : Sensors_ops} {prefs_ops : Prefs_ops}.

(** Byte 0x1a reaches the wipe. *)
Lemma handle_command_wipe port (s : State) :
  MODE_MotorTest < 26 ->
  handle_command port 26 s =
  let '(b, s) := S4_Get_Timed port s in
  if b =? 26 then Beep3 (do_Prefs_Save (s <| Prefs := Prefs_SetDefaults (Prefs s) |>))
  else s.
Proof.
  intros Hm. unfold handle_command.
  destruct (26 <=? MODE_MotorTest) eqn:E; [lia|].
  change (Z.land 26 248) with 24. cbn [Z.eqb Pos.eqb andb].
  rewrite andb_false_r. unfold settings_command.
  cbn [Z.eqb Pos.eqb]. destruct (S4_Get_Timed port s) as [b s1].
  destruct (b =? 26); reflexivity.
Qed.

Lemma set_rx_twice port q q' (s : State) :
  Prefs (set_rx port q' (set_rx port q s)) = Prefs s
  /\ eeprom (set_rx port q' (set_rx port q s)) = eeprom s
  /\ trace (set_rx port q' (set_rx port q s)) = trace s.
Proof. unfold set_rx. destruct (port =? 0); repeat split; reflexivity. Qed.

(** X7: command byte 0x1a wipes the preferences only when the byte that
    follows it on the same port is 0x1a again.  Then the preferences are
    the defaults, the defaults are saved and Beep3 sounds; otherwise (no
    byte within the wait, or another byte, which is consumed) the
    preferences, the persistent copy and the calls made are what they
    were. *)
Theorem settings_wipe_needs_confirmation :
  forall (s : State) port q,
    MODE_MotorTest < 26 ->
    next_command s port 26 q ->
    let s' := CheckDebugInput s in
    (forall q', q = 26 :: q' ->
       Prefs s' = Prefs_SetDefaults (Prefs s)
       /\ eeprom s' = Prefs_Save (Prefs_SetDefaults (Prefs s)) (eeprom s)
       /\ trace s' = trace s ++ [E_Beep3]
       /\ rx port s' = q')
    /\ (hd (-1) q <> 26 ->
        Prefs s' = Prefs s /\ eeprom s' = eeprom s /\ trace s' = trace s
        /\ rx port s' = tl q).
Proof.
  intros s port q Hm Hn s'. subst s'.
  rewrite (CheckDebugInput_next s port 26 q) by (lia || exact Hn).
  rewrite handle_command_wipe by exact Hm.
  unfold S4_Get_Timed. rewrite rx_set_rx.
  destruct (set_rx_kept port q s) as (K1 & K2 & K3).
  split.
  - intros q' ->. cbn [Z.eqb Pos.eqb].
    destruct (set_rx_twice port (26 :: q') q' s) as (T1 & T2 & T3).
    pose proof (rx_set_rx port q' (set_rx port (26 :: q') s)) as TR.
    generalize dependent (set_rx port q' (set_rx port (26 :: q') s)).
    intros y T1 T2 T3 TR.
    unfold Beep3, do_Prefs_Save, emit. st_simpl. norm_proj.
    rewrite T1, T2, T3.
    split; [reflexivity|]. split; [reflexivity|]. split; [reflexivity|].
    unfold rx in *. destruct (port =? 0); exact TR.
  - intros Hh. destruct q as [|b q'].
    + cbn [tl Z.eqb]. rewrite K1, K2, K3, rx_set_rx. repeat split.
    + cbn [hd] in Hh. apply Z.eqb_neq in Hh. cbv beta iota zeta. rewrite Hh. cbn [tl].
      destruct (set_rx_twice port (b :: q') q' s) as (T1 & T2 & T3).
      rewrite T1, T2, T3, rx_set_rx. repeat split.
Qed.

Lemma land7 c : 8 <= c <= 15 -> Z.land c 248 = 8 /\ Z.land c 7 = c - 8.
Proof.
  intros Hc.
  assert (H : c = 8 \/ c = 9 \/ c = 10 \/ c = 11 \/ c = 12 \/ c = 13 \/ c = 14 \/ c = 15)
    by lia.
  destruct H as [->|[->|[->|[->|[->|[->|[->| ->]]]]]]]; split; reflexivity.
Qed.

(** X8: the motor nudge is accepted over USB only.  Whatever arrives on
    the XBee port while the USB port has nothing waiting, NudgeMotor is
    what it was; a byte 0x08..0x0F taken from the USB port sets NudgeMotor
    to its low three bits and changes nothing else but the queue. *)
Theorem nudge_only_over_usb :
  forall (s : State),
    (rx0 s = [] -> NudgeMotor (CheckDebugInput s) = NudgeMotor s)
    /\ (forall c q, MODE_MotorTest < 8 -> 8 <= c <= 15 -> rx0 s = c :: q ->
        CheckDebugInput s = s <| rx0 := q |> <| NudgeMotor := c - 8 |>).
Proof.
  intros s. split.
  - intros H0. unfold CheckDebugInput, S4_Check. unfold rx at 1. cbn [Z.eqb].
    norm_proj. rewrite H0. cbn [Z.ltb Z.compare]. unfold rx. cbn [Z.eqb].
    destruct (rx1 s) as [|b q] eqn:E1; [reflexivity|].
    destruct (b <? 0); [reflexivity|].
    assert (HN : NudgeMotor (set_rx 1 q s) = NudgeMotor s) by reflexivity.
    destruct (Z_le_gt_dec b MODE_MotorTest) as [Hc|Hc].
    + destruct (handle_command_mode b (set_rx 1 q s) Hc) as [_ E]. rewrite E. reflexivity.
    + etransitivity; [|exact HN].
      apply console_nudge, handle_command_console; [lia|reflexivity].
  - intros c q Hm Hc H0.
    rewrite (CheckDebugInput_next s 0 c q) by (lia || (left; split; [reflexivity|exact H0])).
    destruct (land7 c Hc) as [L1 L2].
    unfold handle_command. destruct (c <=? MODE_MotorTest) eqn:E; [lia|].
    rewrite L1, L2. reflexivity.
Qed.

(** X9: the USB port has priority.  When a byte is waiting on the USB
    port, CheckDebugInput leaves the XBee queue as it is, whatever the
    command. *)
Theorem usb_port_priority :
  forall (s : State) c q,
    0 <= c -> rx0 s = c :: q -> rx1 (CheckDebugInput s) = rx1 s.
Proof.
  intros s c q Hc H0.
  rewrite (CheckDebugInput_next s 0 c q) by (lia || (left; split; [reflexivity|exact H0])).
  destruct (Z_le_gt_dec c MODE_MotorTest) as [Hm|Hm].
  - destruct (handle_command_mode c (set_rx 0 q s) Hm) as [E _]. rewrite E. reflexivity.
  - destruct ((0 =? 0) && (Z.land c 248 =? 8)) eqn:Hn.
    + unfold handle_command. destruct (c <=? MODE_MotorTest) eqn:E; [lia|].
      rewrite Hn. reflexivity.
    + rewrite (handle_command_frame rx1 0); try (intros; reflexivity); [lia|exact Hn].
Qed.

(** X10: no command of the ground station and no telemetry writes the
    variables of the flight loop: the arming flag and its hold counters,
    the flight mode, the hover flag, the radio frame, the Motor array, the
    LED mode colour, the tick counter, the battery readings, the altitude
    targets and estimates, the altitude PID and the sensor snapshot. *)
Theorem link_keeps_flight_state :
  forall late phase (s : State),
    flight_view (DoDebugModeOutput late phase (CheckDebugInput s)) = flight_view s.
Proof.
  intros late phase s. rewrite DoDebugModeOutput_flight. apply CheckDebugInput_flight.
Qed.

Lemma land_248 c : 0 <= c < 256 -> Z.land c 248 = 8 * (c / 8).
Proof.
  intros Hc. change 248 with (Z.land 255 (Z.lnot 7)).
  rewrite Z.land_assoc, <- Z.ldiff_land.
  change 255 with (Z.ones 8). change 7 with (Z.ones 3).
  rewrite Z.land_ones by lia. rewrite Z.mod_small by lia.
  rewrite Z.ldiff_ones_r by lia.
  rewrite Z.shiftr_div_pow2, Z.shiftl_mul_pow2 by lia. change (2 ^ 3) with 8. lia.
Qed.

(** X11: a byte that is no command.  A byte from 0x20 to 0xFE on either
    port, or a byte 0x08..0x0F on the XBee port, is consumed and nothing
    else happens; byte 0xFF is consumed and answered with the byte 0xE8 on
    the port it came from. *)
Theorem bytes_outside_the_commands :
  forall (s : State) port c q,
    MODE_MotorTest < 8 ->
    next_command s port c q ->
    32 <= c <= 255 \/ (port = 1 /\ 8 <= c <= 15) ->
    CheckDebugInput s
    = if c =? 255 then emit (E_S4_Put port 232) (set_rx port q s) else set_rx port q s.
Proof.
  intros s port c q Hm Hn Hc.
  rewrite (CheckDebugInput_next s port c q) by (lia || exact Hn).
  unfold handle_command. destruct (c <=? MODE_MotorTest) eqn:E; [lia|].
  assert (Hl : Z.land c 248 = 8 * (c / 8)) by (apply land_248; lia).
  assert (Hnudge : (port =? 0) && (Z.land c 248 =? 8) = false).
  { destruct Hc as [Hc|[-> Hc]]; [|reflexivity].
    apply andb_false_iff. right. apply Z.eqb_neq. rewrite Hl.
    pose proof (Z.div_le_lower_bound c 8 4 ltac:(lia) ltac:(lia)). lia. }
  rewrite Hnudge.
  assert (H16 : (Z.land c 248 =? 16) = false).
  { apply Z.eqb_neq. rewrite Hl. destruct Hc as [Hc|[_ Hc]].
    - pose proof (Z.div_le_lower_bound c 8 4 ltac:(lia) ltac:(lia)). lia.
    - pose proof (Z.div_lt_upper_bound c 8 2 ltac:(lia) ltac:(lia)). lia. }
  assert (H24 : (Z.land c 248 =? 24) = false).
  { apply Z.eqb_neq. rewrite Hl. destruct Hc as [Hc|[_ Hc]].
    - pose proof (Z.div_le_lower_bound c 8 4 ltac:(lia) ltac:(lia)). lia.
    - pose proof (Z.div_lt_upper_bound c 8 2 ltac:(lia) ltac:(lia)). lia. }
  rewrite H16, H24. reflexivity.
Qed.

End Commands.

(** On the bench: the wipe byte twice on the USB port. *)
Lemma settings_wipe_needs_confirmation_witness :
  MODE_MotorTest (Header := Bench.header) < 26
  /\ next_command (Bench.incoming [26; 26] [] (Bench.started 2 2 8500)) 0 26 [26]
  /\ trace (CheckDebugInput (hdr := Bench.header)
              (Bench.incoming [26; 26] [] (Bench.started 2 2 8500)))
     = trace (Bench.incoming [26; 26] [] (Bench.started 2 2 8500)) ++ [E_Beep3].
Proof.
  set (s := Bench.incoming [26; 26] [] (Bench.started 2 2 8500)).
  assert (H1 : MODE_MotorTest (Header := Bench.header) < 26) by (vm_compute; reflexivity).
  assert (H2 : next_command s 0 26 [26]) by (left; split; vm_compute; reflexivity).
  split; [exact H1|]. split; [exact H2|].
  destruct (settings_wipe_needs_confirmation (hdr := Bench.header) s 0 [26] H1 H2) as (A & _).
  destruct (A [] eq_refl) as (_ & _ & T & _). exact T.
Defined.

(** On the bench: byte 9 on the USB port asks for motor 1. *)
Lemma nudge_only_over_usb_witness :
  MODE_MotorTest (Header := Bench.header) < 8
  /\ rx0 (Bench.incoming [9] [] (Bench.started 2 2 8500)) = [9]
  /\ NudgeMotor (CheckDebugInput (hdr := Bench.header)
                   (Bench.incoming [9] [] (Bench.started 2 2 8500))) = 1.
Proof.
  set (s := Bench.incoming [9] [] (Bench.started 2 2 8500)).
  assert (H1 : MODE_MotorTest (Header := Bench.header) < 8) by (vm_compute; reflexivity).
  assert (H2 : 8 <= 9 <= 15) by lia.
  assert (H3 : rx0 s = [9]) by (vm_compute; reflexivity).
  split; [exact H1|]. split; [exact H3|].
  destruct (nudge_only_over_usb (hdr := Bench.header) s) as (_ & A).
  rewrite (A 9 [] H1 H2 H3). reflexivity.
Defined.

(** On the bench: a byte on each port. *)
Lemma usb_port_priority_witness :
  rx0 (Bench.incoming [2] [3] (Bench.started 2 2 8500)) = [2]
  /\ rx1 (CheckDebugInput (hdr := Bench.header)
            (Bench.incoming [2] [3] (Bench.started 2 2 8500))) = [3].
Proof.
  set (s := Bench.incoming [2] [3] (Bench.started 2 2 8500)).
  assert (H1 : rx0 s = [2]) by (vm_compute; reflexivity).
  split; [exact H1|].
  rewrite (usb_port_priority (hdr := Bench.header) s 2 [] ltac:(lia) H1).
  vm_compute. reflexivity.
Defined.

(** On the bench: the ping byte on the XBee port. *)
Lemma bytes_outside_the_commands_witness :
  MODE_MotorTest (Header := Bench.header) < 8
  /\ next_command (Bench.incoming [] [255] (Bench.started 2 2 8500)) 1 255 []
  /\ trace (CheckDebugInput (hdr := Bench.header)
              (Bench.incoming [] [255] (Bench.started 2 2 8500)))
     = trace (Bench.started 2 2 8500) ++ [E_S4_Put 1 232].
Proof.
  set (s := Bench.incoming [] [255] (Bench.started 2 2 8500)).
  assert (H1 : MODE_MotorTest (Header := Bench.header) < 8) by (vm_compute; reflexivity).
  assert (H2 : next_command s 1 255 [])
    by (right; split; [reflexivity|split; vm_compute; reflexivity]).
  assert (H3 : 32 <= 255 <= 255 \/ (1 = 1 /\ 8 <= 255 <= 15)) by (left; lia).
  split; [exact H1|]. split; [exact H2|].
  rewrite (bytes_outside_the_commands (hdr := Bench.header) s 1 255 [] H1 H2 H3).
  vm_compute. reflexivity.
Defined.

(** ** The status LED *)

Lemma blink_index_16 c : (Z.land (Z.shiftr c 3) 15 <? 3) = (c mod 128 <? 24).
Proof.
  rewrite Z.shiftr_div_pow2 by lia. change 15 with (Z.ones 4).
  rewrite Z.land_ones by lia. change (2 ^ 3) with 8. change (2 ^ 4) with 16.
  destruct (Z.ltb_spec ((c / 8) mod 16) 3); destruct (Z.ltb_spec (c mod 128) 24);
    try reflexivity; exfalso; Z.div_mod_to_equations; lia.
Qed.

Lemma blink_index_8 c : (Z.land (Z.shiftr c 3) 7 <? 4) = (c mod 64 <? 32).
Proof.
  rewrite Z.shiftr_div_pow2 by lia. change 7 with (Z.ones 3).
  rewrite Z.land_ones by lia. change (2 ^ 3) with 8.
  destruct (Z.ltb_spec ((c / 8) mod 8) 4); destruct (Z.ltb_spec (c mod 64) 32);
    try reflexivity; exfalso; Z.div_mod_to_equations; lia.
Qed.

Lemma land_1 e : Z.land e 1 = if Z.even e then 0 else 1.
Proof.
  change 1 with (Z.ones 1) at 1. rewrite Z.land_ones by lia. change (2 ^ 1) with 2.
  apply Zmod_even.
Qed.

Section StatusLED.

Context {hdr : Header} {pid : IntPID_ops} {imu_ops : QuatIMU_ops}
        {sens_ops : Sensors_ops} {prefs_ops : Prefs_ops}.

Lemma mode_color_table m :
  mode_color m =
  Z.land (match m with
          | FlightMode_Assisted => LED_Cyan
          | FlightMode_Automatic => LED_White
          | FlightMode_Manual => LED_Yellow
          | FlightMode_CalibrateCompass => LED_Violet
          end) 16777215.
Proof. unfold mode_color. destruct m; reflexivity. Qed.

Lemma arm_color_table e :
  arm_color e = Z.land (if Z.even e then LED_Green else LED_Red) 16777215.
Proof. unfold arm_color. rewrite land_1. destruct (Z.even e); reflexivity. Qed.

(** X12: the blink pattern of UpdateFlightLEDColor, in ticks.  Without a
    low-battery condition the LED shows the colour of the flight mode
    during the first 24 ticks of every 128 (and throughout while hovering)
    and green when disarmed, red when armed, for the other 104; with a
    low-battery condition it alternates every 32 ticks between the colour
    of the flight mode and the orange warning.  The colours are the table
    entries masked to 24 bits, and nothing but LEDModeColor is written. *)
Theorem flight_led_pattern :
  forall (s : State),
    UpdateFlightLEDColor s =
    s <| LEDModeColor :=
           if LowBatt s =? 0 then
             if (counter s mod 128 <? 24) || negb (IsHolding s =? 0)
             then Z.land (match FlightMode s with
                          | FlightMode_Assisted => LED_Cyan
                          | FlightMode_Automatic => LED_White
                          | FlightMode_Manual => LED_Yellow
                          | FlightMode_CalibrateCompass => LED_Violet
                          end) 16777215
             else Z.land (if Z.even (FlightEnabled s) then LED_Green else LED_Red) 16777215
           else
             if counter s mod 64 <? 32
             then Z.land (match FlightMode s with
                          | FlightMode_Assisted => LED_Cyan
                          | FlightMode_Automatic => LED_White
                          | FlightMode_Manual => LED_Yellow
                          | FlightMode_CalibrateCompass => LED_Violet
                          end) 16777215
             else Z.land (Z.lor LED_Red (Z.land LED_Yellow LED_Half)) 16777215 |>.
Proof.
  intros s. rewrite UpdateFlightLEDColor_eq. unfold flight_led_color.
  rewrite blink_index_16, blink_index_8, mode_color_table, arm_color_table.
  destruct (LowBatt s =? 0); reflexivity.
Qed.

End StatusLED.

(** ** Gyro zeroing *)

Lemma iter_shift {A : Type} (f : A -> A) n x : Nat.iter n f (f x) = Nat.iter (S n) f x.
Proof.
  induction n as [|n IH]; [reflexivity|].
  rewrite Nat.iter_succ, IH, <- Nat.iter_succ. reflexivity.
Qed.

Lemma iter_1 {A : Type} (f : A -> A) x : Nat.iter 1 f x = f x.
Proof. reflexivity. Qed.

Lemma first_least_one {A : Type} (b : A) (v : Z) : first_least [(b, v)] b v.
Proof.
  exists 0%nat. split; [reflexivity|]. split.
  - intros j' q Hj. lia.
  - intros j' q Hq. destruct j' as [|j']; [|destruct j'; discriminate].
    injection Hq as <-. cbn [snd]. lia.
Qed.

(** A further pass replaces the best one exactly when its variation is
    strictly smaller. *)
Lemma first_least_snoc {A : Type} (passes : list (A * Z)) (b : A) (v : Z) (p : A * Z) :
  first_least passes b v ->
  first_least (passes ++ [p]) (if snd p <? v then fst p else b)
              (if snd p <? v then snd p else v).
Proof.
  intros (j & Hj & Hbefore & Hall).
  assert (Hlen : (j < length passes)%nat) by (eapply lookup_lt_Some; exact Hj).
  destruct (Z.ltb_spec (snd p) v) as [Hlt|Hge].
  - exists (length passes). split; [|split].
    + rewrite lookup_app_r by lia. rewrite Nat.sub_diag. destruct p; reflexivity.
    + intros j' q Hj' Hq. rewrite lookup_app_l in Hq by lia.
      pose proof (Hall j' q Hq). lia.
    + intros j' q Hq. destruct (Nat.lt_ge_cases j' (length passes)) as [Hl|Hl].
      * rewrite lookup_app_l in Hq by lia. pose proof (Hall j' q Hq). lia.
      * rewrite lookup_app_r in Hq by lia.
        destruct (j' - length passes)%nat as [|n]; [|destruct n; discriminate].
        injection Hq as <-. lia.
  - exists j. split; [|split].
    + rewrite lookup_app_l by lia. exact Hj.
    + intros j' q Hj' Hq. rewrite lookup_app_l in Hq by lia. exact (Hbefore j' q Hj' Hq).
    + intros j' q Hq. destruct (Nat.lt_ge_cases j' (length passes)) as [Hl|Hl].
      * rewrite lookup_app_l in Hq by lia. exact (Hall j' q Hq).
      * rewrite lookup_app_r in Hq by lia.
        destruct (j' - length passes)%nat as [|n]; [|destruct n; discriminate].
        injection Hq as <-. lia.
Qed.

Section GyroSearch.

Context {hdr : Header} {pid : IntPID_ops} {imu_ops : QuatIMU_ops}
        {sens_ops : Sensors_ops} {prefs_ops : Prefs_ops}.

Variable feed : nat -> Z -> Z.

Lemma TryCounter_body g : TryCounter (gz_body feed g) = int32 (TryCounter g + 1).
Proof.
  unfold gz_body. destruct (gz_window feed (win g)) as [w v].
  destruct (_ || _); reflexivity.
Qed.

Lemma win_body g : win (gz_body feed g) = fst (gz_window feed (win g)).
Proof.
  unfold gz_body. destruct (gz_window feed (win g)) as [w v].
  destruct (_ || _); reflexivity.
Qed.

Lemma TryCounter_iter n :
  (n <= 64)%nat -> TryCounter (Nat.iter n (gz_body feed) gz_initial) = Z.of_nat n.
Proof.
  induction n as [|n IH]; intros Hn; [reflexivity|].
  rewrite Nat.iter_succ, TryCounter_body, IH by lia. rewrite int32_small by lia. lia.
Qed.

(** The do-while loop makes [k + 1] passes, where [k] is the first number
    of repetitions after which the condition fails, the fuel bounding
    it. *)
Lemma gz_loop_iter fuel g :
  exists k, (k <= fuel)%nat
    /\ gz_loop feed fuel g = Nat.iter (S k) (gz_body feed) g
    /\ (forall j, (j < k)%nat -> gz_continue (Nat.iter (S j) (gz_body feed) g) = true)
    /\ ((k < fuel)%nat -> gz_continue (Nat.iter (S k) (gz_body feed) g) = false).
Proof.
  revert g. induction fuel as [|fuel IH]; intros g.
  - exists 0%nat. split; [lia|]. split; [reflexivity|]. split; intros; lia.
  - cbn [gz_loop]. cbv zeta. destruct (gz_continue (gz_body feed g)) eqn:E.
    + destruct (IH (gz_body feed g)) as (k & Hk & Heq & Hall & Hlast).
      exists (S k). split; [lia|]. split; [rewrite Heq; apply iter_shift|].
      split.
      * intros j Hj. destruct j as [|j]; [exact E|].
        rewrite <- iter_shift. apply Hall. lia.
      * intros Hlt. rewrite <- iter_shift. apply Hlast. lia.
    + exists 0%nat. split; [lia|]. split; [reflexivity|].
      split; [intros; lia|]. intros _. exact E.
Qed.

(** The variation of a window is never negative, so that it is never
    mistaken for the "no window yet" mark -1. *)
Lemma gz_window_nonneg w : 0 <= snd (gz_window feed w).
Proof.
  unfold gz_window, gz_variation.
  apply (for_loop_inv (fun _ (x : GyroWindow * Z) => 0 <= snd x)); [cbn; lia|].
  intros i [w' v] _ Hv. cbn [snd] in *. rewrite max_spec. lia.
Qed.

Lemma bestvar_body g :
  bestvar g = -1 \/ 0 <= bestvar g -> 0 <= bestvar (gz_body feed g).
Proof.
  intros Hg. unfold gz_body. pose proof (gz_window_nonneg (win g)) as Hv.
  destruct (gz_window feed (win g)) as [w v]. cbn [snd] in Hv.
  destruct ((bestvar g =? -1) || (v <? bestvar g)) eqn:E; cbn [bestvar]; [exact Hv|].
  apply orb_false_iff in E. destruct E as [E _]. apply Z.eqb_neq in E. lia.
Qed.

Lemma bestvar_iter n : 0 <= bestvar (Nat.iter (S n) (gz_body feed) gz_initial).
Proof.
  induction n as [|n IH].
  - apply bestvar_body. left. reflexivity.
  - rewrite Nat.iter_succ. apply bestvar_body. right. exact IH.
Qed.

Lemma gz_search_eq : gz_search feed = gz_loop feed 63 gz_initial.
Proof. reflexivity. Qed.

Lemma continue_first g : TryCounter g = 1 -> gz_continue g = true.
Proof. intros H. unfold gz_continue. rewrite H, orb_true_r. reflexivity. Qed.

Lemma continue_last g : TryCounter g = 64 -> gz_continue g = false.
Proof. intros H. unfold gz_continue. rewrite H. reflexivity. Qed.

Lemma continue_false g :
  gz_continue g = false -> TryCounter g < 64 -> bestvar g <= 2 /\ 2 <= TryCounter g.
Proof.
  unfold gz_continue, MaxTries, MinTries. intros H Hlt.
  destruct (TryCounter g <? 64) eqn:E1; [|lia]. rewrite andb_true_l in H.
  apply orb_false_iff in H. destruct H as [H1 H2]. lia.
Qed.

(** What the search returns, as a number of passes. *)
Lemma gz_search_iter :
  exists k, (1 <= k <= 63)%nat
    /\ gz_search feed = Nat.iter (S k) (gz_body feed) gz_initial
    /\ TryCounter (gz_search feed) = Z.of_nat (S k)
    /\ (forall j, (j < k)%nat ->
          gz_continue (Nat.iter (S j) (gz_body feed) gz_initial) = true)
    /\ gz_continue (gz_search feed) = false.
Proof.
  rewrite gz_search_eq.
  destruct (gz_loop_iter 63 gz_initial) as (k & Hk & Heq & Hall & Hlast).
  rewrite Heq. clear Heq.
  assert (Hstop : gz_continue (Nat.iter (S k) (gz_body feed) gz_initial) = false).
  { destruct (Nat.eq_dec k 63) as [E|Hne]; [|apply Hlast; clear - Hk Hne; lia].
    subst k. apply continue_last. apply (TryCounter_iter 64). lia. }
  clear Hlast.
  assert (H2 : (1 <= k)%nat).
  { destruct k as [|k]; [|clear; lia]. exfalso.
    assert (H1 : gz_continue (Nat.iter 1 (gz_body feed) gz_initial) = true).
    { apply continue_first. apply (TryCounter_iter 1). lia. }
    rewrite H1 in Hstop. exact (diff_true_false Hstop). }
  exists k. split; [clear - Hk H2; lia|]. split; [reflexivity|].
  split; [apply TryCounter_iter; clear - Hk; lia|].
  split; [exact Hall|exact Hstop].
Qed.

(** X13: the search of FindGyroZero ends, and ends by its own test.  It
    makes between MinTries (2) and MaxTries (64) passes, as many as
    TryCounter says; the loop condition held after every pass but the
    last and fails after the last; the best variation is not negative; and
    the search stops before 64 passes only with a best variation of 2 or
    less. *)
Theorem gyro_search_exit :
  let g := gz_search feed in
  2 <= TryCounter g <= 64
  /\ g = Nat.iter (Z.to_nat (TryCounter g)) (gz_body feed) gz_initial
  /\ (forall j, (0 < j < Z.to_nat (TryCounter g))%nat ->
        gz_continue (Nat.iter j (gz_body feed) gz_initial) = true)
  /\ gz_continue g = false
  /\ 0 <= bestvar g
  /\ (TryCounter g < 64 -> bestvar g <= 2).
Proof.
  cbv zeta. destruct gz_search_iter as (k & Hk & Heq & HT & Hall & Hstop).
  rewrite HT, Nat2Z.id.
  split; [clear - Hk; lia|]. split; [exact Heq|]. split.
  { intros j Hj. destruct j as [|j]; [clear - Hj; lia|]. apply Hall. clear - Hj. lia. }
  split; [exact Hstop|]. split; [rewrite Heq; apply bestvar_iter|].
  intros Hlt. apply continue_false; [exact Hstop|]. rewrite HT. exact Hlt.
Qed.

(** *** Which window is kept *)

Lemma gz_passes_S n w :
  gz_passes feed (S n) w =
  ([at_ (avg (fst (gz_window feed w))) 0; at_ (avg (fst (gz_window feed w))) 1;
    at_ (avg (fst (gz_window feed w))) 2], snd (gz_window feed w))
  :: gz_passes feed n (fst (gz_window feed w)).
Proof. cbn [gz_passes]. destruct (gz_window feed w); reflexivity. Qed.

Lemma gz_passes_snoc n w :
  gz_passes feed (S n) w =
  gz_passes feed n w
  ++ gz_passes feed 1 (Nat.iter n (fun w => fst (gz_window feed w)) w).
Proof.
  revert w. induction n as [|n IH]; intros w.
  - reflexivity.
  - rewrite (gz_passes_S (S n)), IH, (gz_passes_S n w), <- iter_shift. reflexivity.
Qed.

Lemma win_iter n g :
  win (Nat.iter n (gz_body feed) g) = Nat.iter n (fun w => fst (gz_window feed w)) (win g).
Proof.
  induction n as [|n IH]; [reflexivity|].
  rewrite !Nat.iter_succ, win_body, IH. reflexivity.
Qed.

(** The first pass is kept whatever its variation. *)
Lemma body_first g :
  bestvar g = -1 ->
  gz_passes feed 1 (win g) = [(best (gz_body feed g), bestvar (gz_body feed g))].
Proof.
  intros H. rewrite gz_passes_S. unfold gz_body.
  destruct (gz_window feed (win g)) as [w v]. rewrite H. reflexivity.
Qed.

Lemma body_next g :
  0 <= bestvar g ->
  exists p, gz_passes feed 1 (win g) = [p]
    /\ best (gz_body feed g) = (if snd p <? bestvar g then fst p else best g)
    /\ bestvar (gz_body feed g) = (if snd p <? bestvar g then snd p else bestvar g).
Proof.
  intros H. rewrite gz_passes_S. unfold gz_body.
  destruct (gz_window feed (win g)) as [w v].
  eexists. split; [reflexivity|]. cbn [fst snd].
  destruct (bestvar g =? -1) eqn:E; [lia|]. cbn [orb].
  destruct (v <? bestvar g); split; reflexivity.
Qed.

Lemma select_iter n :
  first_least (gz_passes feed (S n) (win gz_initial))
              (best (Nat.iter (S n) (gz_body feed) gz_initial))
              (bestvar (Nat.iter (S n) (gz_body feed) gz_initial)).
Proof.
  induction n as [|n IH].
  - rewrite (body_first gz_initial) by reflexivity. rewrite iter_1.
    apply first_least_one.
  - rewrite gz_passes_snoc, <- win_iter.
    destruct (body_next (Nat.iter (S n) (gz_body feed) gz_initial) (bestvar_iter n))
      as (p & Hp & Hb & Hv).
    rewrite Hp, (Nat.iter_succ (S n)), Hb, Hv.
    apply first_least_snoc. exact IH.
Qed.

(** X14: what FindGyroZero publishes.  Of the windows the search sampled
    (as many as TryCounter says), the one kept is the first with the least
    variation; its three averages become GyroZX, GyroZY and GyroZZ and are
    handed to the IMU. *)
Theorem gyro_zero_is_first_least :
  let g := gz_search feed in
  first_least (gz_passes feed (Z.to_nat (TryCounter g)) (win gz_initial))
              (best g) (bestvar g)
  /\ (forall s : State,
        GyroZX (FindGyroZero feed s) = at_ (best g) 0
        /\ GyroZY (FindGyroZero feed s) = at_ (best g) 1
        /\ GyroZZ (FindGyroZero feed s) = at_ (best g) 2
        /\ imu (FindGyroZero feed s)
           = QuatIMU_SetGyroZero (at_ (best g) 0) (at_ (best g) 1) (at_ (best g) 2) (imu s)).
Proof.
  cbv zeta. split.
  - destruct gz_search_iter as (k & Hk & Heq & HT & _ & _).
    rewrite HT, Nat2Z.id, Heq. apply select_iter.
  - intros s. rewrite FindGyroZero_eq. generalize (gz_search feed). intros g.
    repeat split.
Qed.

(** *** The beeps *)

Lemma land_3 n : 0 <= n -> (Z.land n 3 =? 3) = ((n + 1) mod 4 =? 0).
Proof.
  intros Hn. change 3 with (Z.ones 2) at 1. rewrite Z.land_ones by lia.
  change (2 ^ 2) with 4.
  destruct (Z.eqb_spec (n mod 4) 3); destruct (Z.eqb_spec ((n + 1) mod 4) 0);
    try reflexivity; exfalso; Z.div_mod_to_equations; lia.
Qed.

Lemma beeps_body g :
  beeps (gz_body feed g) =
  if Z.land (TryCounter g) 3 =? 3 then beeps g ++ [E_BeepHz 4000 80] else beeps g.
Proof.
  unfold gz_body. destruct (gz_window feed (win g)) as [w v].
  destruct (_ || _); reflexivity.
Qed.

Lemma beeps_iter n :
  (n <= 64)%nat ->
  beeps (Nat.iter n (gz_body feed) gz_initial)
  = replicate (Z.to_nat (Z.of_nat n / 4)) (E_BeepHz 4000 80).
Proof.
  induction n as [|n IH]; intros Hn; [reflexivity|].
  rewrite Nat.iter_succ, beeps_body, IH, TryCounter_iter by lia.
  rewrite land_3 by lia.
  replace (Z.of_nat (S n)) with (Z.of_nat n + 1) by lia.
  destruct (Z.eqb_spec ((Z.of_nat n + 1) mod 4) 0) as [E|E].
  - replace (Z.to_nat ((Z.of_nat n + 1) / 4)) with (S (Z.to_nat (Z.of_nat n / 4))).
    + rewrite replicate_S_end. reflexivity.
    + rewrite <- Z2Nat.inj_succ by (apply Z.div_pos; lia). f_equal.
      Z.div_mod_to_equations. lia.
  - f_equal. f_equal. Z.div_mod_to_equations. lia.
Qed.

(** X15: the search beeps once every fourth pass, at 4000 Hz for 80 ms:
    the calls FindGyroZero adds are [TryCounter / 4] such beeps, sixteen at
    most, and nothing else. *)
Theorem gyro_search_beeps :
  forall s : State,
    trace (FindGyroZero feed s)
    = trace s ++ replicate (Z.to_nat (TryCounter (gz_search feed) / 4)) (E_BeepHz 4000 80)
    /\ 0 <= TryCounter (gz_search feed) / 4 <= 16.
Proof.
  intros s. destruct gz_search_iter as (k & Hk & Heq & HT & _ & _).
  split.
  - rewrite FindGyroZero_eq, HT, Heq.
    generalize (beeps_iter (S k) ltac:(lia)).
    generalize (Nat.iter (S k) (gz_body feed) gz_initial). intros g Hg.
    cbn [trace]. st_simpl. rewrite Hg. reflexivity.
  - rewrite HT. clear - Hk. Z.div_mod_to_equations. lia.
Qed.

End GyroSearch.

(** ** One sampling window *)

Lemma fold_left_snoc {A B : Type} (f : A -> B -> A) l x a :
  fold_left f (l ++ [x]) a = f (fold_left f l a) x.
Proof. rewrite fold_left_app. reflexivity. Qed.

Lemma fold_min_range l x :
  -32768 <= x <= 32767 -> Forall (fun v => -32768 <= v <= 32767) l ->
  -32768 <= fold_left Z.min l x <= 32767.
Proof.
  intros Hx Hl. induction l as [|v l IH] using rev_ind; [exact Hx|].
  apply Forall_app in Hl. destruct Hl as [Hl Hv]. apply Forall_inv in Hv.
  rewrite fold_left_snoc. specialize (IH Hl). lia.
Qed.

Lemma fold_max_range l x :
  -32768 <= x <= 32767 -> Forall (fun v => -32768 <= v <= 32767) l ->
  -32768 <= fold_left Z.max l x <= 32767.
Proof.
  intros Hx Hl. induction l as [|v l IH] using rev_ind; [exact Hx|].
  apply Forall_app in Hl. destruct Hl as [Hl Hv]. apply Forall_inv in Hv.
  rewrite fold_left_snoc. specialize (IH Hl). lia.
Qed.

Lemma fold_add_range l :
  Forall (fun v => -32768 <= v <= 32767) l ->
  -32768 * Z.of_nat (length l) <= fold_left Z.add l 0 <= 32767 * Z.of_nat (length l).
Proof.
  intros Hl. induction l as [|v l IH] using rev_ind; [cbn; lia|].
  apply Forall_app in Hl. destruct Hl as [Hl Hv]. apply Forall_inv in Hv.
  rewrite fold_left_snoc, length_app. cbn [length]. specialize (IH Hl). lia.
Qed.

Section Window.

Variable feed : nat -> Z -> Z.

(** The sensor delivers 16-bit readings. *)
Hypothesis feed_16 : forall n r, -32768 <= feed n r <= 32767.

Lemma gz_start_explicit r l0 l1 l2 h0 h1 h2 s0 s1 s2 :
  gz_start feed (mkGyroWindow r [l0; l1; l2] [h0; h1; h2] [s0; s1; s2]) =
  mkGyroWindow (S (S (S r)))
    [feed r 1; feed (S r) 2; feed (S (S r)) 3]
    [feed r 1; feed (S r) 2; feed (S (S r)) 3]
    [0; 0; 0].
Proof. reflexivity. Qed.

Lemma gz_sample_explicit r l0 l1 l2 h0 h1 h2 s0 s1 s2 :
  gz_sample feed (mkGyroWindow r [l0; l1; l2] [h0; h1; h2] [s0; s1; s2]) =
  mkGyroWindow (S (S (S r)))
    [min l0 (feed r 1); min l1 (feed (S r) 2); min l2 (feed (S (S r)) 3)]
    [max h0 (feed r 1); max h1 (feed (S r) 2); max h2 (feed (S (S r)) 3)]
    [int32 (s0 + feed r 1); int32 (s1 + feed (S r) 2); int32 (s2 + feed (S (S r)) 3)].
Proof. reflexivity. Qed.

Lemma gz_variation_explicit r l0 l1 l2 h0 h1 h2 s0 s1 s2 :
  gz_variation (mkGyroWindow r [l0; l1; l2] [h0; h1; h2] [s0; s1; s2]) =
  (mkGyroWindow r [l0; l1; l2] [h0; h1; h2] [Z.quot s0 64; Z.quot s1 64; Z.quot s2 64],
   max (max (max 0 (abs (int32 (Z.quot (int32 (h0 + l0)) 2 - Z.quot s0 64))))
            (abs (int32 (Z.quot (int32 (h1 + l1)) 2 - Z.quot s1 64))))
       (abs (int32 (Z.quot (int32 (h2 + l2)) 2 - Z.quot s2 64)))).
Proof. reflexivity. Qed.

Lemma samples_16 r a : Forall (fun v => -32768 <= v <= 32767) (gz_samples feed r a).
Proof.
  unfold gz_samples. apply Forall_fmap, Forall_forall. intros i _. apply feed_16.
Qed.

Lemma samples_length r a : length (gz_samples feed r a) = 64%nat.
Proof. unfold gz_samples. rewrite length_map, length_seq. reflexivity. Qed.

Lemma samples_take r a i :
  (i < 64)%nat ->
  take (S i) (gz_samples feed r a)
  = take i (gz_samples feed r a) ++ [feed (r + 3 + 3 * i + a)%nat (1 + Z.of_nat a)].
Proof.
  intros Hi. apply take_S_r. unfold gz_samples.
  rewrite list_lookup_fmap, lookup_seq_lt by lia. reflexivity.
Qed.

(** The working set after [i] samples. *)
Lemma sample_loop r l0 l1 l2 h0 h1 h2 s0 s1 s2 (i : nat) :
  (i <= 64)%nat ->
  for_loop i (fun _ => gz_sample feed)
    (gz_start feed (mkGyroWindow r [l0; l1; l2] [h0; h1; h2] [s0; s1; s2]))
  = mkGyroWindow (r + 3 + 3 * i)
      [fold_left Z.min (take i (gz_samples feed r 0)) (gz_first feed r 0);
       fold_left Z.min (take i (gz_samples feed r 1)) (gz_first feed r 1);
       fold_left Z.min (take i (gz_samples feed r 2)) (gz_first feed r 2)]
      [fold_left Z.max (take i (gz_samples feed r 0)) (gz_first feed r 0);
       fold_left Z.max (take i (gz_samples feed r 1)) (gz_first feed r 1);
       fold_left Z.max (take i (gz_samples feed r 2)) (gz_first feed r 2)]
      [fold_left Z.add (take i (gz_samples feed r 0)) 0;
       fold_left Z.add (take i (gz_samples feed r 1)) 0;
       fold_left Z.add (take i (gz_samples feed r 2)) 0].
Proof.
  induction i as [|i IH]; intros Hi.
  - rewrite for_loop_0, gz_start_explicit. unfold gz_first. cbn [take fold_left].
    replace (r + 3 + 3 * 0)%nat with (S (S (S r))) by lia.
    replace (r + 0)%nat with r by lia. replace (r + 1)%nat with (S r) by lia.
    replace (r + 2)%nat with (S (S r)) by lia. reflexivity.
  - rewrite for_loop_S, IH by lia. rewrite gz_sample_explicit.
    rewrite !samples_take by lia. rewrite !fold_left_snoc, !min_spec, !max_spec.
    replace (r + 3 + 3 * i + 0)%nat with (r + 3 + 3 * i)%nat by lia.
    replace (r + 3 + 3 * i + 1)%nat with (S (r + 3 + 3 * i)) by lia.
    replace (r + 3 + 3 * i + 2)%nat with (S (S (r + 3 + 3 * i))) by lia.
    replace (r + 3 + 3 * S i)%nat with (S (S (S (r + 3 + 3 * i)))) by lia.
    change (1 + Z.of_nat 0) with 1. change (1 + Z.of_nat 1) with 2.
    change (1 + Z.of_nat 2) with 3.
    assert (Hsum : forall a, -32768 * Z.of_nat i
                             <= fold_left Z.add (take i (gz_samples feed r a)) 0
                             <= 32767 * Z.of_nat i).
    { intros a.
      pose proof (fold_add_range (take i (gz_samples feed r a))
                    (Forall_take _ _ _ (samples_16 r a))) as H.
      rewrite length_take, samples_length in H.
      replace (i `min` 64)%nat with i in H by lia. exact H. }
    pose proof (Hsum 0%nat). pose proof (Hsum 1%nat). pose proof (Hsum 2%nat).
    pose proof (feed_16 (r + 3 + 3 * i) 1). pose proof (feed_16 (S (r + 3 + 3 * i)) 2).
    pose proof (feed_16 (S (S (r + 3 + 3 * i))) 3).
    rewrite !int32_small by lia. reflexivity.
Qed.

Lemma gz_lo_eq r a :
  gz_lo feed r a = fold_left Z.min (gz_samples feed r a) (gz_first feed r a).
Proof. reflexivity. Qed.

Lemma gz_hi_eq r a :
  gz_hi feed r a = fold_left Z.max (gz_samples feed r a) (gz_first feed r a).
Proof. reflexivity. Qed.

Lemma gz_mean_eq r a :
  gz_mean feed r a = Z.quot (fold_left Z.add (gz_samples feed r a) 0) 64.
Proof. reflexivity. Qed.

Lemma gz_var_eq r a :
  gz_var feed r a = Z.quot (gz_hi feed r a + gz_lo feed r a) 2 - gz_mean feed r a.
Proof. reflexivity. Qed.

Lemma first_16 r a : -32768 <= gz_first feed r a <= 32767.
Proof. apply feed_16. Qed.

Lemma lo_16 r a : -32768 <= gz_lo feed r a <= 32767.
Proof. rewrite gz_lo_eq. apply fold_min_range; [apply first_16|apply samples_16]. Qed.

Lemma hi_16 r a : -32768 <= gz_hi feed r a <= 32767.
Proof. rewrite gz_hi_eq. apply fold_max_range; [apply first_16|apply samples_16]. Qed.

Lemma mean_16 r a : -32768 <= gz_mean feed r a <= 32767.
Proof.
  rewrite gz_mean_eq. pose proof (fold_add_range _ (samples_16 r a)) as H.
  rewrite samples_length in H.
  generalize dependent (fold_left Z.add (gz_samples feed r a) 0). intros z H.
  Z.quot_rem_to_equations. lia.
Qed.

Lemma var_small h l m :
  -32768 <= h <= 32767 -> -32768 <= l <= 32767 -> -32768 <= m <= 32767 ->
  abs (int32 (Z.quot (int32 (h + l)) 2 - m)) = Z.abs (Z.quot (h + l) 2 - m).
Proof.
  intros Hh Hl Hm. rewrite (int32_small (h + l)) by lia.
  assert (-32768 <= Z.quot (h + l) 2 <= 32767) by (Z.quot_rem_to_equations; lia).
  rewrite int32_small by lia. apply abs_small. lia.
Qed.

(** A window in closed form: the minimum and the maximum are taken over the
    first reading and the 64 samples, the average over the 64 samples. *)
Lemma gz_window_closed w :
  length (vmin w) = 3%nat -> length (vmax w) = 3%nat -> length (avg w) = 3%nat ->
  gz_window feed w =
  (mkGyroWindow (reads w + 195)
     [gz_lo feed (reads w) 0; gz_lo feed (reads w) 1; gz_lo feed (reads w) 2]
     [gz_hi feed (reads w) 0; gz_hi feed (reads w) 1; gz_hi feed (reads w) 2]
     [gz_mean feed (reads w) 0; gz_mean feed (reads w) 1; gz_mean feed (reads w) 2],
   Z.max (Z.max (Z.abs (gz_var feed (reads w) 0)) (Z.abs (gz_var feed (reads w) 1)))
         (Z.abs (gz_var feed (reads w) 2))).
Proof.
  destruct w as [r lo hi sm]. cbn [reads vmin vmax avg]. intros H1 H2 H3.
  destruct lo as [|l0 [|l1 [|l2 [|]]]]; try discriminate.
  destruct hi as [|h0 [|h1 [|h2 [|]]]]; try discriminate.
  destruct sm as [|s0 [|s1 [|s2 [|]]]]; try discriminate.
  unfold gz_window. rewrite (sample_loop r l0 l1 l2 h0 h1 h2 s0 s1 s2 64) by lia.
  rewrite !take_ge by (rewrite samples_length; lia).
  rewrite gz_variation_explicit.
  rewrite <- !gz_lo_eq, <- !gz_hi_eq, <- !gz_mean_eq.
  rewrite (var_small (gz_hi feed r 0) (gz_lo feed r 0) (gz_mean feed r 0)
             (hi_16 r 0) (lo_16 r 0) (mean_16 r 0)).
  rewrite (var_small (gz_hi feed r 1) (gz_lo feed r 1) (gz_mean feed r 1)
             (hi_16 r 1) (lo_16 r 1) (mean_16 r 1)).
  rewrite (var_small (gz_hi feed r 2) (gz_lo feed r 2) (gz_mean feed r 2)
             (hi_16 r 2) (lo_16 r 2) (mean_16 r 2)).
  rewrite 3 max_spec. rewrite 3 gz_var_eq.
  generalize (gz_lo feed r 0) (gz_lo feed r 1) (gz_lo feed r 2)
             (gz_hi feed r 0) (gz_hi feed r 1) (gz_hi feed r 2)
             (gz_mean feed r 0) (gz_mean feed r 1) (gz_mean feed r 2).
  intros a0 a1 a2 b0 b1 b2 m0 m1 m2.
  f_equal; [f_equal; lia|]. lia.
Qed.

Lemma passes_closed n :
  forall w k,
    length (vmin w) = 3%nat -> length (vmax w) = 3%nat -> length (avg w) = 3%nat ->
    (k < n)%nat ->
    gz_passes feed n w !! k =
    Some ([gz_mean feed (reads w + 195 * k) 0; gz_mean feed (reads w + 195 * k) 1;
           gz_mean feed (reads w + 195 * k) 2],
          Z.max (Z.max (Z.abs (gz_var feed (reads w + 195 * k) 0))
                       (Z.abs (gz_var feed (reads w + 195 * k) 1)))
                (Z.abs (gz_var feed (reads w + 195 * k) 2))).
Proof.
  induction n as [|n IH]; intros w k H1 H2 H3 Hk; [lia|].
  rewrite gz_passes_S, gz_window_closed by assumption. cbn [fst snd avg].
  destruct k as [|k].
  - replace (reads w + 195 * 0)%nat with (reads w) by lia. reflexivity.
  - change ((?x :: ?l) !! S k) with (l !! k).
    rewrite IH by (reflexivity || lia). cbn [reads].
    replace (reads w + 195 + 195 * k)%nat with (reads w + 195 * S k)%nat by lia.
    reflexivity.
Qed.

(** X16: the windows of the search in closed form, for 16-bit readings.
    Window [k] covers the live reads [195 k] to [195 k + 194]: one first
    reading per axis, then 64 samples per axis.  Its averages are the
    truncated means of the 64 samples; its variation is the largest, over
    the three axes, of the distance between the mean and the middle of the
    range, the range being taken over the first reading and the samples. *)
Theorem gyro_pass_closed_form :
  forall (n k : nat),
    (k < n)%nat ->
    gz_passes feed n (win gz_initial) !! k =
    Some ([gz_mean feed (195 * k) 0; gz_mean feed (195 * k) 1; gz_mean feed (195 * k) 2],
          Z.max (Z.max (Z.abs (gz_var feed (195 * k) 0)) (Z.abs (gz_var feed (195 * k) 1)))
                (Z.abs (gz_var feed (195 * k) 2))).
Proof.
  intros n k Hk.
  exact (passes_closed n (win gz_initial) k eq_refl eq_refl eq_refl Hk).
Qed.

End Window.

(** *** The search as a whole *)

(** A best pass named by its index, when the passes are known by index. *)
Lemma first_least_indexed {A : Type} (passes : list (A * Z)) (n : nat)
      (m : nat -> A) (var : nat -> Z) (b : A) (v : Z) :
  length passes = n ->
  (forall j, (j < n)%nat -> passes !! j = Some (m j, var j)) ->
  first_least passes b v ->
  exists k, (k < n)%nat /\ b = m k /\ v = var k
    /\ (forall j, (j < n)%nat -> v <= var j)
    /\ (forall j, (j < k)%nat -> v < var j).
Proof.
  intros Hlen Hpass (k & Hk & Hbefore & Hall).
  assert (Hlt : (k < n)%nat).
  { apply lookup_lt_Some in Hk. rewrite Hlen in Hk. exact Hk. }
  exists k. split; [exact Hlt|].
  rewrite (Hpass k Hlt) in Hk. injection Hk as Hb Hv.
  split; [symmetry; exact Hb|]. split; [symmetry; exact Hv|]. split.
  - intros j Hj. exact (Hall j _ (Hpass j Hj)).
  - intros j Hj. assert (Hjn : (j < n)%nat) by lia.
    exact (Hbefore j _ Hj (Hpass j Hjn)).
Qed.

Lemma gz_passes_length feed n w : length (gz_passes feed n w) = n.
Proof.
  revert w. induction n as [|n IH]; intros w; [reflexivity|].
  cbn [gz_passes]. destruct (gz_window feed w) as [w' v]. cbn [length].
  rewrite IH. reflexivity.
Qed.

Section GyroZeroSearch.

Context {hdr : Header} {pid : IntPID_ops} {imu_ops : QuatIMU_ops}
        {sens_ops : Sensors_ops} {prefs_ops : Prefs_ops}.

Variable feed : nat -> Z -> Z.

(** The gyro registers are 16 bits wide. *)
Hypothesis feed_16 : forall n r, -32768 <= feed n r <= 32767.

(** The window kept, among the first [n] of a search on 16-bit readings. *)
Lemma first_least_closed n b v :
  first_least (gz_passes feed n (win gz_initial)) b v ->
  exists k, (k < n)%nat
    /\ b = [gz_mean feed (195 * k) 0; gz_mean feed (195 * k) 1; gz_mean feed (195 * k) 2]
    /\ v = Z.max (Z.max (Z.abs (gz_var feed (195 * k) 0)) (Z.abs (gz_var feed (195 * k) 1)))
                 (Z.abs (gz_var feed (195 * k) 2))
    /\ (forall j, (j < n)%nat ->
          v <= Z.max (Z.max (Z.abs (gz_var feed (195 * j) 0))
                            (Z.abs (gz_var feed (195 * j) 1)))
                     (Z.abs (gz_var feed (195 * j) 2)))
    /\ (forall j, (j < k)%nat ->
          v < Z.max (Z.max (Z.abs (gz_var feed (195 * j) 0))
                           (Z.abs (gz_var feed (195 * j) 1)))
                    (Z.abs (gz_var feed (195 * j) 2))).
Proof.
  intros H.
  exact (first_least_indexed (gz_passes feed n (win gz_initial)) n
           (fun k => [gz_mean feed (195 * k) 0; gz_mean feed (195 * k) 1;
                      gz_mean feed (195 * k) 2])
           (fun k => Z.max (Z.max (Z.abs (gz_var feed (195 * k) 0))
                                  (Z.abs (gz_var feed (195 * k) 1)))
                           (Z.abs (gz_var feed (195 * k) 2)))
           b v (gz_passes_length feed n (win gz_initial))
           (fun j Hj => passes_closed feed feed_16 n (win gz_initial) j
                          eq_refl eq_refl eq_refl Hj)
           H).
Qed.

Lemma FindGyroZero_best (s : State) a b c :
  best (gz_search feed) = [a; b; c] ->
  GyroZX (FindGyroZero feed s) = a
  /\ GyroZY (FindGyroZero feed s) = b
  /\ GyroZZ (FindGyroZero feed s) = c
  /\ imu (FindGyroZero feed s) = QuatIMU_SetGyroZero a b c (imu s).
Proof.
  intros H. rewrite FindGyroZero_eq. generalize dependent (gz_search feed). intros g H.
  st_simpl. norm_proj. rewrite H. repeat split.
Qed.

(** C3: FindGyroZero on 16-bit gyro readings.  The sampling loop makes
    between MinTries = 2 and MaxTries = 64 passes (the loop test holds after
    every pass but the last and fails after the last), and when it stops
    the best variation is at most 2 or the number of passes is 64.  Pass
    [k] samples the reads 195 k to 195 k + 194; its variation is the
    largest, over the three axes, of |(max + min) / 2 - mean|, the mean
    being the sum of the 64 samples of the axis divided by 64 and both
    divisions truncating.  The zeros published to GyroZX, GyroZY, GyroZZ and
    to the IMU are the three means of a pass whose variation is the least
    of all passes made, the first such pass. *)
Theorem gyro_zero_search :
  let g := gz_search feed in
  let n := Z.to_nat (TryCounter g) in
  2 <= TryCounter g <= 64
  /\ g = Nat.iter n (gz_body feed) gz_initial
  /\ (forall j, (0 < j < n)%nat -> gz_continue (Nat.iter j (gz_body feed) gz_initial) = true)
  /\ gz_continue g = false
  /\ (bestvar g <= 2 \/ TryCounter g = 64)
  /\ exists k, (k < n)%nat
       /\ bestvar g
          = Z.max (Z.max (Z.abs (gz_var feed (195 * k) 0)) (Z.abs (gz_var feed (195 * k) 1)))
                  (Z.abs (gz_var feed (195 * k) 2))
       /\ (forall j, (j < n)%nat ->
             bestvar g
             <= Z.max (Z.max (Z.abs (gz_var feed (195 * j) 0))
                             (Z.abs (gz_var feed (195 * j) 1)))
                      (Z.abs (gz_var feed (195 * j) 2)))
       /\ (forall j, (j < k)%nat ->
             bestvar g
             < Z.max (Z.max (Z.abs (gz_var feed (195 * j) 0))
                            (Z.abs (gz_var feed (195 * j) 1)))
                     (Z.abs (gz_var feed (195 * j) 2)))
       /\ forall s : State,
            GyroZX (FindGyroZero feed s) = gz_mean feed (195 * k) 0
            /\ GyroZY (FindGyroZero feed s) = gz_mean feed (195 * k) 1
            /\ GyroZZ (FindGyroZero feed s) = gz_mean feed (195 * k) 2
            /\ imu (FindGyroZero feed s)
               = QuatIMU_SetGyroZero (gz_mean feed (195 * k) 0) (gz_mean feed (195 * k) 1)
                   (gz_mean feed (195 * k) 2) (imu s).
Proof.
  cbv zeta. destruct (gz_search_iter feed) as (k0 & Hk0 & Heq & HT & Hall & Hstop).
  pose proof (select_iter feed k0) as Hsel. rewrite <- Heq in Hsel.
  apply first_least_closed in Hsel.
  pose proof (bestvar_iter feed k0) as Hpos. rewrite <- Heq in Hpos.
  rewrite HT, Nat2Z.id.
  split; [clear - Hk0; lia|]. split; [exact Heq|]. split.
  { intros j Hj. destruct j as [|j]; [clear - Hj; lia|]. apply Hall. clear - Hj. lia. }
  split; [exact Hstop|]. split.
  { destruct (Z.eq_dec (Z.of_nat (S k0)) 64) as [E|E]; [right; exact E|left].
    apply continue_false; [exact Hstop|]. rewrite HT. clear - Hk0 E. lia. }
  destruct Hsel as (k & Hk & Hb & Hv & Hmin & Hfirst).
  exists k. split; [exact Hk|]. split; [exact Hv|]. split; [exact Hmin|].
  split; [exact Hfirst|].
  intros s. apply FindGyroZero_best. exact Hb.
Qed.

End GyroZeroSearch.

(** ** A craft at rest *)

Lemma map_const_replicate {A B : Type} (x : B) (l : list A) :
  map (fun _ => x) l = replicate (length l) x.
Proof. induction l as [|y l IH]; [reflexivity|]. cbn. rewrite IH. reflexivity. Qed.

Lemma fold_min_replicate n x : fold_left Z.min (replicate n x) x = x.
Proof. induction n as [|n IH]; [reflexivity|]. cbn. rewrite Z.min_id. exact IH. Qed.

Lemma fold_max_replicate n x : fold_left Z.max (replicate n x) x = x.
Proof. induction n as [|n IH]; [reflexivity|]. cbn. rewrite Z.max_id. exact IH. Qed.

Lemma fold_add_replicate n x a :
  fold_left Z.add (replicate n x) a = a + Z.of_nat n * x.
Proof.
  revert a. induction n as [|n IH]; intros a; [cbn; lia|].
  cbn [replicate fold_left]. rewrite IH. lia.
Qed.

Section Still.

Context {hdr : Header} {pid : IntPID_ops} {imu_ops : QuatIMU_ops}
        {sens_ops : Sensors_ops} {prefs_ops : Prefs_ops}.

Variable feed : nat -> Z -> Z.
Variable c : Z -> Z.

(** Every read of a register gives the same 16-bit value. *)
Hypothesis feed_still : forall n r, feed n r = c r.
Hypothesis c_16 : forall r, -32768 <= c r <= 32767.

Lemma still_16 n r : -32768 <= feed n r <= 32767.
Proof. rewrite feed_still. apply c_16. Qed.

Lemma still_samples r a : gz_samples feed r a = replicate 64 (c (1 + Z.of_nat a)).
Proof.
  unfold gz_samples.
  rewrite (map_ext _ (fun _ : nat => c (1 + Z.of_nat a))) by (intros; apply feed_still).
  rewrite map_const_replicate, length_seq. reflexivity.
Qed.

Lemma still_lo r a : gz_lo feed r a = c (1 + Z.of_nat a).
Proof.
  rewrite gz_lo_eq, still_samples. unfold gz_first. rewrite feed_still.
  apply fold_min_replicate.
Qed.

Lemma still_hi r a : gz_hi feed r a = c (1 + Z.of_nat a).
Proof.
  rewrite gz_hi_eq, still_samples. unfold gz_first. rewrite feed_still.
  apply fold_max_replicate.
Qed.

Lemma still_mean r a : gz_mean feed r a = c (1 + Z.of_nat a).
Proof.
  rewrite gz_mean_eq, still_samples, fold_add_replicate.
  change (0 + Z.of_nat 64 * c (1 + Z.of_nat a)) with (64 * c (1 + Z.of_nat a)).
  rewrite Z.mul_comm. apply Z.quot_mul. lia.
Qed.

Lemma still_var r a : gz_var feed r a = 0.
Proof.
  rewrite gz_var_eq, still_hi, still_lo, still_mean.
  replace (c (1 + Z.of_nat a) + c (1 + Z.of_nat a)) with (c (1 + Z.of_nat a) * 2) by lia.
  rewrite Z.quot_mul by lia. lia.
Qed.

Lemma still_window w :
  length (vmin w) = 3%nat -> length (vmax w) = 3%nat -> length (avg w) = 3%nat ->
  gz_window feed w =
  (mkGyroWindow (reads w + 195) [c 1; c 2; c 3] [c 1; c 2; c 3] [c 1; c 2; c 3], 0).
Proof.
  intros H1 H2 H3. rewrite (gz_window_closed feed still_16 w H1 H2 H3).
  rewrite !still_lo, !still_hi, !still_mean, !still_var. reflexivity.
Qed.

Lemma still_pass w :
  length (vmin w) = 3%nat -> length (vmax w) = 3%nat -> length (avg w) = 3%nat ->
  gz_passes feed 1 w = [([c 1; c 2; c 3], 0)].
Proof.
  intros H1 H2 H3. rewrite gz_passes_S, (still_window w H1 H2 H3). reflexivity.
Qed.

Lemma continue_done g : TryCounter g = 2 -> bestvar g = 0 -> gz_continue g = false.
Proof. intros H1 H2. unfold gz_continue. rewrite H1, H2. reflexivity. Qed.

Lemma gz_loop_two fuel g :
  gz_continue (gz_body feed g) = true ->
  gz_continue (gz_body feed (gz_body feed g)) = false ->
  gz_loop feed (S fuel) g = gz_body feed (gz_body feed g).
Proof.
  intros H1 H2. cbn [gz_loop]. cbv zeta. rewrite H1.
  destruct fuel as [|fuel]; cbn [gz_loop]; cbv zeta; [reflexivity|].
  rewrite H2. reflexivity.
Qed.

Lemma still_search :
  TryCounter (gz_search feed) = 2
  /\ best (gz_search feed) = [c 1; c 2; c 3]
  /\ bestvar (gz_search feed) = 0
  /\ beeps (gz_search feed) = [].
Proof.
  (* first pass *)
  pose proof (body_first feed gz_initial eq_refl) as P1.
  rewrite (still_pass (win gz_initial) eq_refl eq_refl eq_refl) in P1.
  pose proof (win_body feed gz_initial) as W1.
  rewrite (still_window (win gz_initial) eq_refl eq_refl eq_refl) in W1. cbn [fst] in W1.
  pose proof (TryCounter_body feed gz_initial) as T1.
  pose proof (beeps_body feed gz_initial) as B1.
  change (TryCounter gz_initial) with 0 in T1, B1.
  change (int32 (0 + 1)) with 1 in T1. change (Z.land 0 3 =? 3) with false in B1.
  change (beeps gz_initial) with (@nil Event) in B1.
  remember (gz_body feed gz_initial) as g1 eqn:E1.
  injection P1 as Hb1 Hv1. symmetry in Hb1, Hv1.
  (* second pass *)
  destruct (body_next feed g1) as (p & Hp & Hb2 & Hv2); [rewrite Hv1; lia|].
  rewrite still_pass in Hp by (rewrite W1; reflexivity).
  injection Hp as <-. cbn [fst snd] in Hb2, Hv2.
  rewrite Hv1 in Hb2, Hv2. change (0 <? 0) with false in Hb2, Hv2.
  pose proof (TryCounter_body feed g1) as T2. rewrite T1 in T2.
  change (int32 (1 + 1)) with 2 in T2.
  pose proof (beeps_body feed g1) as B2. rewrite T1, B1 in B2.
  change (Z.land 1 3 =? 3) with false in B2.
  assert (G1 : gz_continue g1 = true) by (apply continue_first; exact T1).
  assert (G2 : gz_continue (gz_body feed g1) = false)
    by (apply continue_done; [exact T2|exact Hv2]).
  rewrite gz_search_eq.
  rewrite (gz_loop_two 62 gz_initial).
  - rewrite <- E1, T2, Hb2, Hb1, Hv2, B2. repeat split.
  - rewrite <- E1. exact G1.
  - rewrite <- E1. exact G2.
Qed.

(** X17: a craft at rest.  When every read of a gyro register gives the
    same 16-bit value, the search makes exactly MinTries (2) passes, does
    not beep, and FindGyroZero publishes those values as the zero of the
    three axes, changing nothing else. *)
Theorem gyro_zero_at_rest :
  forall s : State,
    TryCounter (gz_search feed) = 2
    /\ FindGyroZero feed s =
       s <| GyroZX := c 1 |> <| GyroZY := c 2 |> <| GyroZZ := c 3 |>
         <| imu := QuatIMU_SetGyroZero (c 1) (c 2) (c 3) (imu s) |>.
Proof.
  intros s. destruct still_search as (HT & Hb & _ & HB). split; [exact HT|].
  rewrite FindGyroZero_eq, Hb, HB, app_nil_r. reflexivity.
Qed.

End Still.

(** The closed form on the bench: window 1 of a search fed the reading 7
    on every register. *)
Lemma gyro_pass_closed_form_witness :
  (forall (n : nat) (r : Z), -32768 <= (fun (_ : nat) (_ : Z) => 7) n r <= 32767)
  /\ (1 < 2)%nat
  /\ gz_passes (fun _ _ => 7) 2 (win gz_initial) !! 1%nat =
     Some ([gz_mean (fun _ _ => 7) (195 * 1) 0; gz_mean (fun _ _ => 7) (195 * 1) 1;
            gz_mean (fun _ _ => 7) (195 * 1) 2],
           Z.max (Z.max (Z.abs (gz_var (fun _ _ => 7) (195 * 1) 0))
                        (Z.abs (gz_var (fun _ _ => 7) (195 * 1) 1)))
                 (Z.abs (gz_var (fun _ _ => 7) (195 * 1) 2))).
Proof.
  assert (H1 : forall (n : nat) (r : Z), -32768 <= (fun (_ : nat) (_ : Z) => 7) n r <= 32767)
    by (intros n r; cbv beta; lia).
  assert (H2 : (1 < 2)%nat) by lia.
  split; [exact H1|]. split; [exact H2|].
  exact (gyro_pass_closed_form (fun _ _ => 7) H1 2 1 H2).
Defined.

(** The craft at rest on the bench: every register reads 7. *)
Lemma gyro_zero_at_rest_witness :
  (forall (n : nat) (r : Z), (fun (_ : nat) (_ : Z) => 7) n r = (fun _ : Z => 7) r)
  /\ (forall r : Z, -32768 <= (fun _ : Z => 7) r <= 32767)
  /\ TryCounter (gz_search (fun _ _ => 7)) = 2
  /\ FindGyroZero (pid := Bench.pid) (imu_ops := Bench.quatimu) (sens_ops := Bench.sensors)
       (prefs_ops := Bench.prefs_store) (fun _ _ => 7) (Bench.started 2 2 8500) =
     (Bench.started 2 2 8500)
       <| GyroZX := 7 |> <| GyroZY := 7 |> <| GyroZZ := 7 |>
       <| imu := QuatIMU_SetGyroZero (QuatIMU_ops := Bench.quatimu) 7 7 7
                   (imu (Bench.started 2 2 8500)) |>.
Proof.
  assert (H1 : forall (n : nat) (r : Z),
             (fun (_ : nat) (_ : Z) => 7) n r = (fun _ : Z => 7) r) by reflexivity.
  assert (H2 : forall r : Z, -32768 <= (fun _ : Z => 7) r <= 32767)
    by (intros r; cbv beta; lia).
  split; [exact H1|]. split; [exact H2|].
  exact (gyro_zero_at_rest (pid := Bench.pid) (imu_ops := Bench.quatimu)
           (sens_ops := Bench.sensors) (prefs_ops := Bench.prefs_store)
           (fun _ _ => 7) (fun _ => 7) H1 H2
           (Bench.started 2 2 8500)).
Defined.

(** The search on the bench: every register reads 7, and the search stops
    after two passes with the zeros at 7. *)
Lemma gyro_zero_search_witness :
  (forall (n : nat) (r : Z), -32768 <= 7 <= 32767)
  /\ 2 <= TryCounter (gz_search (fun _ _ => 7)) <= 64
  /\ (bestvar (gz_search (fun _ _ => 7)) <= 2 \/ TryCounter (gz_search (fun _ _ => 7)) = 64).
Proof.
  assert (H : forall (n : nat) (r : Z), -32768 <= 7 <= 32767) by (intros n r; lia).
  split; [exact H|].
  destruct (gyro_zero_search (pid := Bench.pid) (imu_ops := Bench.quatimu)
              (sens_ops := Bench.sensors) (prefs_ops := Bench.prefs_store)
              (fun _ _ => 7) H) as (A & _ & _ & _ & B & _).
  split; [exact A|exact B].
Defined.

(** A search that does not settle: readings that jump between -500 and 500
    from one read to the next keep the variation of every window above 2,
    and the search gives up after 64 passes and 16 beeps. *)
Example gyro_search_gives_up :
  let shaky := fun (n : nat) (_ : Z) => if Nat.even (n / 7) then 500 else -500 in
  let g := gz_search shaky in
  (TryCounter g, length (beeps g), 2 <? bestvar g) = (64, 16%nat, true).
Proof. vm_compute. reflexivity. Qed.

(** ** The flight loop *)

Lemma shiftr2_nonpos x : x <= 3 -> Z.shiftr x 2 <= 0.
Proof.
  intros Hx. rewrite Z.shiftr_div_pow2 by lia. change (2 ^ 2) with 4.
  Z.div_mod_to_equations. lia.
Qed.

Lemma clamp_nonpos v : v <= 0 -> clamp v 0 64 = 0.
Proof.
  intros Hv. unfold clamp. destruct (v <? 0) eqn:E1.
  - reflexivity.
  - assert (v = 0) by lia. subst v. reflexivity.
Qed.

Lemma mix_X_idle P R Y T a b c d :
  mix_X P R Y 0 T [a; b; c; d] = replicate 4 (int32 T).
Proof.
  unfold mix_X. cbv zeta. rewrite !Z.mul_0_r. change (int32 0) with 0.
  change (Z.shiftr 0 7) with 0. rewrite Z.add_0_r. reflexivity.
Qed.

Section FlightLoop.

Context {hdr : Header} {pid : IntPID_ops} {imu_ops : QuatIMU_ops}
        {sens_ops : Sensors_ops} {prefs_ops : Prefs_ops}.

Lemma arming_view_inv (x : State) p m r e n :
  arming_view x = (p, m, r, e, n) ->
  Prefs x = p /\ FlightMode x = m /\ Radio x = r /\ FlightEnabled x = e
  /\ FlightEnableStep x = n.
Proof. unfold arming_view. intros H. injection H. intros. repeat split; assumption. Qed.

(** X18: an armed controller is disarmed by the disarm gesture alone, held
    for the delay.  On a tick that starts armed, the arming flag is cleared
    exactly when the sticks are in the disarm corner and the hold counter
    reaches DisarmDelay with this tick; with the gesture and a shorter
    hold the counter advances by one; without the gesture the counter goes
    back to zero.  In the last two cases the arming flag stands. *)
Theorem disarm_needs_gesture :
  forall feed (s : State),
    FlightEnabled s <> 0 ->
    (disarm_gesture (Radio s) /\ DisarmDelay (Prefs s) <= int16 (FlightEnableStep s + 1) ->
     FlightEnabled (UpdateFlightLoop feed s) = 0
     /\ FlightEnableStep (UpdateFlightLoop feed s) = 0)
    /\ (disarm_gesture (Radio s) /\ int16 (FlightEnableStep s + 1) < DisarmDelay (Prefs s) ->
        FlightEnabled (UpdateFlightLoop feed s) = FlightEnabled s
        /\ FlightEnableStep (UpdateFlightLoop feed s) = int16 (FlightEnableStep s + 1))
    /\ (~ disarm_gesture (Radio s) ->
        FlightEnabled (UpdateFlightLoop feed s) = FlightEnabled s
        /\ FlightEnableStep (UpdateFlightLoop feed s) = 0).
Proof.
  intros feed s Ha. rewrite (UpdateFlightLoop_armed feed s Ha).
  rewrite UpdateFlightLEDColor_eq.
  set (s0 := s <| LEDModeColor := _ |>).
  assert (HR : Radio s0 = Radio s) by reflexivity.
  assert (HP : Prefs s0 = Prefs s) by reflexivity.
  assert (HN : FlightEnableStep s0 = FlightEnableStep s) by reflexivity.
  assert (HE : FlightEnabled s0 = FlightEnabled s) by reflexivity.
  destruct (armed_sticks_cases s0) as [(s1 & -> & G & D & E1)|[(-> & G & D)|(-> & G)]];
    rewrite HR in G; try rewrite HP, ?HN in D.
  - destruct (arming_view_inv _ _ _ _ _ _ (DisarmFlightMode_arming s1))
      as (_ & _ & _ & A & B).
    split; [intros _; split; assumption|].
    subst s1. st_simpl_in D. split; [intros [_ C]; slia|intros C; contradiction].
  - match goal with |- context [battery_alarm (flight_control ?x)] =>
      destruct (arming_view_inv _ _ _ _ _ _ (flight_control_arming x))
        as (_ & _ & _ & A & B) end.
    rewrite A, B.
    split; [intros [_ C]; slia|]. split; [intros _; split; reflexivity|].
    intros C; contradiction.
  - match goal with |- context [battery_alarm (flight_control ?x)] =>
      destruct (arming_view_inv _ _ _ _ _ _ (flight_control_arming x))
        as (_ & _ & _ & A & B) end.
    rewrite A, B.
    split; [intros [C _]; contradiction|]. split; [intros [C _]; contradiction|].
    intros _. split; reflexivity.
Qed.

(** X19: the compass calibration mode is never entered.  In every run
    from start-up the flight mode is one of the three flying modes, so
    that every tick goes through UpdateFlightLoop and none through
    DoCompassCalibrate. *)
Theorem compass_mode_unreachable :
  forall first feed e (ticks : list TickIn),
    FlightMode (run ticks (main_startup first feed (power_on e)))
    <> FlightMode_CalibrateCompass.
Proof.
  intros first feed e ticks. induction ticks as [|i ticks IH] using rev_ind.
  - destruct (main_startup_state first feed e) as (_ & _ & HF & _).
    unfold run. cbn [fold_left]. rewrite HF. discriminate.
  - rewrite run_snoc.
    destruct (main_loop_body_outcome i _ IH) as (_ & HF & _). exact HF.
Qed.

(** X20: no control authority at idle throttle.  On a tick that starts
    armed with the throttle channel at -1021 or below, the four motor
    values UpdateFlightLoop leaves are equal: the outputs of the roll,
    pitch and yaw controllers do not reach the motors at all. *)
Theorem idle_throttle_no_authority :
  forall feed (s : State),
    FlightEnabled s <> 0 ->
    length (Motor s) = 4%nat ->
    -32768 <= Thro (Radio s) <= -1021 ->
    exists v, Motor (UpdateFlightLoop feed s) = replicate 4 v.
Proof.
  intros feed s Ha HM HT. rewrite (UpdateFlightLoop_armed feed s Ha).
  rewrite UpdateFlightLEDColor_eq.
  set (s0 := s <| LEDModeColor := _ |>).
  assert (Hfc : forall x : State, length (Motor x) = 4%nat ->
                  Thro (Radio x) = Thro (Radio s) ->
                  exists v, Motor (battery_alarm (flight_control x)) = replicate 4 v).
  { intros x Hx HRx. rewrite battery_alarm_Motor.
    destruct (flight_control_stages x)
      as (d & R & P & Y & T & s1 & s2 & s3 & _ & _ & _ & E & _ & H2 & H3).
    rewrite E, drive_motors_Motor.
    assert (HR2 : Radio s2 = Radio x).
    { apply stage_view_control in H2. open_view H2. assumption. }
    assert (HM3 : Motor s3 = Motor x).
    { open_view H3. assumption. }
    rewrite HR2, HRx, HM3.
    rewrite (int32_small (Thro (Radio s) + 1024)) by lia.
    rewrite clamp_nonpos by (apply shiftr2_nonpos; lia).
    destruct (length_4 _ Hx) as (a & b & c & e' & ->).
    rewrite mix_X_idle. cbn [replicate]. rewrite clamp_motors_at.
    eexists. reflexivity. }
  destruct (armed_sticks_cases s0) as [(s1 & -> & _ & _ & E1)|[(-> & _)|(-> & _)]].
  - assert (H1 : length (Motor s1) = 4%nat) by (subst s1; exact HM).
    destruct (length_4 _ H1) as (a & b & c & d & E).
    rewrite (DisarmFlightMode_eq s1 a b c d E). eexists. reflexivity.
  - apply Hfc; [exact HM|reflexivity].
  - apply Hfc; [exact HM|reflexivity].
Qed.

End FlightLoop.

(** On the bench: armed, the sticks in the disarming corner for the second
    tick in a row with a disarm delay of two. *)
Lemma disarm_needs_gesture_witness :
  FlightEnabled ((Bench.armed 8500)
                   <| Radio := mkRADIO [-1000; 1000; -1000; -1000; 0; 0; 0; 0] |>
                   <| FlightEnableStep := 1 |>) <> 0
  /\ FlightEnabled (UpdateFlightLoop (hdr := Bench.header) (fun _ _ => 0)
                      ((Bench.armed 8500)
                         <| Radio := mkRADIO [-1000; 1000; -1000; -1000; 0; 0; 0; 0] |>
                         <| FlightEnableStep := 1 |>)) = 0.
Proof.
  set (s := (Bench.armed 8500) <| Radio := _ |> <| FlightEnableStep := 1 |>).
  assert (H1 : FlightEnabled s <> 0) by (vm_compute; intros H; discriminate H).
  assert (H2 : disarm_gesture (Radio s)
               /\ DisarmDelay (Prefs s) <= int16 (FlightEnableStep s + 1)).
  { vm_compute. repeat split; try reflexivity. intros H; discriminate H. }
  split; [exact H1|].
  destruct (disarm_needs_gesture (hdr := Bench.header) (fun _ _ => 0) s H1) as (A & _).
  exact (proj1 (A H2)).
Defined.

(** On the bench: armed, the throttle stick at the bottom and the other
    three sticks deflected. *)
Lemma idle_throttle_no_authority_witness :
  FlightEnabled ((Bench.armed 8500)
                   <| Radio := mkRADIO [-1024; 300; -200; 100; 0; 0; 0; 0] |>) <> 0
  /\ exists v,
       Motor (UpdateFlightLoop (hdr := Bench.header) (fun _ _ => 0)
                ((Bench.armed 8500)
                   <| Radio := mkRADIO [-1024; 300; -200; 100; 0; 0; 0; 0] |>))
       = replicate 4 v.
Proof.
  set (s := (Bench.armed 8500) <| Radio := _ |>).
  assert (H1 : FlightEnabled s <> 0) by (vm_compute; intros H; discriminate H).
  assert (H2 : length (Motor s) = 4%nat) by (vm_compute; reflexivity).
  assert (H3 : -32768 <= Thro (Radio s) <= -1021)
    by (vm_compute; split; intros H; discriminate H).
  split; [exact H1|].
  exact (idle_throttle_no_authority (hdr := Bench.header) (fun _ _ => 0) s H1 H2 H3).
Defined.

(** ** The battery monitor *)

Section Battery.

Context {hdr : Header} {pid : IntPID_ops} {imu_ops : QuatIMU_ops}
        {sens_ops : Sensors_ops} {prefs_ops : Prefs_ops}.

Lemma control_view_battery (x y : State) :
  control_view x = control_view y ->
  BatteryVolts x = BatteryVolts y /\ BatteryMonitorDelay x = BatteryMonitorDelay y.
Proof.
  unfold control_view. intros H. injection H. intros. split; assumption.
Qed.

Lemma tick_view_battery (x y : State) :
  tick_view x = tick_view y ->
  BatteryVolts x = BatteryVolts y /\ BatteryMonitorDelay x = BatteryMonitorDelay y.
Proof.
  unfold tick_view. intros H. injection H. intros. split; assumption.
Qed.

Lemma select_view_battery (x y : State) :
  select_view x = select_view y ->
  BatteryVolts x = BatteryVolts y /\ BatteryMonitorDelay x = BatteryMonitorDelay y.
Proof.
  unfold select_view. intros H. injection H. intros. split; assumption.
Qed.

Lemma flight_view_battery (x y : State) :
  flight_view x = flight_view y ->
  BatteryVolts x = BatteryVolts y /\ BatteryMonitorDelay x = BatteryMonitorDelay y
  /\ LEDModeColor x = LEDModeColor y.
Proof.
  unfold flight_view. intros H. injection H. intros. repeat split; assumption.
Qed.

Lemma UpdateFlightLoop_battery feed (s : State) :
  BatteryVolts (UpdateFlightLoop feed s) = BatteryVolts s
  /\ BatteryMonitorDelay (UpdateFlightLoop feed s) = BatteryMonitorDelay s.
Proof.
  destruct (Z.eq_dec (FlightEnabled s) 0) as [Hd|Ha].
  - rewrite (UpdateFlightLoop_disarmed feed s Hd).
    destruct (battery_alarm_eq (disarmed_sticks feed (UpdateFlightLEDColor s))) as [t ->].
    rewrite UpdateFlightLEDColor_eq.
    set (s0 := s <| LEDModeColor := _ |>).
    destruct (disarmed_sticks_cases feed s0)
      as [(_ & _ & ->)|[(_ & _ & ->)|[(_ & _ & ->)|(_ & _ & ->)]]];
      [rewrite ArmFlightMode_eq; generalize (gz_search feed); intros g| | |];
      split; reflexivity.
  - rewrite (UpdateFlightLoop_armed feed s Ha).
    rewrite UpdateFlightLEDColor_eq.
    set (s0 := s <| LEDModeColor := _ |>).
    destruct (armed_sticks_cases s0) as [(s1 & -> & _ & _ & ->)|[(-> & _)|(-> & _)]].
    + unfold DisarmFlightMode, All_LED, Beep3, Servo32_Set, emit. split; reflexivity.
    + match goal with |- context [battery_alarm (flight_control ?x)] =>
        destruct (control_view_battery _ _ (battery_alarm_control (flight_control x)))
          as [A1 A2];
        destruct (control_view_battery _ _ (flight_control_control x)) as [B1 B2] end.
      rewrite A1, A2, B1, B2. split; reflexivity.
    + match goal with |- context [battery_alarm (flight_control ?x)] =>
        destruct (control_view_battery _ _ (battery_alarm_control (flight_control x)))
          as [A1 A2];
        destruct (control_view_battery _ _ (flight_control_control x)) as [B1 B2] end.
      rewrite A1, A2, B1, B2. split; reflexivity.
Qed.

(** The battery monitor during the start-up delay. *)
Lemma battery_monitor_waiting b (x : State) :
  UseBattMon (Prefs x) <> 0 -> 0 < BatteryMonitorDelay x <= 32767 ->
  battery_monitor b x =
  x <| BatteryMonitorDelay := BatteryMonitorDelay x - 1 |> <| LEDModeColor := LED_Blue |>.
Proof.
  intros Hu Hd. unfold battery_monitor.
  apply Z.eqb_neq in Hu. rewrite Hu. cbn [negb].
  destruct (BatteryMonitorDelay x >? 0) eqn:E; [|lia].
  cbv zeta. rewrite int16_small by lia. reflexivity.
Qed.

(** What reaches the battery monitor is the battery state the tick started
    with. *)
Lemma flight_tick_waiting i (s : State) :
  UseBattMon (Prefs s) <> 0 -> 0 < BatteryMonitorDelay s <= 32767 ->
  BatteryVolts (flight_tick i s) = BatteryVolts s
  /\ BatteryMonitorDelay (flight_tick i s) = BatteryMonitorDelay s - 1
  /\ LEDModeColor (flight_tick i s) = LED_Blue
  /\ LEDValue (flight_tick i s) = replicate LED_COUNT LED_Blue.
Proof.
  intros Hu Hd. unfold flight_tick. cbv zeta.
  remember (if negb (UseSBUS (Prefs (intake i s)) =? 0)
            then read_radio (in_SBUS_GetRC i) (intake i s)
            else read_radio (in_RC_GetRC i) (intake i s)) as s2 eqn:E2.
  assert (Hv2 : tick_view s2 = tick_view s).
  { subst s2. destruct (negb _); rewrite read_radio_tick; apply intake_tick. }
  clear E2.
  remember (if bool_decide (FlightMode s2 = FlightMode_CalibrateCompass)
            then DoCompassCalibrate s2
            else UpdateFlightLoop (in_Sensors_In i) (select_flight_mode s2)) as s4 eqn:E4.
  assert (H4 : BatteryVolts s4 = BatteryVolts s
               /\ BatteryMonitorDelay s4 = BatteryMonitorDelay s /\ Prefs s4 = Prefs s).
  { destruct (tick_view_battery _ _ Hv2) as [A1 A2].
    pose proof (tick_view_link _ _ Hv2) as L2. apply link_view_inv in L2.
    destruct L2 as (_ & _ & _ & P2 & _).
    subst s4. destruct (bool_decide _).
    - unfold DoCompassCalibrate. repeat split; assumption.
    - destruct (UpdateFlightLoop_battery (in_Sensors_In i) (select_flight_mode s2)) as [B1 B2].
      destruct (select_view_battery _ _ (select_flight_mode_select s2)) as [S1 S2].
      pose proof (UpdateFlightLoop_link (in_Sensors_In i) (select_flight_mode s2)) as L4.
      apply link_view_inv in L4. destruct L4 as (_ & _ & _ & P4 & _).
      pose proof (select_view_link _ _ (select_flight_mode_select s2)) as L3.
      apply link_view_inv in L3. destruct L3 as (_ & _ & _ & P3 & _).
      rewrite B1, B2, S1, S2, P4, P3. repeat split; assumption. }
  clear E4. destruct H4 as (V4 & D4 & P4).
  rewrite battery_monitor_waiting by (rewrite ?P4, ?D4; assumption).
  unfold All_LED. st_simpl. norm_proj. rewrite V4, D4. repeat split.
Qed.

Lemma DoDebugModeOutput_Prefs late phase (s : State) :
  Prefs (DoDebugModeOutput late phase s) = Prefs s.
Proof.
  assert (H : forall port ph (x : State), Prefs (debug_output port ph late x) = Prefs x).
  { intros port ph x. unfold debug_output. destruct (Mode x =? MODE_None); [reflexivity|].
    cbv zeta. rewrite motor_test_frame by (intros; reflexivity).
    destruct (Mode x =? MODE_SensorTest); [|reflexivity].
    destruct (sensor_test_packet_eq port ph x) as [t ->]. reflexivity. }
  unfold DoDebugModeOutput.
  destruct (UsbPulse s >? 0).
  { cbv zeta. match goal with |- context [if ?c then _ else _] => destruct c end;
      [reflexivity|]. rewrite H. reflexivity. }
  destruct (XBeePulse s >? 0).
  { cbv zeta. match goal with |- context [if ?c then _ else _] => destruct c end;
      [reflexivity|]. rewrite H. reflexivity. }
  apply H.
Qed.

Lemma counter_battery (y : State) c :
  BatteryVolts (y <| counter := c |>) = BatteryVolts y
  /\ BatteryMonitorDelay (y <| counter := c |>) = BatteryMonitorDelay y
  /\ LEDModeColor (y <| counter := c |>) = LEDModeColor y
  /\ Prefs (y <| counter := c |>) = Prefs y.
Proof. repeat split. Qed.

Lemma update_estimates_battery (y : State) :
  BatteryVolts (update_estimates y) = BatteryVolts y
  /\ BatteryMonitorDelay (update_estimates y) = BatteryMonitorDelay y
  /\ LEDModeColor (update_estimates y) = LEDModeColor y.
Proof. repeat split. Qed.

Lemma receive_flight i (y : State) : flight_view (receive i y) = flight_view y.
Proof. reflexivity. Qed.

(** A whole tick during the start-up delay. *)
Lemma main_loop_body_waiting i (s : State) :
  UseBattMon (Prefs s) <> 0 -> 0 < BatteryMonitorDelay s <= 32767 ->
  BatteryVolts (main_loop_body i s) = BatteryVolts s
  /\ BatteryMonitorDelay (main_loop_body i s) = BatteryMonitorDelay s - 1
  /\ LEDModeColor (main_loop_body i s) = LED_Blue.
Proof.
  intros Hu Hd. destruct (flight_tick_waiting i s Hu Hd) as (V1 & D1 & L1 & _).
  rewrite main_loop_body_output. unfold before_output.
  destruct (update_estimates_battery (flight_tick i s)) as (V2 & D2 & L2).
  set (x := update_estimates (flight_tick i s)) in *.
  assert (HF : flight_view (DoDebugModeOutput (in_late0 i) (in_phase i)
                              (CheckDebugInput (receive i x))) = flight_view x).
  { rewrite DoDebugModeOutput_flight, CheckDebugInput_flight. apply receive_flight. }
  destruct (flight_view_battery _ _ HF) as (V3 & D3 & L3).
  set (y := DoDebugModeOutput (in_late0 i) (in_phase i) (CheckDebugInput (receive i x))) in *.
  destruct (counter_battery y (int32 (counter y + 1))) as (V4 & D4 & L4 & _).
  rewrite V4, D4, L4, V3, D3, L3, V2, D2, L2, V1, D1, L1. repeat split.
Qed.

Lemma main_loop_body_quiet_Prefs i (s : State) :
  quiet i -> rx0 s = [] -> rx1 s = [] -> Prefs (main_loop_body i s) = Prefs s.
Proof.
  intros Hq H0 H1. rewrite main_loop_body_output.
  destruct (before_output_quiet i s Hq H0 H1) as [_ HL].
  apply link_view_inv in HL. destruct HL as (_ & _ & _ & HP & _).
  set (y := DoDebugModeOutput (in_late0 i) (in_phase i) (before_output i s)).
  destruct (counter_battery y (int32 (counter y + 1))) as (_ & _ & _ & P4).
  rewrite P4. subst y. rewrite DoDebugModeOutput_Prefs. exact HP.
Qed.

Lemma run_quiet_Prefs ticks (s : State) :
  Forall quiet ticks -> rx0 s = [] -> rx1 s = [] -> Prefs (run ticks s) = Prefs s.
Proof.
  intros Hq H0 H1. induction ticks as [|i ticks IH] using rev_ind; [reflexivity|].
  apply Forall_app in Hq. destruct Hq as [Hq Hi]. apply Forall_inv in Hi.
  destruct (run_quiet_queues ticks s Hq H0 H1) as [Q0 Q1].
  rewrite run_snoc, main_loop_body_quiet_Prefs by assumption. apply IH. exact Hq.
Qed.

(** X21: the start-up delay of the battery monitor.  With the monitor in
    use and no traffic on the link, BatteryMonitorDelay goes down by one
    per tick until it is 0; as long as it does, the battery voltage is not
    sampled and every tick ends with LEDModeColor at LED_Blue. *)
Theorem battery_startup_delay :
  forall (ticks : list TickIn) (s : State),
    Forall quiet ticks -> rx0 s = [] -> rx1 s = [] ->
    UseBattMon (Prefs s) <> 0 ->
    0 <= BatteryMonitorDelay s <= 32767 ->
    Z.of_nat (length ticks) <= BatteryMonitorDelay s ->
    BatteryMonitorDelay (run ticks s) = BatteryMonitorDelay s - Z.of_nat (length ticks)
    /\ BatteryVolts (run ticks s) = BatteryVolts s
    /\ (ticks <> [] -> LEDModeColor (run ticks s) = LED_Blue).
Proof.
  intros ticks s Hq H0 H1 Hu Hd. induction ticks as [|i ticks IH] using rev_ind; intros Hk.
  - unfold run. cbn [fold_left length Z.of_nat]. rewrite Z.sub_0_r.
    split; [reflexivity|]. split; [reflexivity|]. intros C. contradiction.
  - rewrite length_app in Hk. cbn [length] in Hk.
    apply Forall_app in Hq. destruct Hq as [Hq Hi]. apply Forall_inv in Hi.
    destruct (IH Hq) as (ID & IV & _); [lia|].
    pose proof (run_quiet_Prefs ticks s Hq H0 H1) as IP.
    rewrite run_snoc.
    destruct (main_loop_body_waiting i (run ticks s)) as (SV & SD & SC).
    + rewrite IP. exact Hu.
    + rewrite ID. lia.
    + rewrite SV, SD, SC, ID, IV, length_app. cbn [length].
      split; [lia|]. split; [reflexivity|]. intros _. reflexivity.
Qed.

End Battery.

(** On the bench: ten quiet ticks after start-up. *)
Lemma battery_startup_delay_witness :
  Forall quiet (replicate 10 Bench.centred)
  /\ UseBattMon (Prefs (Bench.started 2 2 8500)) <> 0
  /\ Z.of_nat (length (replicate 10 Bench.centred))
     <= BatteryMonitorDelay (Bench.started 2 2 8500)
  /\ BatteryMonitorDelay (run (hdr := Bench.header) (replicate 10 Bench.centred)
                            (Bench.started 2 2 8500)) = 486
  /\ BatteryVolts (run (hdr := Bench.header) (replicate 10 Bench.centred)
                     (Bench.started 2 2 8500)) = 0.
Proof.
  set (s := Bench.started 2 2 8500). set (ticks := replicate 10 Bench.centred).
  assert (H1 : Forall quiet ticks) by (apply Forall_replicate; split; reflexivity).
  assert (H2 : rx0 s = []) by (vm_compute; reflexivity).
  assert (H3 : rx1 s = []) by (vm_compute; reflexivity).
  assert (H4 : UseBattMon (Prefs s) <> 0) by (vm_compute; intros H; discriminate H).
  assert (H5 : 0 <= BatteryMonitorDelay s <= 32767) by (vm_compute; split; discriminate).
  assert (H6 : Z.of_nat (length ticks) <= BatteryMonitorDelay s) by (vm_compute; discriminate).
  split; [exact H1|]. split; [exact H4|]. split; [exact H6|].
  destruct (battery_startup_delay (hdr := Bench.header) ticks s H1 H2 H3 H4 H5 H6)
    as (A & B & _).
  split; [rewrite A|rewrite B]; vm_compute; reflexivity.
Defined.
(** ** The state the main loop starts from *)

Lemma land_lnot_15 x : Z.land x (Z.lnot 15) = 16 * (x / 16).
Proof.
  rewrite <- Z.ldiff_land. change 15 with (Z.ones 4).
  rewrite Z.ldiff_ones_r by lia.
  rewrite Z.shiftr_div_pow2, Z.shiftl_mul_pow2 by lia. change (2 ^ 4) with 16. lia.
Qed.

Section Startup.

Context {hdr : Header} {pid : IntPID_ops} {imu_ops : QuatIMU_ops}
        {sens_ops : Sensors_ops} {prefs_ops : Prefs_ops}.



Lemma InitializePrefs_boot (s : State) : boot_view (InitializePrefs s) = boot_view s.
Proof.
  unfold InitializePrefs, do_Prefs_Load. destruct (Prefs_Load _ _) as [ok p].
  rewrite ApplyPrefs_eq. reflexivity.
Qed.

Lemma start_servos_boot (s : State) : boot_view (start_servos s) = boot_view s.
Proof.
  unfold start_servos. cbv zeta. rewrite for_loop_frame; [reflexivity|].
  intros i x. reflexivity.
Qed.

Lemma start_servos_delay (s : State) :
  BatteryMonitorDelay (start_servos s)
  = int16 (Z.land (int32 (Const_UpdateRate * 2)) (Z.lnot 15)).
Proof.
  unfold start_servos. cbv zeta. rewrite for_loop_frame; [reflexivity|].
  intros i x. reflexivity.
Qed.

Lemma Initialize_boot feed (s : State) :
  boot_view (Initialize feed s) = boot_view (reset_variables s).
Proof.
  unfold Initialize. cbv zeta. rewrite FindGyroZero_eq.
  generalize (gz_search feed). intros g.
  change (boot_view (?x <| trace := _ |> <| GyroZX := _ |> <| GyroZY := _ |>
                        <| GyroZZ := _ |> <| imu := _ |>))
    with (boot_view x).
  change (boot_view (init_controllers ?x)) with (boot_view x).
  rewrite start_servos_boot, InitializePrefs_boot. reflexivity.
Qed.

Lemma Initialize_delay feed (s : State) :
  BatteryMonitorDelay (Initialize feed s)
  = int16 (Z.land (int32 (Const_UpdateRate * 2)) (Z.lnot 15)).
Proof.
  unfold Initialize. cbv zeta. rewrite FindGyroZero_eq.
  generalize (gz_search feed). intros g.
  change (BatteryMonitorDelay (?x <| trace := _ |> <| GyroZX := _ |> <| GyroZY := _ |>
                                  <| GyroZZ := _ |> <| imu := _ |>))
    with (BatteryMonitorDelay x).
  change (BatteryMonitorDelay (init_controllers ?x)) with (BatteryMonitorDelay x).
  apply start_servos_delay.
Qed.

Lemma main_startup_boot first feed (s : State) :
  boot_view (main_startup first feed s) = boot_view (reset_variables s)
  /\ BatteryMonitorDelay (main_startup first feed s)
     = int16 (Z.land (int32 (Const_UpdateRate * 2)) (Z.lnot 15))
  /\ counter (main_startup first feed s) = 0
  /\ sens (main_startup first feed s) = first.
Proof.
  unfold main_startup. cbv zeta.
  pose proof (Initialize_boot feed s) as HB.
  pose proof (Initialize_delay feed s) as HD.
  generalize dependent (Initialize feed s). intros x HB HD.
  rewrite !for_loop_frame by (intros i y; reflexivity).
  split; [exact HB|]. split; [exact HD|]. split; reflexivity.
Qed.


(** X23: for an update rate between 0 and 16383 ticks per second the
    battery monitor's start-up delay is the rate times two rounded down to
    a multiple of 16. *)
Theorem startup_battery_delay :
  forall (first : SENS) (feed : nat -> Z -> Z) (s : State),
    0 <= Const_UpdateRate <= 16383 ->
    BatteryMonitorDelay (main_startup first feed s) = 16 * (Const_UpdateRate / 8).
Proof.
  intros first feed s HR.
  destruct (main_startup_boot first feed s) as (_ & HD & _). rewrite HD. clear HD.
  generalize dependent Const_UpdateRate. intros r HR.
  rewrite int32_small by lia. rewrite land_lnot_15.
  replace (r * 2 / 16) with (r / 8)
    by (rewrite <- (Z.div_mul_cancel_r r 8 2) by lia; reflexivity).
  apply int16_small.
  pose proof (Z.mul_div_le r 8 ltac:(lia)).
  pose proof (Z.div_pos r 8 ltac:(lia) ltac:(lia)). lia.
Qed.

End Startup.

Lemma startup_battery_delay_witness :
  BatteryMonitorDelay (Bench.started 2 2 8500) = 16 * (Const_UpdateRate (Header := Bench.header) / 8).
Proof.
  unfold Bench.started.
  refine (startup_battery_delay (hdr := Bench.header) _ _ _ _).
  change (0 <= 250 <= 16383). lia.
Defined.
(** ** The receiver channels *)

Lemma length_8 {A} (l : list A) :
  length l = 8%nat -> exists a b c d e f g h, l = [a; b; c; d; e; f; g; h].
Proof.
  intros H. do 8 (destruct l as [|? l]; [discriminate H|]).
  destruct l; [|discriminate H]. eauto 10.
Qed.

Section Radio.

Context {hdr : Header} {pid : IntPID_ops} {imu_ops : QuatIMU_ops}
        {sens_ops : Sensors_ops} {prefs_ops : Prefs_ops}.

Lemma radio_loop GetRC (l : list nat) (s : State) :
  fold_left (fun (x : State) i =>
      let v := Z.quot (int32 ((GetRC (at_ (ChannelIndex (Prefs x)) i)
                               - at_ (ChannelCenter (Prefs x)) i)
                              * at_ (ChannelScale (Prefs x)) i)) 1024 in
      x <| Radio := mkRADIO (<[i := int16 v]> (Channels (Radio x))) |>) l s
  = s <| Radio := mkRADIO
           (fold_left (fun c i =>
              <[i := int16 (Z.quot (int32 ((GetRC (at_ (ChannelIndex (Prefs s)) i)
                                            - at_ (ChannelCenter (Prefs s)) i)
                                           * at_ (ChannelScale (Prefs s)) i)) 1024)]> c)
              l (Channels (Radio s))) |>.
Proof.
  revert s. induction l as [|i l IH]; intros s.
  - cbn [fold_left]. destruct s as [? ? [ch]]. reflexivity.
  - cbn [fold_left]. rewrite IH. reflexivity.
Qed.

(** X24: with eight channel slots in place, reading the receiver replaces
    every channel: channel i becomes the raw value of the receiver input
    that the preferences map to it, less its centre, times its scale in
    32 bits, divided by 1024 towards zero and cut to 16 bits.  What the
    slots held before does not enter, and nothing but the channels
    changes. *)
Theorem radio_scaling :
  forall (GetRC : Z -> Z) (s : State),
    length (Channels (Radio s)) = 8%nat ->
    read_radio GetRC s
    = s <| Radio := mkRADIO
             (map (fun i => int16 (Z.quot (int32 ((GetRC (at_ (ChannelIndex (Prefs s)) i)
                                                   - at_ (ChannelCenter (Prefs s)) i)
                                                  * at_ (ChannelScale (Prefs s)) i)) 1024))
                  (seq 0 8)) |>.
Proof.
  intros GetRC s H.
  destruct (length_8 _ H) as (a & b & c & d & e & f & g & h & E).
  unfold read_radio, for_loop. rewrite radio_loop, E. reflexivity.
Qed.

End Radio.

Lemma radio_scaling_witness :
  Channels (Radio (read_radio (Bench.sticks 100 (-200) 300 (-400) 600) (Bench.started 2 2 8500)))
  = [100; -200; 300; -400; 600; 0; 0; 0].
Proof.
  rewrite radio_scaling by (vm_compute; reflexivity).
  vm_compute. reflexivity.
Defined.
(** ** What the display modes send *)

Lemma phase_usb c : Z.land c 7 = c mod 8.
Proof. change 7 with (Z.ones 3). rewrite Z.land_ones by lia. reflexivity. Qed.

Lemma phase_xbee c :
  Z.lor (Z.land (Z.shiftr c 1) 7) (Z.shiftl (Z.land c 1) 16)
  = (c / 2) mod 8 + 65536 * (c mod 2).
Proof.
  change 7 with (Z.ones 3). change 1 with (Z.ones 1) at 2.
  rewrite !Z.land_ones by lia. rewrite Z.shiftr_div_pow2 by lia.
  change (2 ^ 1) with 2. change (2 ^ 3) with 8.
  pose proof (Z.mod_pos_bound (c / 2) 8 ltac:(lia)) as Ha.
  pose proof (Z.mod_pos_bound c 2 ltac:(lia)) as Hb.
  generalize dependent (c mod 2). generalize dependent ((c / 2) mod 8).
  intros a Ha b Hb.
  assert (Ea : a = 0 \/ a = 1 \/ a = 2 \/ a = 3 \/ a = 4 \/ a = 5 \/ a = 6 \/ a = 7) by lia.
  assert (Eb : b = 0 \/ b = 1) by lia.
  destruct Eb as [-> | ->];
    destruct Ea as [-> | [-> | [-> | [-> | [-> | [-> | [-> | ->]]]]]]]; reflexivity.
Qed.

Lemma odd_mod_2 c : c mod 2 = if Z.odd c then 1 else 0.
Proof. rewrite Zmod_odd. reflexivity. Qed.

Lemma sensor_packet_id_high a : 65536 <= a -> sensor_packet_id a = None.
Proof.
  intros H. unfold sensor_packet_id.
  repeat match goal with |- context [?x =? ?y] =>
    destruct (Z.eqb_spec x y); [lia|] end.
  reflexivity.
Qed.

Section Telemetry.

Context {hdr : Header} {pid : IntPID_ops} {imu_ops : QuatIMU_ops}
        {sens_ops : Sensors_ops} {prefs_ops : Prefs_ops}.

Lemma sensor_test_packet_trace port phase (s : State) :
  exists payload,
    sensor_test_packet port phase s
    = s <| trace := trace s ++ packets port (sensor_packet_id phase) payload |>.
Proof.
  unfold sensor_test_packet, sensor_packet_id, emit, packets.
  repeat match goal with |- context [if ?c then _ else _] => destruct c end;
    try (eexists; reflexivity).
  exists []. rewrite app_nil_r. destruct s. reflexivity.
Qed.

Lemma motor_test_idle late (s : State) : NudgeMotor s = -1 -> motor_test late s = s.
Proof. intros H. unfold motor_test. rewrite H. reflexivity. Qed.

Lemma debug_output_trace port phase late (s : State) :
  NudgeMotor s = -1 ->
  exists payload,
    trace (debug_output port phase late s)
    = trace s ++ (if Mode s =? MODE_None then []
                  else if Mode s =? MODE_SensorTest
                       then packets port (sensor_packet_id phase) payload
                       else []).
Proof.
  intros HN. unfold debug_output.
  destruct (Mode s =? MODE_None); [exists []; rewrite app_nil_r; reflexivity|].
  cbv zeta. destruct (Mode s =? MODE_SensorTest).
  - destruct (sensor_test_packet_trace port phase s) as [payload E]. exists payload.
    rewrite E. rewrite motor_test_idle by exact HN. reflexivity.
  - exists []. rewrite motor_test_idle by exact HN. rewrite app_nil_r. reflexivity.
Qed.

Lemma DoDebugModeOutput_usb late phase (s : State) :
  1 < UsbPulse s <= 32767 ->
  DoDebugModeOutput late phase s
  = debug_output 0 (Z.land (counter s) 7) late (s <| UsbPulse := UsbPulse s - 1 |>).
Proof.
  intros HU. unfold DoDebugModeOutput.
  destruct (Z.gtb_spec (UsbPulse s) 0) as [_|]; [|lia].
  cbv zeta.
  change (UsbPulse (s <| UsbPulse := int16 (UsbPulse s - 1) |>)) with (int16 (UsbPulse s - 1)).
  rewrite int16_small by lia.
  destruct (Z.eqb_spec (UsbPulse s - 1) 0) as [|_]; [lia|]. reflexivity.
Qed.

Lemma DoDebugModeOutput_xbee late phase (s : State) :
  -32768 <= UsbPulse s <= 0 -> 0 < XBeePulse s ->
  DoDebugModeOutput late phase s
  = debug_output 1 (Z.lor (Z.land (Z.shiftr (counter s) 1) 7)
                          (Z.shiftl (Z.land (counter s) 1) 16)) late
      (s <| UsbPulse := int16 (UsbPulse s - 1) |>).
Proof.
  intros HU HX. unfold DoDebugModeOutput.
  destruct (Z.gtb_spec (UsbPulse s) 0) as [|_]; [lia|].
  destruct (Z.gtb_spec (XBeePulse s) 0) as [_|]; [|lia].
  cbv zeta.
  change (UsbPulse (s <| UsbPulse := int16 (UsbPulse s - 1) |>)) with (int16 (UsbPulse s - 1)).
  destruct (Z.eqb_spec (int16 (UsbPulse s - 1)) 0) as [E|_]; [|reflexivity].
  exfalso. destruct (Z.eq_dec (UsbPulse s) (-32768)) as [E1|E1].
  - rewrite E1 in E. vm_compute in E. discriminate E.
  - rewrite int16_small in E by lia. lia.
Qed.

(** X25: while the USB heartbeat is above one and no motor test is pending,
    a tick sends over USB at most one packet, and only in the sensor-test
    mode: the packet of position (counter mod 8) of the cycle radio and
    battery, debug value, raw sensors, nothing, quaternion, motors,
    computed values, desired quaternion. *)
Theorem telemetry_cycle_usb :
  forall (late : Z * Z) (phase : Z) (s : State),
    NudgeMotor s = -1 ->
    1 < UsbPulse s <= 32767 ->
    exists payload,
      trace (DoDebugModeOutput late phase s)
      = trace s ++ (if Mode s =? MODE_None then []
                    else if Mode s =? MODE_SensorTest
                         then packets 0 (sensor_packet_id (counter s mod 8)) payload
                         else []).
Proof.
  intros late phase s HN HU. rewrite DoDebugModeOutput_usb by exact HU.
  rewrite <- phase_usb.
  set (x := s <| UsbPulse := UsbPulse s - 1 |>).
  destruct (debug_output_trace 0 (Z.land (counter s) 7) late x HN) as [payload E].
  exists payload. rewrite E. reflexivity.
Qed.

(** X26: while only the XBee heartbeat is running and no motor test is
    pending, nothing is sent on a tick whose counter is odd; on an even
    counter the sensor-test mode sends to the XBee port the packet of
    position ((counter / 2) mod 8) of the same cycle, so the cycle takes
    sixteen ticks. *)
Theorem telemetry_cycle_xbee :
  forall (late : Z * Z) (phase : Z) (s : State),
    NudgeMotor s = -1 ->
    -32768 <= UsbPulse s <= 0 ->
    0 < XBeePulse s ->
    exists payload,
      trace (DoDebugModeOutput late phase s)
      = trace s ++ (if Mode s =? MODE_None then []
                    else if Mode s =? MODE_SensorTest
                         then (if Z.odd (counter s) then []
                               else packets 1 (sensor_packet_id ((counter s / 2) mod 8)) payload)
                         else []).
Proof.
  intros late phase s HN HU HX. rewrite DoDebugModeOutput_xbee by assumption.
  set (x := s <| UsbPulse := int16 (UsbPulse s - 1) |>).
  destruct (debug_output_trace 1
              (Z.lor (Z.land (Z.shiftr (counter s) 1) 7) (Z.shiftl (Z.land (counter s) 1) 16))
              late x HN) as [payload E].
  exists payload. rewrite E. clear E.
  change (trace x) with (trace s). change (Mode x) with (Mode s).
  rewrite phase_xbee, odd_mod_2.
  destruct (Z.odd (counter s)); [|rewrite Z.add_0_r; reflexivity].
  rewrite sensor_packet_id_high; [reflexivity|].
  pose proof (Z.mod_pos_bound (counter s / 2) 8 ltac:(lia)). lia.
Qed.

Lemma S4_Get_0 late (x : State) :
  S4_Get 0 late x = (hd late (rx0 x), x <| rx0 := tail (rx0 x) |>).
Proof.
  unfold S4_Get, rx, set_rx. change (0 =? 0) with true. cbv iota.
  destruct (rx0 x) eqn:Q; cbn [hd tail]; [|reflexivity].
  f_equal. destruct x. cbn in Q. subst. reflexivity.
Qed.

(** X27: the throttle calibration of the speed controllers (motor test 6)
    beeps four times and takes one byte from the USB port, waiting for it
    if none is queued.  Only if that byte is 0xFF are the four motors sent
    the maximum throttle, a second byte taken and the four motors sent the
    minimum throttle; after any other byte no motor is commanded at all.
    Either way the request is cleared and nothing else changes. *)
Theorem throttle_calibration_needs_confirmation :
  forall (late : Z * Z) (s : State),
    NudgeMotor s = 6 ->
    let b := hd (fst late) (rx0 s) in
    let all_motors v := map (fun i => E_Servo32_Set (at_ (MotorPin s) i) v) (seq 0 4) in
    motor_test late s
    = s <| trace := trace s ++ replicate 4 (E_BeepHz 4500 100)
                    ++ (if b =? 255
                        then all_motors (MaxThrottle (Prefs s)) ++ all_motors (MinThrottle (Prefs s))
                        else []) |>
        <| rx0 := if b =? 255 then tail (tail (rx0 s)) else tail (rx0 s) |>
        <| NudgeMotor := -1 |>.
Proof.
  intros late s HN. cbv zeta. unfold motor_test. rewrite HN.
  change (6 >? -1) with true. change (6 <? 4) with false.
  change (6 =? 4) with false. change (6 =? 5) with false. change (6 =? 6) with true.
  cbv beta iota zeta.
  set (s4 := BeepHz 4500 100 (BeepHz 4500 100 (BeepHz 4500 100 (BeepHz 4500 100 s)))).
  rewrite (S4_Get_0 (fst late) s4). change (rx0 s4) with (rx0 s).
  destruct (hd (fst late) (rx0 s) =? 255).
  - rewrite (servo_loop_trace MaxThrottle), S4_Get_0, (servo_loop_trace MinThrottle).
    unfold s4, BeepHz, emit. st_simpl. rewrite <- !app_assoc. reflexivity.
  - unfold s4, BeepHz, emit. st_simpl. rewrite <- !app_assoc. reflexivity.
Qed.

End Telemetry.

(** On the bench: the tick after sensor-test mode was selected over USB
    has counter 1 and sends the debug value. *)
Lemma telemetry_cycle_usb_witness :
  1 < UsbPulse (Bench.linked [2] []) <= 32767
  /\ exists payload,
       trace (DoDebugModeOutput (hdr := Bench.header) (0, 0) 0 (Bench.linked [2] []))
       = trace (Bench.linked [2] []) ++ [E_Packet 0 7 payload].
Proof.
  set (s := Bench.linked [2] []).
  assert (H1 : NudgeMotor s = -1) by (vm_compute; reflexivity).
  assert (H2 : 1 < UsbPulse s <= 32767) by (vm_compute; split; [reflexivity|discriminate]).
  split; [exact H2|].
  destruct (telemetry_cycle_usb (hdr := Bench.header) (0, 0) 0 s H1 H2) as [payload E].
  exists payload. rewrite E. f_equal.
Defined.

(** On the bench: the same tick with the mode selected over XBee sends
    nothing, the counter being odd. *)
Lemma telemetry_cycle_xbee_witness :
  -32768 <= UsbPulse (Bench.linked [] [2]) <= 0
  /\ 0 < XBeePulse (Bench.linked [] [2])
  /\ trace (DoDebugModeOutput (hdr := Bench.header) (0, 0) 0 (Bench.linked [] [2]))
     = trace (Bench.linked [] [2]).
Proof.
  set (s := Bench.linked [] [2]).
  assert (H1 : NudgeMotor s = -1) by (vm_compute; reflexivity).
  assert (H2 : -32768 <= UsbPulse s <= 0) by (vm_compute; split; discriminate).
  assert (H3 : 0 < XBeePulse s) by (vm_compute; reflexivity).
  split; [exact H2|]. split; [exact H3|].
  destruct (telemetry_cycle_xbee (hdr := Bench.header) (0, 0) 0 s H1 H2 H3) as [payload E].
  rewrite E. transitivity (trace s ++ []); [|apply app_nil_r].
  f_equal.
Defined.

(** On the bench: the calibration request followed by a byte other than
    0xFF commands no motor. *)
Lemma throttle_calibration_needs_confirmation_witness :
  NudgeMotor ((Bench.incoming [1] [] (Bench.started 2 2 8500)) <| NudgeMotor := 6 |>) = 6
  /\ trace (motor_test (hdr := Bench.header) (0, 0)
              ((Bench.incoming [1] [] (Bench.started 2 2 8500)) <| NudgeMotor := 6 |>))
     = trace (Bench.started 2 2 8500) ++ replicate 4 (E_BeepHz 4500 100).
Proof.
  set (s := (Bench.incoming [1] [] (Bench.started 2 2 8500)) <| NudgeMotor := 6 |>).
  assert (H1 : NudgeMotor s = 6) by reflexivity.
  split; [exact H1|].
  rewrite (throttle_calibration_needs_confirmation (hdr := Bench.header) (0, 0) s H1).
  vm_compute. reflexivity.
Defined.
(** ** The flight loop while disarmed *)

Section Disarmed.

Context {hdr : Header} {pid : IntPID_ops} {imu_ops : QuatIMU_ops}
        {sens_ops : Sensors_ops} {prefs_ops : Prefs_ops}.

Lemma tick_view_motor (x y : State) :
  tick_view x = tick_view y -> Motor x = Motor y /\ FlightEnabled x = FlightEnabled y.
Proof. unfold tick_view. intros H. injection H. intros. split; assumption. Qed.

Lemma select_view_motor (x y : State) :
  select_view x = select_view y -> Motor x = Motor y /\ FlightEnabled x = FlightEnabled y.
Proof. unfold select_view. intros H. injection H. intros. split; assumption. Qed.

Lemma monitor_view_motor (x y : State) : monitor_view x = monitor_view y -> Motor x = Motor y.
Proof. unfold monitor_view. intros H. injection H. intros. assumption. Qed.

Lemma flight_view_motor (x y : State) : flight_view x = flight_view y -> Motor x = Motor y.
Proof. unfold flight_view. intros H. injection H. intros. assumption. Qed.

Lemma no_servo_body feed g :
  Forall (fun e => forall pin v, e <> E_Servo32_Set pin v) (beeps g) ->
  Forall (fun e => forall pin v, e <> E_Servo32_Set pin v) (beeps (gz_body feed g)).
Proof.
  intros H. unfold gz_body. destruct (gz_window feed (win g)) as [w v].
  destruct (_ || _); cbn [beeps]; destruct (_ =? 3); try exact H;
    (apply Forall_app; split; [exact H|]);
    (constructor; [intros pin x C; discriminate C|constructor]).
Qed.

Lemma no_servo_loop feed fuel g :
  Forall (fun e => forall pin v, e <> E_Servo32_Set pin v) (beeps g) ->
  Forall (fun e => forall pin v, e <> E_Servo32_Set pin v) (beeps (gz_loop feed fuel g)).
Proof.
  revert g. induction fuel as [|fuel IH]; intros g H; cbn [gz_loop]; cbv zeta.
  - apply no_servo_body, H.
  - destruct (gz_continue (gz_body feed g)); [apply IH|]; apply no_servo_body, H.
Qed.

Lemma no_servo_search feed :
  Forall (fun e => forall pin v, e <> E_Servo32_Set pin v) (beeps (gz_search feed)).
Proof. unfold gz_search. apply no_servo_loop. constructor. Qed.

Lemma battery_alarm_trace (x : State) :
  exists t, battery_alarm x = x <| trace := trace x ++ t |>
            /\ Forall (fun e => forall pin v, e <> E_Servo32_Set pin v) t.
Proof.
  assert (E0 : x = x <| trace := trace x ++ [] |>)
    by (rewrite app_nil_r; destruct x; reflexivity).
  unfold battery_alarm, BeepOn, BeepOff, emit.
  destruct PINS_V3; [|exists []; split; [exact E0|constructor]].
  destruct (_ && _); [|exists []; split; [exact E0|constructor]].
  destruct (_ && _).
  { eexists. split; [reflexivity|]. constructor; [intros pin v C; discriminate C|constructor]. }
  destruct (_ >? 32); [|exists []; split; [exact E0|constructor]].
  eexists. split; [reflexivity|]. constructor; [intros pin v C; discriminate C|constructor].
Qed.

Lemma UpdateFlightLoop_disarmed_quiet feed (s : State) :
  FlightEnabled s = 0 ->
  Motor (UpdateFlightLoop feed s) = Motor s
  /\ exists t, trace (UpdateFlightLoop feed s) = trace s ++ t
               /\ Forall (fun e => forall pin v, e <> E_Servo32_Set pin v) t.
Proof.
  intros Hd. rewrite (UpdateFlightLoop_disarmed feed s Hd).
  destruct (battery_alarm_trace (disarmed_sticks feed (UpdateFlightLEDColor s)))
    as (t & -> & Ht).
  rewrite UpdateFlightLEDColor_eq.
  set (s0 := s <| LEDModeColor := _ |>).
  destruct (disarmed_sticks_cases feed s0)
    as [(_ & _ & ->)|[(_ & _ & ->)|[(_ & _ & ->)|(_ & _ & ->)]]].
  - rewrite ArmFlightMode_eq.
    generalize (no_servo_search feed). generalize (gz_search feed). intros g Hg.
    split; [reflexivity|].
    exists ([E_Beep2] ++ beeps g ++ [E_BeepTune] ++ t). split.
    + subst s0. st_simpl. rewrite <- !app_assoc. reflexivity.
    + apply Forall_app. split; [constructor; [intros pin v C; discriminate C|constructor]|].
      apply Forall_app. split; [exact Hg|].
      apply Forall_app. split; [|exact Ht].
      constructor; [intros pin v C; discriminate C|constructor].
  - split; [reflexivity|]. exists t. split; [reflexivity|exact Ht].
  - split; [reflexivity|]. exists t. split; [reflexivity|exact Ht].
  - split; [reflexivity|]. exists t. split; [reflexivity|exact Ht].
Qed.

Lemma flight_tick_disarmed_Motor i (s : State) :
  FlightEnabled s = 0 -> Motor (flight_tick i s) = Motor s.
Proof.
  intros Hd. unfold flight_tick. cbv zeta.
  remember (if negb (UseSBUS (Prefs (intake i s)) =? 0)
            then read_radio (in_SBUS_GetRC i) (intake i s)
            else read_radio (in_RC_GetRC i) (intake i s)) as s2 eqn:E2.
  assert (Hv2 : tick_view s2 = tick_view s).
  { subst s2. destruct (negb _); rewrite read_radio_tick; apply intake_tick. }
  clear E2. apply tick_view_motor in Hv2. destruct Hv2 as [M2 F2].
  remember (if bool_decide (FlightMode s2 = FlightMode_CalibrateCompass)
            then DoCompassCalibrate s2
            else UpdateFlightLoop (in_Sensors_In i) (select_flight_mode s2)) as s4 eqn:E4.
  assert (M4 : Motor s4 = Motor s).
  { subst s4. destruct (bool_decide _); [exact M2|].
    destruct (select_view_motor _ _ (select_flight_mode_select s2)) as [M3 F3].
    destruct (UpdateFlightLoop_disarmed_quiet (in_Sensors_In i) (select_flight_mode s2))
      as [M _]; [rewrite F3, F2; exact Hd|].
    rewrite M, M3. exact M2. }
  clear E4.
  pose proof (monitor_view_motor _ _ (battery_monitor_monitor (in_battery i) s4)) as M5.
  unfold All_LED. st_simpl. norm_proj. rewrite M5. exact M4.
Qed.

(** X28: a tick that starts disarmed commands no motor from the flight
    loop.  UpdateFlightLoop leaves the four motor values as they are and
    what it adds to the calls made contains no servo pulse, also on the tick
    that arms; and the whole iteration of the main loop leaves the motor
    values as they are. *)
Theorem disarmed_tick_commands_no_motor :
  forall (i : TickIn) (feed : nat -> Z -> Z) (s : State),
    FlightEnabled s = 0 ->
    Motor (UpdateFlightLoop feed s) = Motor s
    /\ (exists t, trace (UpdateFlightLoop feed s) = trace s ++ t
                  /\ Forall (fun e => forall pin v, e <> E_Servo32_Set pin v) t)
    /\ Motor (main_loop_body i s) = Motor s.
Proof.
  intros i feed s Hd.
  destruct (UpdateFlightLoop_disarmed_quiet feed s Hd) as [HM HT].
  split; [exact HM|]. split; [exact HT|].
  rewrite <- (flight_tick_disarmed_Motor i s Hd).
  unfold main_loop_body. cbv zeta.
  generalize (flight_tick i s). intros s1.
  pose proof (CheckDebugInput_flight (receive i (update_estimates s1))) as H1.
  generalize dependent (CheckDebugInput (receive i (update_estimates s1))). intros s2 H1.
  pose proof (DoDebugModeOutput_flight (in_late0 i) (in_phase i) s2) as H2.
  generalize dependent (DoDebugModeOutput (in_late0 i) (in_phase i) s2). intros s3 H2.
  rewrite H1 in H2. apply flight_view_motor in H2.
  st_simpl. norm_proj. exact H2.
Qed.

End Disarmed.

(** On the bench: the tick after start-up, sticks centred. *)
Lemma disarmed_tick_commands_no_motor_witness :
  FlightEnabled (Bench.started 2 2 8500) = 0
  /\ Motor (main_loop_body (hdr := Bench.header) Bench.centred (Bench.started 2 2 8500))
     = [8000; 8000; 8000; 8000].
Proof.
  assert (H : FlightEnabled (Bench.started 2 2 8500) = 0) by (vm_compute; reflexivity).
  split; [exact H|].
  destruct (disarmed_tick_commands_no_motor (hdr := Bench.header) Bench.centred
              (fun _ _ => 0) (Bench.started 2 2 8500) H) as (_ & _ & E).
  rewrite E. vm_compute. reflexivity.
Defined.
(** ** The arithmetic helpers *)

(** X29: [clamp] never returns more than the upper bound.  With the bounds
    in order the result lies between them and a value already between them
    is returned as it is; with the bounds crossed the result is the upper
    bound, whatever the value. *)
Theorem clamp_bounds :
  forall v lo hi,
    clamp v lo hi <= hi
    /\ (lo <= hi -> lo <= clamp v lo hi /\ (lo <= v <= hi -> clamp v lo hi = v))
    /\ (hi < lo -> clamp v lo hi = hi).
Proof.
  intros v lo hi. unfold clamp. cbv zeta.
  destruct (Z.ltb_spec v lo); destruct (Z.gtb_spec lo hi); destruct (Z.gtb_spec v hi);
    repeat split; intros; lia.
Qed.
(** ** The colour of a tick *)

Section TickColor.

Context {hdr : Header} {pid : IntPID_ops} {imu_ops : QuatIMU_ops}
        {sens_ops : Sensors_ops} {prefs_ops : Prefs_ops}.

Lemma control_view_led (x y : State) :
  control_view x = control_view y ->
  LEDModeColor x = LEDModeColor y /\ Prefs x = Prefs y
  /\ BatteryMonitorDelay x = BatteryMonitorDelay y.
Proof.
  unfold control_view, link_view. intros H. injection H. intros. repeat split; assumption.
Qed.

Lemma DisarmFlightMode_led (y : State) :
  LEDModeColor (DisarmFlightMode y) = LEDModeColor y
  /\ Prefs (DisarmFlightMode y) = Prefs y
  /\ BatteryMonitorDelay (DisarmFlightMode y) = BatteryMonitorDelay y.
Proof.
  unfold DisarmFlightMode. cbv zeta.
  match goal with |- context [for_loop 4 ?b y] =>
    pose proof (for_loop_frame
                  (fun z : State => (LEDModeColor z, Prefs z, BatteryMonitorDelay z))
                  4 b y (fun i x => eq_refl)) as H;
    generalize dependent (for_loop 4 b y) end.
  intros z H. injection H. intros H3 H2 H1.
  unfold All_LED, Beep3, emit. st_simpl. norm_proj. repeat split; assumption.
Qed.

Lemma battery_alarm_led (y : State) :
  LEDModeColor (battery_alarm y) = LEDModeColor y
  /\ Prefs (battery_alarm y) = Prefs y
  /\ BatteryMonitorDelay (battery_alarm y) = BatteryMonitorDelay y.
Proof. destruct (battery_alarm_eq y) as [t ->]. repeat split. Qed.

(** The colour UpdateFlightLoop leaves: the one UpdateFlightLEDColor
    selects, unless a stick gesture is held. *)
Lemma UpdateFlightLoop_led feed (x : State) :
  LEDModeColor (UpdateFlightLoop feed x)
  = (if FlightEnabled x =? 0 then
       if decide (arm_gesture (Radio x)) then Z.land LED_Yellow LED_Half
       else if decide (compass_gesture (Radio x)) then Z.land (Z.lor LED_Blue LED_Red) LED_Half
       else LEDModeColor (UpdateFlightLEDColor x)
     else
       if decide (disarm_gesture (Radio x)) then Z.land LED_Yellow LED_Half
       else LEDModeColor (UpdateFlightLEDColor x))
  /\ Prefs (UpdateFlightLoop feed x) = Prefs x
  /\ BatteryMonitorDelay (UpdateFlightLoop feed x) = BatteryMonitorDelay x.
Proof.
  destruct (Z.eq_dec (FlightEnabled x) 0) as [Hd|Ha].
  - rewrite (UpdateFlightLoop_disarmed feed x Hd).
    destruct (battery_alarm_led (disarmed_sticks feed (UpdateFlightLEDColor x)))
      as (-> & -> & ->).
    apply Z.eqb_eq in Hd. rewrite Hd. rewrite UpdateFlightLEDColor_eq.
    set (s0 := x <| LEDModeColor := _ |>).
    change (Radio x) with (Radio s0).
    destruct (disarmed_sticks_cases feed s0)
      as [(G & _ & ->)|[(G & _ & ->)|[(G & K & ->)|(G & K & ->)]]].
    + rewrite ArmFlightMode_eq. generalize (gz_search feed). intros g.
      destruct (decide (arm_gesture (Radio s0))) as [_|N]; [|contradiction].
      repeat split.
    + destruct (decide (arm_gesture (Radio s0))) as [_|N]; [|contradiction].
      repeat split.
    + destruct (decide (arm_gesture (Radio s0))) as [Y|_]; [contradiction|].
      destruct (decide (compass_gesture (Radio s0))) as [_|N]; [|contradiction].
      repeat split.
    + destruct (decide (arm_gesture (Radio s0))) as [Y|_]; [contradiction|].
      destruct (decide (compass_gesture (Radio s0))) as [Y|_]; [contradiction|].
      repeat split.
  - rewrite (UpdateFlightLoop_armed feed x Ha).
    apply Z.eqb_neq in Ha. rewrite Ha. rewrite UpdateFlightLEDColor_eq.
    set (s0 := x <| LEDModeColor := _ |>).
    change (Radio x) with (Radio s0).
    destruct (armed_sticks_cases s0) as [(s1 & -> & G & _ & ->)|[(-> & G & _)|(-> & G)]].
    + destruct (decide (disarm_gesture (Radio s0))) as [_|N]; [|contradiction].
      match goal with |- context [DisarmFlightMode ?y] =>
        destruct (DisarmFlightMode_led y) as (-> & -> & ->) end.
      repeat split.
    + destruct (decide (disarm_gesture (Radio s0))) as [_|N]; [|contradiction].
      match goal with |- context [battery_alarm (flight_control ?y)] =>
        destruct (battery_alarm_led (flight_control y)) as (-> & -> & ->);
        destruct (control_view_led _ _ (flight_control_control y)) as (-> & -> & ->) end.
      repeat split.
    + destruct (decide (disarm_gesture (Radio s0))) as [Y|_]; [contradiction|].
      match goal with |- context [battery_alarm (flight_control ?y)] =>
        destruct (battery_alarm_led (flight_control y)) as (-> & -> & ->);
        destruct (control_view_led _ _ (flight_control_control y)) as (-> & -> & ->) end.
      repeat split.
Qed.

Lemma battery_monitor_led b (y : State) :
  LEDModeColor (battery_monitor b y)
  = if negb (UseBattMon (Prefs y) =? 0) && (BatteryMonitorDelay y >? 0)
    then LED_Blue else LEDModeColor y.
Proof.
  unfold battery_monitor.
  destruct (negb (UseBattMon (Prefs y) =? 0)); [|reflexivity]. cbn [andb].
  destruct (BatteryMonitorDelay y >? 0); [reflexivity|].
  repeat match goal with |- context [if ?c then _ else _] => destruct c end; reflexivity.
Qed.

Lemma tick_led_color_eq feed b (x : State) :
  LEDModeColor (battery_monitor b (UpdateFlightLoop feed x)) = tick_led_color x.
Proof.
  rewrite battery_monitor_led.
  destruct (UpdateFlightLoop_led feed x) as (-> & -> & ->). reflexivity.
Qed.

(** A tick outside compass calibration ends by showing the colour the
    battery monitor leaves. *)
Lemma flight_tick_led i (s : State) :
  FlightMode s <> FlightMode_CalibrateCompass ->
  flight_tick i s
  = All_LED (LEDModeColor (battery_monitor (in_battery i)
                             (UpdateFlightLoop (in_Sensors_In i) (before_flight_loop i s))))
      (battery_monitor (in_battery i)
         (UpdateFlightLoop (in_Sensors_In i) (before_flight_loop i s))).
Proof.
  intros Hm. unfold flight_tick, before_flight_loop. cbv zeta.
  remember (if negb (UseSBUS (Prefs (intake i s)) =? 0)
            then read_radio (in_SBUS_GetRC i) (intake i s)
            else read_radio (in_RC_GetRC i) (intake i s)) as s2 eqn:E2.
  assert (Hv2 : tick_view s2 = tick_view s).
  { subst s2. destruct (negb _); rewrite read_radio_tick; apply intake_tick. }
  clear E2. open_view Hv2.
  assert (Hm2 : FlightMode s2 <> FlightMode_CalibrateCompass) by congruence.
  rewrite (bool_decide_eq_false_2 _ Hm2). reflexivity.
Qed.

(** C9 (as the code has it): the colour UpdateFlightLEDColor selects is a
    function of FlightMode, FlightEnabled, IsHolding, LowBatt and counter
    alone.  The colour a tick outside compass calibration hands to All_LED
    is that colour only when nothing overrides it: it is LED_Blue while the
    battery monitor's start-up delay runs; otherwise half-bright yellow
    while the arming gesture is held by a disarmed controller or the disarm
    gesture by an armed one, and half-bright blue-and-red while the compass
    gesture is held by a disarmed controller. *)
Theorem led_color_of_tick :
  (forall a b : State,
      FlightMode a = FlightMode b -> FlightEnabled a = FlightEnabled b ->
      IsHolding a = IsHolding b -> LowBatt a = LowBatt b -> counter a = counter b ->
      LEDModeColor (UpdateFlightLEDColor a) = LEDModeColor (UpdateFlightLEDColor b))
  /\ (forall (i : TickIn) (s : State),
        FlightMode s <> FlightMode_CalibrateCompass ->
        LEDModeColor (flight_tick i s) = tick_led_color (before_flight_loop i s)
        /\ LEDValue (flight_tick i s)
           = replicate LED_COUNT (tick_led_color (before_flight_loop i s))).
Proof.
  split.
  - intros a b HM HE HH HL HC. rewrite !UpdateFlightLEDColor_eq.
    st_simpl. norm_proj. rewrite HM, HE, HH, HL, HC. reflexivity.
  - intros i s Hm. rewrite (flight_tick_led i s Hm).
    pose proof (tick_led_color_eq (in_Sensors_In i) (in_battery i)
                  (before_flight_loop i s)) as E.
    generalize dependent (battery_monitor (in_battery i)
                            (UpdateFlightLoop (in_Sensors_In i) (before_flight_loop i s))).
    intros y E. unfold All_LED. split.
    + exact E.
    + change (replicate LED_COUNT (LEDModeColor y)
              = replicate LED_COUNT (tick_led_color (before_flight_loop i s))).
      rewrite E. reflexivity.
Qed.

End TickColor.

(** Both parts on the bench: the radio and mode steps of a centred tick
    leave the five values as they were, and so the selected colour; the
    arming gesture on a disarmed controller whose battery monitor has
    started shows half-bright yellow. *)
Lemma led_color_of_tick_witness :
  (FlightMode Bench.settled = FlightMode (before_flight_loop Bench.centred Bench.settled)
   /\ FlightEnabled Bench.settled = FlightEnabled (before_flight_loop Bench.centred Bench.settled)
   /\ IsHolding Bench.settled = IsHolding (before_flight_loop Bench.centred Bench.settled)
   /\ LowBatt (hdr := Bench.header) Bench.settled
      = LowBatt (hdr := Bench.header) (before_flight_loop Bench.centred Bench.settled)
   /\ counter Bench.settled = counter (before_flight_loop Bench.centred Bench.settled)
   /\ FlightMode Bench.settled <> FlightMode_CalibrateCompass)
  /\ LEDModeColor (UpdateFlightLEDColor (hdr := Bench.header) Bench.settled)
     = LEDModeColor (UpdateFlightLEDColor (hdr := Bench.header)
                       (before_flight_loop Bench.centred Bench.settled))
  /\ LEDValue (flight_tick (hdr := Bench.header) Bench.arm_sticks Bench.settled)
     = replicate 2 (Z.land (LED_Yellow (Header := Bench.header))
                           (LED_Half (Header := Bench.header))).
Proof.
  assert (H1 : FlightMode Bench.settled
               = FlightMode (before_flight_loop Bench.centred Bench.settled))
    by (vm_compute; reflexivity).
  assert (H2 : FlightEnabled Bench.settled
               = FlightEnabled (before_flight_loop Bench.centred Bench.settled))
    by (vm_compute; reflexivity).
  assert (H3 : IsHolding Bench.settled
               = IsHolding (before_flight_loop Bench.centred Bench.settled))
    by (vm_compute; reflexivity).
  assert (H4 : LowBatt (hdr := Bench.header) Bench.settled
               = LowBatt (hdr := Bench.header)
                   (before_flight_loop Bench.centred Bench.settled))
    by (vm_compute; reflexivity).
  assert (H5 : counter Bench.settled
               = counter (before_flight_loop Bench.centred Bench.settled))
    by (vm_compute; reflexivity).
  assert (H : FlightMode Bench.settled <> FlightMode_CalibrateCompass)
    by (vm_compute; discriminate).
  split; [exact (conj H1 (conj H2 (conj H3 (conj H4 (conj H5 H)))))|].
  split.
  - exact (proj1 (led_color_of_tick (hdr := Bench.header)) _ _ H1 H2 H3 H4 H5).
  - destruct (proj2 (led_color_of_tick (hdr := Bench.header))
                Bench.arm_sticks Bench.settled H) as [_ E].
    rewrite E. vm_compute. reflexivity.
Defined.

(** C9 as stated does not hold: the sticks decide the colour too.  The
    bench controller is disarmed and its battery monitor has started.  A
    tick with the sticks centred and a tick with the sticks in the arming
    corner call UpdateFlightLoop with the same FlightMode, FlightEnabled,
    IsHolding, LowBatt and counter, and show different colours. *)
Lemma led_color_counterexample :
  (FlightMode (before_flight_loop Bench.centred Bench.settled),
   FlightEnabled (before_flight_loop Bench.centred Bench.settled),
   IsHolding (before_flight_loop Bench.centred Bench.settled),
   LowBatt (hdr := Bench.header) (before_flight_loop Bench.centred Bench.settled),
   counter (before_flight_loop Bench.centred Bench.settled))
  = (FlightMode (before_flight_loop Bench.arm_sticks Bench.settled),
     FlightEnabled (before_flight_loop Bench.arm_sticks Bench.settled),
     IsHolding (before_flight_loop Bench.arm_sticks Bench.settled),
     LowBatt (hdr := Bench.header) (before_flight_loop Bench.arm_sticks Bench.settled),
     counter (before_flight_loop Bench.arm_sticks Bench.settled))
  /\ LEDValue (flight_tick (hdr := Bench.header) Bench.centred Bench.settled)
     = [16711680; 16711680]
  /\ LEDValue (flight_tick (hdr := Bench.header) Bench.arm_sticks Bench.settled)
     = [8355584; 8355584]
  /\ LEDValue (flight_tick (hdr := Bench.header) Bench.centred Bench.settled)
     <> LEDValue (flight_tick (hdr := Bench.header) Bench.arm_sticks Bench.settled).
Proof.
  assert (E1 : LEDValue (flight_tick (hdr := Bench.header) Bench.centred Bench.settled)
               = [16711680; 16711680]) by (vm_compute; reflexivity).
  assert (E2 : LEDValue (flight_tick (hdr := Bench.header) Bench.arm_sticks Bench.settled)
               = [8355584; 8355584]) by (vm_compute; reflexivity).
  split; [vm_compute; reflexivity|]. split; [exact E1|]. split; [exact E2|].
  rewrite E1, E2. discriminate.
Qed.
